(** * LabJack stream controller: a shallow embedding of
      [labjack_stream_control.py] and the properties of its stream engine.

    Modelling conventions.
    - Python [int] is [Z]; Python [float] is an exact rational [Q]
      (binary64 rounding is outside the model, numeric equality of floats
      is [Qeq]).  A float that a row of the log carries is given by the
      expression the code computes it with.  The time stamp of a logged
      row, where the rounding decides a property, is also given in
      binary64, on the Standard Library's IEEE 754 arithmetic
      ([sample_period_binary64], [time_s_binary64]).
    - [math.sin] and [math.pi] are parameters of the waveform generator.
    - The [ljm] library and the device behind the handle are a scripted
      mock, [Device]: a register file, a streaming flag, a queue of stream
      reads, a schedule of faults for the coming calls, and the history of
      every call made.  The controller owns the device through [handle].
      Every call that takes the handle, [ljm.close] included, uses up one
      slot of the schedule and fails with the error code found there, for
      whatever reason the device has (a handle that is no longer open is
      one).
    - Exceptions are explicit: every method is a state transformer over the
      controller that ends in [Ok] or [Raise], and keeps the state it
      reached when it raises. *)

From Stdlib Require Import ZArith QArith Qround List Lia.
From Stdlib Require SpecFloat.
From stdpp Require Import base option list strings gmap pretty.

Local Open Scope Z_scope.

(** ** Python numerics *)

Module Py.

(** [int(x)] of a float: truncation toward zero. *)
Definition int (x : Q) : Z := Z.quot (Qnum x) (Zpos (Qden x)).

(** [round(x)] of a float, no digits: nearest integer, ties to even. *)
Definition round (x : Q) : Z :=
  let f := Qfloor x in
  match Qcompare (x - inject_Z f) (1 # 2) with
  | Lt => f
  | Gt => f + 1
  | Eq => if Z.even f then f else f + 1
  end.

(** [max(a, b)] on floats: [b] when [b > a], else [a]. *)
Definition fmax (a b : Q) : Q := if Qle_bool b a then a else b.

(** [max(a, b)] and [min(a, b)] on ints. *)
Definition imax (a b : Z) : Z := if a <? b then b else a.
Definition imin (a b : Z) : Z := if b <? a then b else a.

(** [int(math.ceil(math.log2(n)))] for an int [n >= 1]: the least [k]
    with [n <= 2 ** k]. *)
Definition ceil_log2 (n : Z) : Z := Z.log2_up n.

(** [len(l)]. *)
Definition len {A} (l : list A) : Z := Z.of_nat (length l).

(** [[x] * n]: empty when [n <= 0]. *)
Definition repeat {A} (x : A) (n : Z) : list A := List.repeat x (Z.to_nat n).

(** [range(n)]. *)
Definition range (n : Z) : list Z := map Z.of_nat (seq 0 (Z.to_nat n)).

(** [l[:n]]: a negative [n] counts from the end. *)
Definition prefix {A} (n : Z) (l : list A) : list A :=
  if n <? 0 then firstn (Z.to_nat (len l + n)) l else firstn (Z.to_nat n) l.

(** [l[i]]: a negative [i] counts from the end; [None] is IndexError. *)
Definition index {A} (l : list A) (i : Z) : option A :=
  if i <? 0 then
    if i <? - len l then None else l !! Z.to_nat (len l + i)
  else l !! Z.to_nat i.

(** Truth value of a float. *)
Definition truthy (x : Q) : bool := negb (Qeq_bool x 0).

End Py.

(** ** Exceptions and the controller monad *)

Inductive exn :=
| LJMError (errorCode : Z)
| ValueError (msg : string)
| ZeroDivisionError
| IndexError.

Inductive outcome (A : Type) :=
| Ok (a : A)
| Raise (e : exn).
Arguments Ok {A} a.
Arguments Raise {A} e.

Definition M (S A : Type) : Type := S → outcome A * S.

Definition ret {S A} (a : A) : M S A := fun s => (Ok a, s).
Definition raise {S A} (e : exn) : M S A := fun s => (Raise e, s).
Definition bind {S A B} (m : M S A) (k : A → M S B) : M S B :=
  fun s => match m s with
           | (Ok a, s') => k a s'
           | (Raise e, s') => (Raise e, s')
           end.
Definition get {S} : M S S := fun s => (Ok s, s).
Definition modify {S} (f : S → S) : M S unit := fun s => (Ok tt, f s).

(** [try: m except LJMError as exc: h exc]; other exceptions pass through. *)
Definition try_except_LJMError {S A} (m : M S A) (h : Z → M S A) : M S A :=
  fun s => match m s with
           | (Raise (LJMError code), s') => h code s'
           | r => r
           end.

(** stdpp's monad notations: [x ← m; k] and [m;; k]. *)
#[global] Instance M_ret {S} : MRet (M S) := fun A => @ret S A.
#[global] Instance M_bind {S} : MBind (M S) := fun A B k m => @bind S A B m k.

(** ** The mocked [ljm] library and device *)

Module errorcodes.
(** Codes of [labjack.ljm.errorcodes]; only their being distinct matters. *)
Definition MBE2_ILLEGAL_DATA_ADDRESS : Z := 1202.
Definition INVALID_NAME : Z := 1294.
Definition NO_SCANS_RETURNED : Z := 1301.
Definition STREAM_IS_ACTIVE : Z := 2605.
Definition STREAM_NOT_RUNNING : Z := 2620.
End errorcodes.

Inductive value :=
| VInt (n : Z)
| VFloat (x : Q).

Inductive event :=
| EvWriteName (name : string) (v : value) (err : option Z)
| EvWriteNames (names : list string) (vs : list value) (err : option Z)
| EvStreamStart (scansPerRead : Z) (aScanList : list Z) (scanRate : Q)
    (err : option Z)
| EvStreamRead (err : option Z)
| EvStreamStop (err : option Z)
| EvClose
| EvCloseFailed (code : Z)
| EvSleep (seconds : Q).

(** What the device hands back on one [eStreamRead]. *)
Record stream_read := {
  aData : list Q;
  deviceScanBacklog : Z;
  ljmScanBacklog : Z
}.

Record Device := {
  deviceType : Z;
  addresses : gmap string Z;      (* the register name table *)
  clock_rate : Q → Q;             (* requested scan rate ↦ actual scan rate *)
  registers : gmap string value;  (* last value written to each register *)
  streaming : bool;
  pending : list stream_read;     (* the coming stream reads, in order *)
  faults : list (option Z);       (* error code of each coming call, if any *)
  history : list event;           (* every call so far, oldest first *)
  is_open : bool
}.

Module ljm.

Module constants.
Definition dtT4 : Z := 4.
Definition dtT7 : Z := 7.
End constants.

(** The fault scheduled for the call being made, and the schedule left. *)
Definition next_fault (d : Device) : option Z * list (option Z) :=
  match faults d with
  | [] => (None, [])
  | f :: fs => (f, fs)
  end.

(** The call [ev] has been made and has used up its fault slot. *)
Definition called (ev : event) (fs : list (option Z)) (d : Device) : Device :=
  {| deviceType := deviceType d; addresses := addresses d;
     clock_rate := clock_rate d; registers := registers d;
     streaming := streaming d; pending := pending d;
     faults := fs; history := history d ++ [ev]; is_open := is_open d |}.

Definition with_registers (r : gmap string value) (d : Device) : Device :=
  {| deviceType := deviceType d; addresses := addresses d;
     clock_rate := clock_rate d; registers := r;
     streaming := streaming d; pending := pending d;
     faults := faults d; history := history d; is_open := is_open d |}.

Definition with_stream (on : bool) (q : list stream_read) (d : Device) : Device :=
  {| deviceType := deviceType d; addresses := addresses d;
     clock_rate := clock_rate d; registers := registers d;
     streaming := on; pending := q;
     faults := faults d; history := history d; is_open := is_open d |}.

(** The handle has been closed, by a call that used up its fault slot. *)
Definition closed (fs : list (option Z)) (d : Device) : Device :=
  {| deviceType := deviceType d; addresses := addresses d;
     clock_rate := clock_rate d; registers := registers d;
     streaming := false; pending := pending d;
     faults := fs; history := history d ++ [EvClose]; is_open := false |}.

(** [ljm.eWriteName(handle, name, value)] *)
Definition eWriteName (name : string) (v : value) : M Device unit := fun d =>
  let (f, fs) := next_fault d in
  match f with
  | Some code => (Raise (LJMError code), called (EvWriteName name v f) fs d)
  | None =>
      let d' := called (EvWriteName name v None) fs d in
      (Ok tt, with_registers (<[name := v]> (registers d')) d')
  end.

(** [ljm.eWriteNames(handle, numFrames, aNames, aValues)]: one call, the
    first [numFrames] pairs are stored in order. *)
Definition eWriteNames (numFrames : Z) (aNames : list string)
    (aValues : list value) : M Device unit := fun d =>
  let (f, fs) := next_fault d in
  match f with
  | Some code =>
      (Raise (LJMError code), called (EvWriteNames aNames aValues f) fs d)
  | None =>
      let d' := called (EvWriteNames aNames aValues None) fs d in
      let frames := Py.prefix numFrames (zip aNames aValues) in
      (Ok tt,
       with_registers
         (fold_left (fun r nv => <[nv.1 := nv.2]> r) frames (registers d')) d')
  end.

(** [ljm.nameToAddress(name)[0]] *)
Definition nameToAddress (name : string) : M Device Z := fun d =>
  match addresses d !! name with
  | Some a => (Ok a, d)
  | None => (Raise (LJMError errorcodes.INVALID_NAME), d)
  end.

(** [ljm.namesToAddresses(numFrames, aNames)[0]] *)
Fixpoint namesToAddresses_go (aNames : list string) : M Device (list Z) :=
  match aNames with
  | [] => mret []
  | n :: ns => a ← nameToAddress n; r ← namesToAddresses_go ns; mret (a :: r)
  end.
Definition namesToAddresses (numFrames : Z) (aNames : list string)
  : M Device (list Z) :=
  namesToAddresses_go (Py.prefix numFrames aNames).

(** [ljm.eStreamStart(handle, scansPerRead, numAddresses, aScanList,
    scanRate)]: returns the actual scan rate. *)
Definition eStreamStart (scansPerRead numAddresses : Z) (aScanList : list Z)
    (scanRate : Q) : M Device Q := fun d =>
  let (f, fs) := next_fault d in
  let ev := EvStreamStart scansPerRead aScanList scanRate in
  match f with
  | Some code => (Raise (LJMError code), called (ev f) fs d)
  | None =>
      if streaming d then
        (Raise (LJMError errorcodes.STREAM_IS_ACTIVE),
         called (ev (Some errorcodes.STREAM_IS_ACTIVE)) fs d)
      else
        (Ok (clock_rate d scanRate),
         with_stream true (pending d) (called (ev None) fs d))
  end.

(** [ljm.eStreamRead(handle)]: [(aData, deviceScanBacklog, ljmScanBacklog)]. *)
Definition eStreamRead : M Device stream_read := fun d =>
  let (f, fs) := next_fault d in
  match f with
  | Some code => (Raise (LJMError code), called (EvStreamRead f) fs d)
  | None =>
      if streaming d then
        match pending d with
        | r :: q => (Ok r, with_stream true q (called (EvStreamRead None) fs d))
        | [] =>
            (Raise (LJMError errorcodes.NO_SCANS_RETURNED),
             called (EvStreamRead (Some errorcodes.NO_SCANS_RETURNED)) fs d)
        end
      else
        (Raise (LJMError errorcodes.STREAM_NOT_RUNNING),
         called (EvStreamRead (Some errorcodes.STREAM_NOT_RUNNING)) fs d)
  end.

(** [ljm.eStreamStop(handle)]: an error when no stream is running. *)
Definition eStreamStop : M Device unit := fun d =>
  let (f, fs) := next_fault d in
  match f with
  | Some code => (Raise (LJMError code), called (EvStreamStop f) fs d)
  | None =>
      if streaming d then
        (Ok tt, with_stream false (pending d) (called (EvStreamStop None) fs d))
      else
        (Raise (LJMError errorcodes.STREAM_NOT_RUNNING),
         called (EvStreamStop (Some errorcodes.STREAM_NOT_RUNNING)) fs d)
  end.

(** [ljm.close(handle)]: a call of the library like the others, which can
    fail; the handle is closed when it goes through and left as it is when
    it does not. *)
Definition close : M Device unit := fun d =>
  let (f, fs) := next_fault d in
  match f with
  | Some code => (Raise (LJMError code), called (EvCloseFailed code) fs d)
  | None => (Ok tt, closed fs d)
  end.

(** [time.sleep(seconds)], kept in the same history. *)
Definition sleep (seconds : Q) : M Device unit := fun d =>
  (Ok tt, called (EvSleep seconds) (faults d) d).

End ljm.

(** ** Module constants *)

(** The device-level configuration block at the top of the module (the
    values a deployment edits). *)
Record Settings := {
  STREAM_SCAN_RATE_HZ : Q;
  SCANS_PER_READ : Z;
  LED_FREQUENCY_HZ : Q;
  LED_AMPLITUDE_V : Q;
  LED_OFFSET_V : Q;
  LED_IDLE_V : Q
}.

(** The values the module ships with. *)
Definition shipped : Settings :=
  {| STREAM_SCAN_RATE_HZ := 4000; SCANS_PER_READ := 400;
     LED_FREQUENCY_HZ := 250; LED_AMPLITUDE_V := 2;
     LED_OFFSET_V := 5 # 2; LED_IDLE_V := 0 |}.

Definition PHOTODETECTOR_AIN : string := "AIN0".
Definition CAMERA_TTL_AIN : string := "AIN1".
Definition LED_MONITOR_AIN : string := "AIN2".
Definition LED_DAC_CHANNEL : string := "DAC0".
Definition STREAM_OUT_INDEX : Z := 0.
Definition TTL_STREAM_OUT_INDEX : Z := 1.
Definition START_PULSE_CHANNEL : string := "FIO0".
Definition START_PULSE_TARGET : string := "FIO_STATE".
Definition FIO0_MASK_ALLOW : Z := 0xFE.
Definition START_PULSE_WIDTH_S : Q := 1 # 1000.
Definition CAMERA_TRIGGER_RATE_HZ : Q := 30.
Definition NUM_CAMERA_FRAMES : Z := 300.

(** [f"STREAM_OUT{index}"] *)
Definition stream_out_name (index : Z) : string := "STREAM_OUT" +:+ pretty index.

(** ** StreamConfig and the controller's fields *)

Record StreamConfig := {
  scan_rate_hz : Q;
  scans_per_read : Z;
  input_names : list string;
  stream_out_names : list string
}.

Definition build_scan_list (self : StreamConfig)
    (enabled_stream_outs : list string) : list string :=
  input_names self ++ enabled_stream_outs.

Record Controller := {
  handle : Device;
  device_type : Z;
  stream_config : StreamConfig;
  _scan_list_addresses : list Z;
  _actual_scan_rate : Q;
  _ttl_waveform : option (list Z);
  _ttl_duration_s : Q;
  _ttl_num_pulses : Z;
  _num_inputs : Z
}.

Definition with_handle (h : Device) (c : Controller) : Controller :=
  {| handle := h; device_type := device_type c;
     stream_config := stream_config c;
     _scan_list_addresses := _scan_list_addresses c;
     _actual_scan_rate := _actual_scan_rate c;
     _ttl_waveform := _ttl_waveform c; _ttl_duration_s := _ttl_duration_s c;
     _ttl_num_pulses := _ttl_num_pulses c; _num_inputs := _num_inputs c |}.

Definition with_scan_list (a : list Z) (n : Z) (c : Controller) : Controller :=
  {| handle := handle c; device_type := device_type c;
     stream_config := stream_config c;
     _scan_list_addresses := a;
     _actual_scan_rate := _actual_scan_rate c;
     _ttl_waveform := _ttl_waveform c; _ttl_duration_s := _ttl_duration_s c;
     _ttl_num_pulses := _ttl_num_pulses c; _num_inputs := n |}.

Definition with_actual_scan_rate (r : Q) (c : Controller) : Controller :=
  {| handle := handle c; device_type := device_type c;
     stream_config := stream_config c;
     _scan_list_addresses := _scan_list_addresses c;
     _actual_scan_rate := r;
     _ttl_waveform := _ttl_waveform c; _ttl_duration_s := _ttl_duration_s c;
     _ttl_num_pulses := _ttl_num_pulses c; _num_inputs := _num_inputs c |}.

Definition with_ttl (w : option (list Z)) (dur : Q) (n : Z) (c : Controller)
  : Controller :=
  {| handle := handle c; device_type := device_type c;
     stream_config := stream_config c;
     _scan_list_addresses := _scan_list_addresses c;
     _actual_scan_rate := _actual_scan_rate c;
     _ttl_waveform := w; _ttl_duration_s := dur;
     _ttl_num_pulses := n; _num_inputs := _num_inputs c |}.

(** A call on [self.handle]. *)
Definition dev {A} (m : M Device A) : M Controller A := fun self =>
  let (r, h) := m (handle self) in (r, with_handle h self).

(** Truth value of [self._ttl_waveform]: neither [None] nor empty. *)
Definition has_ttl_waveform (c : Controller) : bool :=
  match _ttl_waveform c with
  | Some (_ :: _) => true
  | _ => false
  end.

(** [for x in l: body x] and [[f x for x in l]]. *)
Fixpoint for_each {S A} (l : list A) (body : A → M S unit) : M S unit :=
  match l with
  | [] => mret tt
  | x :: rest => body x;; for_each rest body
  end.

Fixpoint comprehension {S A B} (l : list A) (f : A → M S B) : M S (list B) :=
  match l with
  | [] => mret []
  | x :: rest => y ← f x; ys ← comprehension rest f; mret (y :: ys)
  end.

(** [l[i]] *)
Definition getitem {S A} (l : list A) (i : Z) : M S A :=
  match Py.index l i with
  | Some x => mret x
  | None => raise IndexError
  end.

(** [a // b] on ints. *)
Definition floordiv {S} (a b : Z) : M S Z :=
  if b =? 0 then raise ZeroDivisionError else mret (a / b).

(** [try: m finally: cleanup] *)
Definition try_finally {S A} (m : M S A) (cleanup : M S unit) : M S A :=
  fun s => match m s with
           | (r, s') =>
               match cleanup s' with
               | (Ok _, s'') => (r, s'')
               | (Raise e, s'') => (Raise e, s'')
               end
           end.

(** [a / b] on floats. *)
Definition truediv {S} (a b : Q) : M S Q :=
  if Qeq_bool b 0 then raise ZeroDivisionError else mret (a / b)%Q.

(** ** StreamedLabJackController *)

Section StreamedLabJackController.

Variable math_sin : Q → Q.
Variable math_pi : Q.
Variable K : Settings.

Definition _write_optional_register (name : string) (v : value)
  : M Controller unit :=
  try_except_LJMError (dev (ljm.eWriteName name v))
    (fun errorCode =>
       if errorCode =? errorcodes.MBE2_ILLEGAL_DATA_ADDRESS then mret tt
       else raise (LJMError errorCode)).

Definition _configure_fio0_direction : M Controller unit :=
  let v := Z.lor (Z.shiftl FIO0_MASK_ALLOW 8) 0x01 in
  _write_optional_register "FIO_DIRECTION" (VInt v).

Definition _set_fio0_state (high : bool) : M Controller unit :=
  let v := Z.lor (Z.shiftl FIO0_MASK_ALLOW 8) (if high then 0x01 else 0x00) in
  _write_optional_register "FIO_STATE" (VInt v).

Definition _configure_channels : M Controller unit :=
  self ← get;
  (if device_type self =? ljm.constants.dtT4 then
     dev (ljm.eWriteNames 2
            ["STREAM_SETTLING_US"; "STREAM_RESOLUTION_INDEX"]
            [VInt 0; VInt 0])
   else
     try_except_LJMError (dev ljm.eStreamStop) (fun _ => mret tt);;
     dev (ljm.eWriteName "STREAM_TRIGGER_INDEX" (VInt 0));;
     dev (ljm.eWriteName "STREAM_CLOCK_SOURCE" (VInt 0));;
     _write_optional_register "DIO_ANALOG_ENABLE" (VInt 0);;
     let ains := input_names (stream_config self) in
     let a_names :=
       ["STREAM_RESOLUTION_INDEX"; "STREAM_SETTLING_US"]
       ++ flat_map (fun ain => [ain +:+ "_RANGE"; ain +:+ "_NEGATIVE_CH"]) ains in
     let a_values :=
       [VInt 0; VInt 0] ++ flat_map (fun _ => [VFloat 10; VInt 199]) ains in
     dev (ljm.eWriteNames (Py.len a_names) a_names a_values));;
  _configure_fio0_direction;;
  dev (ljm.eWriteName LED_DAC_CHANNEL (VFloat (LED_IDLE_V K)));;
  _set_fio0_state false;;
  modify (fun self => with_scan_list [] (_num_inputs self) self).

(** [__init__], given the device [ljm.openS] opened. *)
Definition init (d : Device) : outcome unit * Controller :=
  let cfg :=
    {| scan_rate_hz := STREAM_SCAN_RATE_HZ K;
       scans_per_read := SCANS_PER_READ K;
       input_names := [PHOTODETECTOR_AIN; CAMERA_TTL_AIN; LED_MONITOR_AIN];
       stream_out_names := [stream_out_name STREAM_OUT_INDEX] |} in
  (_configure_channels;;
   modify (fun self =>
     with_scan_list (_scan_list_addresses self) (Py.len (input_names cfg)) self))
    {| handle := d; device_type := deviceType d; stream_config := cfg;
       _scan_list_addresses := []; _actual_scan_rate := scan_rate_hz cfg;
       _ttl_waveform := None; _ttl_duration_s := 0; _ttl_num_pulses := 0;
       _num_inputs := 0 |}.

(** Lines 195-196: the size of the device buffer for a waveform of
    [n] samples. *)
Definition buffer_size (n : Z) : Z :=
  let buffer_size := Py.imax 512 (2 ^ Py.ceil_log2 (Py.imax 1 n)) in
  Py.imin buffer_size 8192.

(** Lines 204-211: [for attempt in range(3)] around one sample write. *)
Fixpoint write_attempts (buffer_reg : string) (v : value) (attempts : list Z)
  : M Controller unit :=
  match attempts with
  | [] => mret tt
  | attempt :: rest =>
      try_except_LJMError (dev (ljm.eWriteName buffer_reg v))
        (fun errorCode =>
           if attempt =? 2 then raise (LJMError errorCode)
           else dev (ljm.sleep (1 # 100));; write_attempts buffer_reg v rest)
  end.

(** Lines 203-211: [for value in waveform]. *)
Fixpoint write_samples (buffer_reg : string) (waveform : list value)
  : M Controller unit :=
  match waveform with
  | [] => mret tt
  | v :: rest =>
      write_attempts buffer_reg v (Py.range 3);;
      write_samples buffer_reg rest
  end.

Definition _configure_stream_out (index : Z) (target_name : string)
    (waveform : list value) (loop : bool) (value_type : string)
  : M Controller unit :=
  let base := stream_out_name index in
  target_addr ← dev (ljm.nameToAddress target_name);
  dev (ljm.eWriteName (base +:+ "_ENABLE") (VInt 0));;
  dev (ljm.eWriteName (base +:+ "_TARGET") (VInt target_addr));;
  dev (ljm.eWriteName (base +:+ "_BUFFER_SIZE")
         (VInt (buffer_size (Py.len waveform))));;
  dev (ljm.eWriteName (base +:+ "_ENABLE") (VInt 1));;
  dev (ljm.eWriteName (base +:+ "_LOOP_SIZE") (VInt (Py.len waveform)));;
  let buffer_reg :=
    if String.eqb value_type "f32" then base +:+ "_BUFFER_F32"
    else base +:+ "_BUFFER_U16" in
  write_samples buffer_reg waveform;;
  if loop then dev (ljm.eWriteName (base +:+ "_SET_LOOP") (VInt 1))
  else mret tt.

(** The sine samples of lines 138-141. *)
Definition sine_waveform (samples_per_period : Z) : list Q :=
  map (fun i =>
         LED_OFFSET_V K
         + LED_AMPLITUDE_V K
           * math_sin ((2 * math_pi * inject_Z i) / inject_Z samples_per_period))%Q
      (Py.range samples_per_period).

Definition configure_led_stream_out : M Controller unit :=
  ratio ← truediv (STREAM_SCAN_RATE_HZ K) (LED_FREQUENCY_HZ K);
  let samples_per_period := Py.int ratio in
  if samples_per_period <? 2 then
    raise (ValueError "Scan rate must be at least 2x the LED frequency.")
  else
    let waveform := sine_waveform samples_per_period in
    _configure_stream_out STREAM_OUT_INDEX LED_DAC_CHANNEL
      (map VFloat waveform) true "f32".


Definition prepare_ttl_waveform (num_pulses : Z) (rate_hz pulse_width_s : Q)
  : M Controller unit :=
  if num_pulses <=? 0 then
    modify (with_ttl None 0 0)
  else
    let samples_per_period :=
      Py.imax 1
        (Py.round (STREAM_SCAN_RATE_HZ K / Py.fmax rate_hz (1 # 10))%Q) in
    let high_samples :=
      Py.imax 1 (Py.round (pulse_width_s * STREAM_SCAN_RATE_HZ K)%Q) in
    let high_samples := Py.imin high_samples samples_per_period in
    let high_word := Z.lor (Z.shiftl FIO0_MASK_ALLOW 8) 0x01 in
    let low_word := Z.shiftl FIO0_MASK_ALLOW 8 in
    let waveform :=
      Py.repeat high_word high_samples
      ++ Py.repeat low_word (samples_per_period - high_samples) in
    modify (with_ttl (Some waveform)
              (inject_Z num_pulses / Py.fmax rate_hz (1 # 10))%Q num_pulses).

Definition configure_ttl_stream_out : M Controller unit :=
  self ← get;
  match _ttl_waveform self with
  | Some (w :: ws) =>
      _configure_stream_out TTL_STREAM_OUT_INDEX START_PULSE_TARGET
        (map VInt (w :: ws)) true "u16"
  | _ => mret tt
  end.

Definition ttl_duration_seconds (self : Controller) : Q := _ttl_duration_s self.

Definition start_stream : M Controller Q :=
  self ← get;
  let enabled_streams :=
    [stream_out_name STREAM_OUT_INDEX]
    ++ (if has_ttl_waveform self then [stream_out_name TTL_STREAM_OUT_INDEX]
        else []) in
  let scan_list_names := build_scan_list (stream_config self) enabled_streams in
  a ← dev (ljm.namesToAddresses (Py.len scan_list_names) scan_list_names);
  modify (with_scan_list a (Py.len (input_names (stream_config self))));;
  configure_led_stream_out;;
  self ← get;
  (if has_ttl_waveform self then configure_ttl_stream_out else mret tt);;
  self ← get;
  rate ← dev (ljm.eStreamStart
                (scans_per_read (stream_config self))
                (Py.len scan_list_names)
                (_scan_list_addresses self)
                (scan_rate_hz (stream_config self)));
  modify (with_actual_scan_rate rate);;
  self ← get;
  mret (_actual_scan_rate self).

Definition read_stream_chunk : M Controller (list Q * Q) :=
  r ← dev ljm.eStreamRead;
  let data := aData r in
  let device_backlog := deviceScanBacklog r in
  let ljm_backlog := ljmScanBacklog r in
  self ← get;
  mret (data, _actual_scan_rate self).

Definition disable_ttl_stream : M Controller unit :=
  let base := stream_out_name TTL_STREAM_OUT_INDEX in
  try_except_LJMError (dev (ljm.eWriteName (base +:+ "_ENABLE") (VInt 0)))
    (fun _ => mret tt);;
  _set_fio0_state false;;
  modify (fun self => with_ttl None 0 (_ttl_num_pulses self) self).

Definition stop_stream : M Controller unit :=
  disable_ttl_stream;;
  dev ljm.eStreamStop;;
  let base := stream_out_name STREAM_OUT_INDEX in
  dev (ljm.eWriteName (base +:+ "_ENABLE") (VInt 0));;
  dev (ljm.eWriteName LED_DAC_CHANNEL (VFloat (LED_IDLE_V K))).

Definition fire_camera_start_pulse (width_s : Q) : M Controller unit :=
  _set_fio0_state true;;
  dev (ljm.sleep (Py.fmax (1 # 1000) width_s));;
  _set_fio0_state false.

Definition close : M Controller unit :=
  try_except_LJMError stop_stream (fun _ => mret tt);;
  dev ljm.close.

End StreamedLabJackController.

(** ** run_pulsed_stream *)

Inductive cell :=
| CInt (n : Z)
| CFloat (x : Q)
| CStr (s : string).

(** The state of one run: the controller, the rows handed to the csv
    writer ([None] when nothing is logged) and the closure variable
    [sample_index]. *)
Record Run := {
  controller : Controller;
  writer : option (list (list cell));
  sample_index : Z
}.

Definition on_controller {A} (m : M Controller A) : M Run A := fun s =>
  let (r, c) := m (controller s) in
  (r, {| controller := c; writer := writer s; sample_index := sample_index s |}).

Definition writerow (r : list cell) : M Run unit :=
  modify (fun s =>
    {| controller := controller s;
       writer := (fun rows => rows ++ [r]) <$> writer s;
       sample_index := sample_index s |}).

Definition next_sample_index : M Run unit :=
  modify (fun s =>
    {| controller := controller s; writer := writer s;
       sample_index := sample_index s + 1 |}).

Section run_pulsed_stream.

Variable math_sin : Q → Q.
Variable math_pi : Q.
Variable K : Settings.

(** Line 329 *)
Definition sample_period (c : Controller) : Q :=
  if Py.truthy (_actual_scan_rate c) then (1 / _actual_scan_rate c)%Q else 0.





(** Lines 339-343: the body of [for scan in range(scans)]. *)
Definition log_scan (num_inputs scan_width : Z) (sample_period : Q)
    (data : list Q) (scan : Z) : M Run unit :=
  let base := scan * scan_width in
  values ← comprehension (Py.range num_inputs)
             (fun ch => getitem data (base + ch));
  s ← get;
  writerow ([CInt (sample_index s);
             CFloat (inject_Z (sample_index s) * sample_period)%Q]
            ++ map CFloat values);;
  next_sample_index.

(** Lines 331-343, closed over [num_inputs], [scan_width] and
    [sample_period]. *)
Definition log_chunk (num_inputs scan_width : Z) (sample_period : Q)
    (data : list Q) : M Run unit :=
  s ← get;
  match writer s, data with
  | None, _ | _, [] => mret tt
  | Some _, _ :: _ =>
      let data := Py.prefix (SCANS_PER_READ K * scan_width) data in
      scans ← floordiv (Py.len data) scan_width;
      for_each (Py.range scans)
        (log_scan num_inputs scan_width sample_period data)
  end.

(** One [while time.time() < ...] loop of lines 347-354; [n] is the
    number of times the wall clock let the body run. *)
Fixpoint poll (n : nat) (log : list Q → M Run unit) : M Run unit :=
  match n with
  | O => mret tt
  | S n' =>
      chunk ← on_controller read_stream_chunk;
      log chunk.1;;
      poll n' log
  end.

(** [run_pulsed_stream]; [ttl_reads] and [padding_reads] are the
    iteration counts of its two clocked loops, [log_path] tells whether a
    log file was asked for. *)
Definition run_pulsed_stream (device : Device) (num_frames : Z)
    (trigger_rate_hz pulse_width_s : Q) (log_path : bool)
    (ttl_reads padding_reads : nat) : outcome unit * Run :=
  let (r, c) := init K device in
  let start := {| controller := c; writer := None; sample_index := 0 |} in
  match r with
  | Raise e => (Raise e, start)
  | Ok _ =>
      (on_controller (prepare_ttl_waveform K num_frames trigger_rate_hz
                        pulse_width_s);;
       on_controller (start_stream math_sin math_pi K);;
       s ← get;
       (if log_path then
          modify (fun s =>
            {| controller := controller s;
               writer := Some [map CStr (["sample_index"; "time_s"]
                   ++ input_names (stream_config (controller s)))];
               sample_index := sample_index s |})
        else mret tt);;
       s ← get;
       let num_inputs := Py.len (input_names (stream_config (controller s))) in
       let scan_width := num_inputs in
       let log := log_chunk num_inputs scan_width (sample_period (controller s)) in
       try_finally
         (poll ttl_reads log;; poll padding_reads log)
         (on_controller (stop_stream K);;
          on_controller disable_ttl_stream;;
          on_controller (close K))) start
  end.

End run_pulsed_stream.

(** * Vocabulary of the properties *)

(** ** A scripted T7 *)

Definition scripted_t7 (clock : Q → Q) (reads : list stream_read)
    (fs : list (option Z)) : Device :=
  {| deviceType := ljm.constants.dtT7;
     addresses :=
       list_to_map
         [("AIN0", 0); ("AIN1", 2); ("AIN2", 4); ("DAC0", 1000);
          ("FIO_STATE", 2500); ("STREAM_OUT0", 4800); ("STREAM_OUT1", 4801)];
     clock_rate := clock;
     registers := ∅; streaming := false; pending := reads; faults := fs;
     history := []; is_open := true |}.

(** A healthy one that runs at the requested rate and has nothing to read. *)
Definition t7 : Device := scripted_t7 (fun requested => requested) [] [].

(** [n] calls of [m] in a row, with the outcome of each. *)
Fixpoint successive {S A} (m : M S A) (n : nat) (s : S) : list (outcome A) :=
  match n with
  | O => []
  | S n' => (m s).1 :: successive m n' (m s).2
  end.

Definition raises {A} (r : outcome A) : Prop := ∃ e, r = Raise e.

(** ** Frames, traces and claims *)

(** [keeps R m]: running [m] takes every state to an [R]-related one,
    whether it returns or raises. *)
Definition keeps {S A} (R : relation S) (m : M S A) : Prop := ∀ s, R s (m s).2.

(** What register writes and sleeps leave alone: the streaming flag, the
    register name table, every register outside [W], and a fault schedule
    that has run dry. *)
Record frame (W : list string) (d d' : Device) : Prop := {
  frame_streaming : streaming d' = streaming d;
  frame_addresses : addresses d' = addresses d;
  frame_faults : faults d = [] → faults d' = [];
  frame_registers : ∀ n, n ∉ W → registers d' !! n = registers d !! n
}.

Definition cframe (W : list string) (c c' : Controller) : Prop :=
  frame W (handle c) (handle c').

Definition raises_only {S A} (P : exn → Prop) (m : M S A) : Prop :=
  ∀ s e, (m s).1 = Raise e → P e.

Definition is_LJMError (e : exn) : Prop := ∃ code, e = LJMError code.

Fixpoint strictly_increasing (l : list Z) : bool :=
  match l with
  | a :: (b :: _) as rest => (a <? b) && strictly_increasing rest
  | _ => true
  end.

(** The backlog guard of the specification, for a controller whose device
    is streaming, healthy and has its coming reads queued: with strictly
    increasing device backlogs, the call that meets the first backlog above
    [threshold] raises, and no call before it does. *)
Definition backlog_guard (threshold : Z) (c : Controller) : Prop :=
  let reads := pending (handle c) in
  streaming (handle c) = true → faults (handle c) = [] →
  strictly_increasing (map deviceScanBacklog reads) = true →
  ∀ (k : nat) (r : stream_read),
    reads !! k = Some r →
    threshold < deviceScanBacklog r →
    (∀ (j : nat) (r' : stream_read),
       (j < k)%nat → reads !! j = Some r' → deviceScanBacklog r' <= threshold) →
    ∃ o, successive read_stream_chunk (S k) c !! k = Some o ∧ raises o.

Definition two_growing_reads : list stream_read :=
  [ {| aData := [1; 2; 3]%Q; deviceScanBacklog := 5; ljmScanBacklog := 0 |};
    {| aData := [4; 5; 6]%Q; deviceScanBacklog := 20; ljmScanBacklog := 0 |} ].

Definition reading_controller : Controller :=
  (start_stream (fun _ => 0%Q) 3%Q shipped
     (init shipped (scripted_t7 (fun r => r) two_growing_reads [])).2).2.

(** A failed attempt that is retried: the write that failed with [code],
    then the backoff. *)
Definition retried (reg : string) (v : value) (code : Z) : list event :=
  [EvWriteName reg v (Some code); EvSleep (1 # 100)].

(** What loading one sample adds to the history, and how it ends: at most
    two retried failures and then the write that succeeds, or two retried
    failures and a third failure, whose error is raised. *)
Inductive sample_trace (reg : string) (v : value) : list event → outcome unit → Prop :=
| sample_written (codes : list Z) :
    (length codes < 3)%nat →
    sample_trace reg v
      (flat_map (retried reg v) codes ++ [EvWriteName reg v None]) (Ok tt)
| sample_abandoned (code1 code2 code3 : Z) :
    sample_trace reg v
      (retried reg v code1 ++ retried reg v code2
       ++ [EvWriteName reg v (Some code3)])
      (Raise (LJMError code3)).

(** What loading a waveform adds to the history: the samples in order, each
    written as above, up to the end or up to the first abandoned sample. *)
Inductive load_trace (reg : string) : list value → list event → outcome unit → Prop :=
| load_done : load_trace reg [] [] (Ok tt)
| load_next v rest evs evs' r :
    sample_trace reg v evs (Ok tt) → load_trace reg rest evs' r →
    load_trace reg (v :: rest) (evs ++ evs') r
| load_abort v rest evs e :
    sample_trace reg v evs (Raise e) → load_trace reg (v :: rest) evs (Raise e).

(** A deployment whose LED frequency is 2400 Hz at the shipped scan rate. *)
Definition led_at_2400 : Settings :=
  {| STREAM_SCAN_RATE_HZ := 4000; SCANS_PER_READ := 400;
     LED_FREQUENCY_HZ := 2400; LED_AMPLITUDE_V := 2;
     LED_OFFSET_V := 5 # 2; LED_IDLE_V := 0 |}.

(** A logged row: the scan index, the index times the sample period, then
    the values of scan [scan] of [data], one per channel in channel order. *)
Definition is_scan_row (data : list Q) (n : Z) (period : Q) (idx scan : Z)
    (row : list cell) : Prop :=
  ∃ vals,
    row = [CInt idx; CFloat (inject_Z idx * period)%Q] ++ map CFloat vals
    ∧ Py.len vals = n
    ∧ ∀ ch, 0 <= ch < n →
        ∃ v, Py.index vals ch = Some v ∧ Py.index data (scan * n + ch) = Some v.

Definition logged (s : Run) (rows : list (list cell)) (steps : Z) : Run :=
  {| controller := controller s; writer := Some rows;
     sample_index := sample_index s + steps |}.

(** A T7 whose clock runs at 3999 Hz whatever is requested, with two chunks
    to read: seven samples (two scans and a stray sample), then one scan. *)
Definition two_chunks : list stream_read :=
  [ {| aData := [1; 2; 3; 4; 5; 6; 0]%Q; deviceScanBacklog := 0; ljmScanBacklog := 0 |};
    {| aData := [7; 8; 9]%Q; deviceScanBacklog := 0; ljmScanBacklog := 0 |} ].

Definition t7_at_3999 : Device := scripted_t7 (fun _ => 3999%Q) two_chunks [].

(** ** More vocabulary: the rest of the controller *)

(** [c'] differs from [c] in its handle at most. *)
Definition same_fields (c c' : Controller) : Prop := with_handle (handle c) c' = c.

(** The values that the successful writes to [reg] among [evs] stored, in
    order. *)
Fixpoint stored (reg : string) (evs : list event) : list value :=
  match evs with
  | [] => []
  | EvWriteName name v None :: rest =>
      if String.eqb name reg then v :: stored reg rest else stored reg rest
  | _ :: rest => stored reg rest
  end.

(** How many register writes were attempted, and how long was slept. *)
Fixpoint attempts (evs : list event) : nat :=
  match evs with
  | [] => 0
  | EvWriteName _ _ _ :: rest => S (attempts rest)
  | _ :: rest => attempts rest
  end.

Fixpoint slept (evs : list event) : Q :=
  match evs with
  | [] => 0
  | EvSleep t :: rest => t + slept rest
  | _ :: rest => slept rest
  end.

(** What register writes, name lookups and sleeps leave alone, on top of
    [frame]: the controller's own fields and the rest of the device. *)
Record calm (c c' : Controller) : Prop := {
  calm_fields : same_fields c c';
  calm_type : deviceType (handle c') = deviceType (handle c);
  calm_clock : clock_rate (handle c') = clock_rate (handle c);
  calm_addresses : addresses (handle c') = addresses (handle c);
  calm_streaming : streaming (handle c') = streaming (handle c);
  calm_pending : pending (handle c') = pending (handle c);
  calm_open : is_open (handle c') = is_open (handle c);
  calm_faults : faults (handle c) = [] → faults (handle c') = []
}.

(** What a call that did not start a stream leaves alone. *)
Record steady (c c' : Controller) : Prop := {
  steady_streaming : streaming (handle c') = streaming (handle c);
  steady_rate : _actual_scan_rate c' = _actual_scan_rate c;
  steady_config : stream_config c' = stream_config c;
  steady_ttl : _ttl_waveform c' = _ttl_waveform c
}.

(** The calls of a load on a healthy device, in order. *)
Definition load_events (index a : Z) (waveform : list value) (loop : bool)
    (value_type : string) : list event :=
  let base := stream_out_name index in
  let reg := if String.eqb value_type "f32" then base +:+ "_BUFFER_F32"
             else base +:+ "_BUFFER_U16" in
  [EvWriteName (base +:+ "_ENABLE") (VInt 0) None;
   EvWriteName (base +:+ "_TARGET") (VInt a) None;
   EvWriteName (base +:+ "_BUFFER_SIZE") (VInt (buffer_size (Py.len waveform))) None;
   EvWriteName (base +:+ "_ENABLE") (VInt 1) None;
   EvWriteName (base +:+ "_LOOP_SIZE") (VInt (Py.len waveform)) None]
  ++ map (fun v => EvWriteName reg v None) waveform
  ++ (if loop then [EvWriteName (base +:+ "_SET_LOOP") (VInt 1) None] else []).

(** The names [start_stream] resolves: the inputs, [STREAM_OUT0], and
    [STREAM_OUT1] when a TTL waveform is stored. *)
Definition scan_list_names (c : Controller) : list string :=
  build_scan_list (stream_config c)
    ([stream_out_name STREAM_OUT_INDEX]
     ++ (if has_ttl_waveform c then [stream_out_name TTL_STREAM_OUT_INDEX] else [])).

(** The calls of the TTL load of [start_stream], none without a waveform. *)
Definition ttl_load_events (c : Controller) (a : Z) : list event :=
  match _ttl_waveform c with
  | Some (w :: ws) =>
      load_events TTL_STREAM_OUT_INDEX a (map VInt (w :: ws)) true "u16"
  | _ => []
  end.

(** What reading a chunk leaves alone. *)
Record reads_only (c c' : Controller) : Prop := {
  reads_fields : same_fields c c';
  reads_registers : registers (handle c') = registers (handle c);
  reads_addresses : addresses (handle c') = addresses (handle c);
  reads_streaming : streaming (handle c') = streaming (handle c);
  reads_open : is_open (handle c') = is_open (handle c);
  reads_faults : faults (handle c) = [] → faults (handle c') = []
}.

(** The controller of a run is untouched. *)
Definition same_controller (s s' : Run) : Prop := controller s' = controller s.

(** The controller of a run has only read chunks. *)
Definition run_reads_only (s s' : Run) : Prop :=
  reads_only (controller s) (controller s').

(** The cleanup of [run_pulsed_stream], as one method of the controller. *)
Definition teardown (K : Settings) : M Controller unit :=
  stop_stream K;; disable_ttl_stream;; close K.

(** The states a healthy device is taken to: by a register write that goes
    through, by a stream stop that is carried out or refused, by the two
    writes of [disable_ttl_stream], and by [ljm.close]. *)
Definition wrote (name : string) (v : value) (c : Controller) : Controller :=
  with_handle
    (ljm.with_registers (<[name := v]> (registers (handle c)))
       (ljm.called (EvWriteName name v None) [] (handle c))) c.

Definition stream_halted (c : Controller) : Controller :=
  with_handle
    (ljm.with_stream false (pending (handle c))
       (ljm.called (EvStreamStop None) [] (handle c))) c.

Definition stop_refused (c : Controller) : Controller :=
  with_handle
    (ljm.called (EvStreamStop (Some errorcodes.STREAM_NOT_RUNNING)) []
       (handle c)) c.

Definition ttl_disabled (c : Controller) : Controller :=
  with_ttl None 0 (_ttl_num_pulses c)
    (wrote "FIO_STATE" (VInt 0xFE00) (wrote "STREAM_OUT1_ENABLE" (VInt 0) c)).

Definition handle_closed (c : Controller) : Controller :=
  with_handle (ljm.closed [] (handle c)) c.

(** A run with its controller replaced. *)
Definition with_controller (c : Controller) (s : Run) : Run :=
  {| controller := c; writer := writer s; sample_index := sample_index s |}.

(** The state [teardown] leaves a healthy, streaming controller in. *)
Definition torn_down (K : Settings) (c : Controller) : Controller :=
  handle_closed
    (stop_refused
       (ttl_disabled
          (ttl_disabled
             (wrote LED_DAC_CHANNEL (VFloat (LED_IDLE_V K))
                (wrote "STREAM_OUT0_ENABLE" (VInt 0)
                   (stream_halted (ttl_disabled c))))))).

(** [c'] has the value of [f] that [c] has. *)
Definition unchanged {B} (f : Controller → B) (c c' : Controller) : Prop :=
  f c' = f c.

(** The log of a run has grown in step with the scan index: the scan rate
    in use is the same, and with a writer the rows added are numbered on
    from the index of [s], each with the time stamp of its number, and the
    index has advanced by one per row; without a writer the index has not
    moved. *)
Definition in_step (period : Q) (s s' : Run) : Prop :=
  _actual_scan_rate (controller s') = _actual_scan_rate (controller s)
  ∧ match writer s with
    | None => writer s' = None ∧ sample_index s' = sample_index s
    | Some rows =>
        ∃ new,
          writer s' = Some (rows ++ new)
          ∧ sample_index s' = sample_index s + Py.len new
          ∧ ∀ (j : nat) row, new !! j = Some row →
              ∃ vals,
                row = CInt (sample_index s + Z.of_nat j)
                      :: CFloat (inject_Z (sample_index s + Z.of_nat j) * period)%Q
                      :: vals
    end.

(** Whether the controller's handle is open. *)
Definition handle_open (c : Controller) : bool := is_open (handle c).




(** * Frame reasoning *)

Section Keeps.
Context {S : Type} (R : relation S) `{!PreOrder R}.

Lemma keeps_ret {A} (a : A) : keeps R (mret a : M S A).
Proof. intros s. reflexivity. Qed.

Lemma keeps_raise {A} e : keeps R (raise e : M S A).
Proof. intros s. reflexivity. Qed.

Lemma keeps_get : keeps R (get : M S S).
Proof. intros s. reflexivity. Qed.

Lemma keeps_modify f : (∀ s, R s (f s)) → keeps R (modify f).
Proof. intros H s. apply H. Qed.

Lemma keeps_bind {A B} (m : M S A) (k : A → M S B) :
  keeps R m → (∀ a, keeps R (k a)) → keeps R (m ≫= k).
Proof.
  intros Hm Hk s. unfold mbind, M_bind, bind.
  specialize (Hm s). destruct (m s) as [[a|e] s1]; simpl in *.
  - etransitivity; [exact Hm | apply Hk].
  - exact Hm.
Qed.

Lemma keeps_try {A} (m : M S A) h :
  keeps R m → (∀ code, keeps R (h code)) → keeps R (try_except_LJMError m h).
Proof.
  intros Hm Hh s. unfold try_except_LJMError.
  specialize (Hm s). destruct (m s) as [[a|[code|msg| |]] s1]; simpl in *; trivial.
  etransitivity; [exact Hm | apply Hh].
Qed.

Lemma keeps_if {A} (b : bool) (m1 m2 : M S A) :
  keeps R m1 → keeps R m2 → keeps R (if b then m1 else m2).
Proof. by destruct b. Qed.
End Keeps.

#[global] Instance frame_preorder W : PreOrder (frame W).
Proof.
  split.
  - intros d. by split.
  - intros d1 d2 d3 [H1 H2 H3 H4] [G1 G2 G3 G4]. split.
    + congruence.
    + congruence.
    + auto.
    + intros n Hn. rewrite G4, H4; auto.
Qed.

#[global] Instance cframe_preorder W : PreOrder (cframe W).
Proof.
  split.
  - intros c. unfold cframe. reflexivity.
  - intros c1 c2 c3. unfold cframe. apply transitivity.
Qed.

Lemma next_fault_dry d : faults d = [] → ljm.next_fault d = (None, []).
Proof. unfold ljm.next_fault. by intros ->. Qed.

Lemma eWriteName_frame W name v : name ∈ W → keeps (frame W) (ljm.eWriteName name v).
Proof.
  intros Hin d. unfold ljm.eWriteName, ljm.next_fault.
  destruct (faults d) as [|[code|] fs] eqn:E; simpl; split; simpl; trivial;
    try congruence;
    intros n Hn; apply lookup_insert_ne; intros ->; contradiction.
Qed.

Lemma sleep_frame W t : keeps (frame W) (ljm.sleep t).
Proof. intros d. by split. Qed.

Lemma nameToAddress_frame W name : keeps (frame W) (ljm.nameToAddress name).
Proof.
  intros d. unfold ljm.nameToAddress.
  destruct (addresses d !! name); simpl; reflexivity.
Qed.

Lemma dev_frame {A} W (m : M Device A) : keeps (frame W) m → keeps (cframe W) (dev m).
Proof.
  intros H c. unfold dev, cframe. specialize (H (handle c)).
  destruct (m (handle c)) as [r h]. exact H.
Qed.

Lemma modify_cframe W f : (∀ c, handle (f c) = handle c) → keeps (cframe W) (modify f).
Proof. intros H c. unfold cframe, modify. simpl. rewrite H. reflexivity. Qed.

(** * Running through a sequence of calls *)

Lemma bind_Ok_inv {S A B} (m : M S A) (k : A → M S B) s b s' :
  (m ≫= k) s = (Ok b, s') → ∃ a s1, m s = (Ok a, s1) ∧ k a s1 = (Ok b, s').
Proof.
  unfold mbind, M_bind, bind. destruct (m s) as [[a|e] s1]; [eauto | discriminate].
Qed.

Lemma bind_Ok_run {S A B} (m : M S A) (k : A → M S B) s a s1 :
  m s = (Ok a, s1) → (m ≫= k) s = k a s1.
Proof. unfold mbind, M_bind, bind. by intros ->. Qed.

Lemma bind_Raise_run {S A B} (m : M S A) (k : A → M S B) s e s1 :
  m s = (Raise e, s1) → (m ≫= k) s = (Raise e, s1).
Proof. unfold mbind, M_bind, bind. by intros ->. Qed.

Lemma eWriteName_Ok name v c c' :
  dev (ljm.eWriteName name v) c = (Ok tt, c') →
  registers (handle c') !! name = Some v.
Proof.
  unfold dev, ljm.eWriteName. destruct (ljm.next_fault (handle c)) as [[code|] fs].
  - discriminate.
  - intros [= <-]. simpl. apply lookup_insert_eq.
Qed.

Lemma eWriteName_dry name v c :
  faults (handle c) = [] →
  dev (ljm.eWriteName name v) c
  = (Ok tt,
     with_handle
       (ljm.with_registers (<[name := v]> (registers (handle c)))
          (ljm.called (EvWriteName name v None) [] (handle c))) c).
Proof. intros H. unfold dev, ljm.eWriteName. by rewrite (next_fault_dry _ H). Qed.

(** Membership of a register name in a list of literal names. *)
Ltac name_in := repeat first [ by apply list_elem_of_here | apply list_elem_of_further ].
Ltac name_not_in :=
  repeat (apply not_elem_of_cons; split; [discriminate|]); apply not_elem_of_nil.

(** * Stopping a stream *)

Lemma _write_optional_register_frame W name v :
  name ∈ W → keeps (cframe W) (_write_optional_register name v).
Proof.
  intros Hin. apply keeps_try; [apply _ | |].
  - by apply dev_frame, eWriteName_frame.
  - intros code. apply keeps_if; [apply keeps_ret | apply keeps_raise]; apply _.
Qed.

Lemma _set_fio0_state_frame W high :
  "FIO_STATE" ∈ W → keeps (cframe W) (_set_fio0_state high).
Proof. intros Hin. by apply _write_optional_register_frame. Qed.

Lemma disable_ttl_stream_frame W :
  "STREAM_OUT1_ENABLE" ∈ W → "FIO_STATE" ∈ W → keeps (cframe W) disable_ttl_stream.
Proof.
  intros H1 H2. unfold disable_ttl_stream.
  apply keeps_bind; [apply _ | |].
  - apply keeps_try; [apply _ | |].
    + by apply dev_frame, eWriteName_frame.
    + intros _. apply keeps_ret, _.
  - intros _. apply keeps_bind; [apply _ | |].
    + by apply _set_fio0_state_frame.
    + intros _. by apply modify_cframe.
Qed.

Lemma disable_ttl_stream_ok c :
  faults (handle c) = [] → (disable_ttl_stream c).1 = Ok tt.
Proof.
  intros H. unfold disable_ttl_stream, _set_fio0_state, _write_optional_register,
    try_except_LJMError, mbind, M_bind, bind, dev, ljm.eWriteName.
  rewrite (next_fault_dry _ H). simpl.
  unfold ljm.next_fault. simpl. reflexivity.
Qed.

Lemma eStreamStop_idle c :
  streaming (handle c) = false →
  ∃ code fs,
    dev ljm.eStreamStop c
    = (Raise (LJMError code),
       with_handle (ljm.called (EvStreamStop (Some code)) fs (handle c)) c)
    ∧ (faults (handle c) = [] → code = errorcodes.STREAM_NOT_RUNNING).
Proof.
  intros Hidle. unfold dev, ljm.eStreamStop, ljm.next_fault. rewrite Hidle.
  destruct (faults (handle c)) as [|[code|] fs]; simpl.
  - by exists errorcodes.STREAM_NOT_RUNNING, [].
  - exists code, fs. split; [done | discriminate].
  - by exists errorcodes.STREAM_NOT_RUNNING, fs.
Qed.

(** C1 (the code departs from it).  [stop_stream] on a controller whose
    device is not streaming always raises: [ljm.eStreamStop] is called
    unguarded and reports that nothing was running (on a healthy device the
    exception is [LJMError STREAM_NOT_RUNNING]).  The two writes after it are
    skipped, so the call neither disables [STREAM_OUT0] nor writes the idle
    level to the DAC: both registers are left as they were. *)
Theorem stop_stream_not_running_raises (K : Settings) (c : Controller) :
  streaming (handle c) = false →
  raises (stop_stream K c).1
  ∧ (faults (handle c) = [] →
     (stop_stream K c).1 = Raise (LJMError errorcodes.STREAM_NOT_RUNNING))
  ∧ registers (handle (stop_stream K c).2) !! "STREAM_OUT0_ENABLE"
    = registers (handle c) !! "STREAM_OUT0_ENABLE"
  ∧ registers (handle (stop_stream K c).2) !! LED_DAC_CHANNEL
    = registers (handle c) !! LED_DAC_CHANNEL.
Proof.
  intros Hidle.
  pose proof (disable_ttl_stream_frame ["STREAM_OUT1_ENABLE"; "FIO_STATE"]
                ltac:(name_in) ltac:(name_in) c) as [Fs _ Ff Fr].
  pose proof (disable_ttl_stream_ok c) as Hok.
  unfold stop_stream, mbind, M_bind, bind.
  destruct (disable_ttl_stream c) as [[[]|e] c1]; simpl in *.
  - destruct (eStreamStop_idle c1) as (code & fs & -> & Hcode); [congruence|].
    simpl. split; [by eexists|].
    split; [intros H; by rewrite Hcode by auto|].
    split; apply Fr; name_not_in.
  - split; [by eexists|]. split; [intros H; specialize (Hok H); discriminate|].
    split; apply Fr; name_not_in.
Qed.

Lemma stop_stream_not_running_raises_witness :
  streaming (handle (init shipped t7).2) = false
  ∧ raises (stop_stream shipped (init shipped t7).2).1.
Proof.
  split; [reflexivity|].
  apply (stop_stream_not_running_raises shipped (init shipped t7).2).
  reflexivity.
Defined.

Lemma eStreamStop_running c :
  streaming (handle c) = true → faults (handle c) = [] →
  dev ljm.eStreamStop c
  = (Ok tt,
     with_handle
       (ljm.with_stream false (pending (handle c))
          (ljm.called (EvStreamStop None) [] (handle c))) c).
Proof.
  intros Hs Hf. unfold dev, ljm.eStreamStop.
  by rewrite (next_fault_dry _ Hf), Hs.
Qed.

Lemma stream_out0_enable : stream_out_name STREAM_OUT_INDEX +:+ "_ENABLE" = "STREAM_OUT0_ENABLE".
Proof. reflexivity. Qed.

(** While a stream runs on a healthy device, [stop_stream] does what its
    docstring says. *)
Lemma stop_stream_running (K : Settings) (c : Controller) :
  streaming (handle c) = true → faults (handle c) = [] →
  (stop_stream K c).1 = Ok tt
  ∧ streaming (handle (stop_stream K c).2) = false
  ∧ registers (handle (stop_stream K c).2) !! "STREAM_OUT0_ENABLE" = Some (VInt 0)
  ∧ registers (handle (stop_stream K c).2) !! LED_DAC_CHANNEL
    = Some (VFloat (LED_IDLE_V K)).
Proof.
  intros Hs Hf.
  pose proof (disable_ttl_stream_frame ["STREAM_OUT1_ENABLE"; "FIO_STATE"]
                ltac:(name_in) ltac:(name_in) c) as [Fs _ Ff _].
  pose proof (disable_ttl_stream_ok c Hf) as Hok.
  unfold stop_stream. rewrite stream_out0_enable.
  destruct (disable_ttl_stream c) as [r c1] eqn:E.
  cbn [fst snd] in *. subst r.
  erewrite bind_Ok_run; [|exact E].
  erewrite bind_Ok_run; [|apply eStreamStop_running; [congruence | auto]].
  erewrite bind_Ok_run; [|by apply eWriteName_dry].
  rewrite eWriteName_dry by reflexivity.
  cbn [fst snd handle with_handle registers streaming ljm.with_registers
       ljm.with_stream ljm.called].
  split; [done|]. split; [done|]. split.
  - rewrite lookup_insert_ne by discriminate. apply lookup_insert_eq.
  - apply lookup_insert_eq.
Qed.

(** A whole life of the controller on the scripted T7: the first
    [stop_stream] after a start succeeds and leaves the outputs idle, the
    second one raises. *)
Example stop_stream_twice :
  let started :=
    ((prepare_ttl_waveform shipped 300 30 (1 # 1000);;
      start_stream (fun _ => 0%Q) 3%Q shipped) (init shipped t7).2).2 in
  let stopped := (stop_stream shipped started).2 in
  streaming (handle started) = true
  ∧ (stop_stream shipped started).1 = Ok tt
  ∧ registers (handle stopped) !! "STREAM_OUT0_ENABLE" = Some (VInt 0)
  ∧ registers (handle stopped) !! LED_DAC_CHANNEL = Some (VFloat (LED_IDLE_V shipped))
  ∧ (stop_stream shipped stopped).1 = Raise (LJMError errorcodes.STREAM_NOT_RUNNING).
Proof. vm_compute. repeat split. Qed.

(** * Reading chunks *)

Lemma read_stream_chunk_ok (c : Controller) (r : stream_read) q :
  streaming (handle c) = true → faults (handle c) = [] →
  pending (handle c) = r :: q →
  (read_stream_chunk c).1 = Ok (aData r, _actual_scan_rate c)
  ∧ streaming (handle (read_stream_chunk c).2) = true
  ∧ faults (handle (read_stream_chunk c).2) = []
  ∧ pending (handle (read_stream_chunk c).2) = q
  ∧ _actual_scan_rate (read_stream_chunk c).2 = _actual_scan_rate c.
Proof.
  destruct c as [[] ? ? ? ? ? ? ? ?]; simpl. intros -> -> ->. by repeat split.
Qed.

(** C2, as the code has it.  [read_stream_chunk] takes the two backlog
    counts from [ljm.eStreamRead] and drops them: on a streaming, healthy
    device every call of a run of reads returns the chunk's data with the
    stored actual scan rate, whatever the backlogs are and however they
    grow.  No threshold exists and nothing is raised on account of backlog. *)
Theorem read_stream_chunk_ignores_backlog (c : Controller) :
  streaming (handle c) = true → faults (handle c) = [] →
  successive read_stream_chunk (length (pending (handle c))) c
  = map (fun r => Ok (aData r, _actual_scan_rate c)) (pending (handle c)).
Proof.
  remember (pending (handle c)) as reads eqn:E.
  revert c E. induction reads as [|r q IH]; intros c E Hs Hf; [reflexivity|].
  destruct (read_stream_chunk_ok c r q Hs Hf (eq_sym E)) as (H1 & H2 & H3 & H4 & H5).
  simpl. rewrite H1. f_equal.
  rewrite (IH (read_stream_chunk c).2); auto.
  by rewrite H5.
Qed.

Lemma read_stream_chunk_ignores_backlog_witness :
  streaming (handle reading_controller) = true
  ∧ faults (handle reading_controller) = []
  ∧ successive read_stream_chunk 2 reading_controller
    = [Ok ([1; 2; 3]%Q, 4000%Q); Ok ([4; 5; 6]%Q, 4000%Q)].
Proof.
  split; [reflexivity|]. split; [reflexivity|].
  exact (read_stream_chunk_ignores_backlog reading_controller eq_refl eq_refl).
Defined.

(** C2, as the specification states it, fails: with threshold 10 and
    device backlogs 5 then 20, the second read returns its data. *)
Lemma backlog_guard_fails : ¬ backlog_guard 10 reading_controller.
Proof.
  intros H.
  destruct (H eq_refl eq_refl eq_refl 1%nat
              {| aData := [4; 5; 6]%Q; deviceScanBacklog := 20; ljmScanBacklog := 0 |}
              eq_refl eq_refl) as (o & Ho & e & He).
  - intros [|j] r' Hj Hr; [|lia].
    vm_compute in Hr. injection Hr as <-. vm_compute. discriminate.
  - vm_compute in Ho. injection Ho as <-. discriminate.
Qed.

(** * The stream-out buffer loader *)

(** ** The buffer size *)

Lemma clog2_covers (n : Z) : n <= 2 ^ Py.ceil_log2 (Py.imax 1 n).
Proof.
  unfold Py.ceil_log2, Py.imax.
  destruct (Z.ltb_spec 1 n) as [H|H].
  - apply Z.log2_up_spec. lia.
  - change (Z.log2_up 1) with 0. simpl. lia.
Qed.

Lemma buffer_size_cases (n : Z) :
  let p := 2 ^ Py.ceil_log2 (Py.imax 1 n) in
  (p <= 512 ∧ buffer_size n = 512)
  ∨ (512 < p <= 8192 ∧ buffer_size n = p)
  ∨ (8192 < p ∧ buffer_size n = 8192).
Proof.
  intros p. unfold buffer_size.
  change (2 ^ Py.ceil_log2 (Py.imax 1 n)) with p. clearbody p.
  unfold Py.imax, Py.imin.
  destruct (Z.ltb_spec 512 p);
    [destruct (Z.ltb_spec 8192 p) | change (8192 <? 512) with false]; lia.
Qed.

Lemma buffer_size_power_of_two (n : Z) : ∃ k, 9 <= k <= 13 ∧ buffer_size n = 2 ^ k.
Proof.
  pose proof (Z.log2_up_nonneg (Py.imax 1 n)) as Hk.
  destruct (buffer_size_cases n) as [[H ->]|[[H ->]|[H ->]]].
  - exists 9. split; [lia | reflexivity].
  - exists (Py.ceil_log2 (Py.imax 1 n)). unfold Py.ceil_log2 in *.
    split; [|reflexivity]. split.
    + apply Z.lt_le_incl, (Z.pow_lt_mono_r_iff 2); lia.
    + apply (Z.pow_le_mono_r_iff 2); lia.
  - exists 13. split; [lia | reflexivity].
Qed.

Lemma buffer_size_bounds (n : Z) : 512 <= buffer_size n <= 8192.
Proof. destruct (buffer_size_cases n) as [[H ->]|[[H ->]|[H ->]]]; lia. Qed.

Lemma buffer_size_fits (n : Z) : n <= 8192 → n <= buffer_size n.
Proof.
  intros Hn. pose proof (clog2_covers n).
  destruct (buffer_size_cases n) as [[H' ->]|[[H' ->]|[H' ->]]]; lia.
Qed.

Lemma buffer_size_clamped (n : Z) : 8192 < n → buffer_size n = 8192.
Proof.
  intros Hn. pose proof (clog2_covers n).
  destruct (buffer_size_cases n) as [[H' ->]|[[H' ->]|[H' ->]]]; lia.
Qed.

Lemma write_attempts_frame W reg v attempts :
  reg ∈ W → keeps (cframe W) (write_attempts reg v attempts).
Proof.
  intros Hin. induction attempts as [|attempt rest IH]; simpl.
  - apply keeps_ret, _.
  - apply keeps_try; [apply _ | |].
    + by apply dev_frame, eWriteName_frame.
    + intros code. apply keeps_if; [apply keeps_raise, _|].
      apply keeps_bind; [apply _ | | done].
      apply dev_frame, sleep_frame.
Qed.

Lemma write_samples_frame W reg waveform :
  reg ∈ W → keeps (cframe W) (write_samples reg waveform).
Proof.
  intros Hin. induction waveform as [|v rest IH]; cbn [write_samples].
  - apply keeps_ret, _.
  - apply keeps_bind; [apply _ | | done]. by apply write_attempts_frame.
Qed.

Lemma suffix_ne (base s1 s2 : string) : s1 ≠ s2 → base +:+ s1 ≠ base +:+ s2.
Proof.
  intros Hne E. apply Hne. induction base as [|a base IH]; simpl in E; [done|].
  injection E. exact IH.
Qed.

Ltac suffix_not_in :=
  repeat (apply not_elem_of_cons; split; [apply suffix_ne; discriminate|]);
  apply not_elem_of_nil.

Lemma kept_step {S A} (R : relation S) (m : M S A) s r s' :
  keeps R m → m s = (r, s') → R s s'.
Proof. intros H E. specialize (H s). by rewrite E in H. Qed.

(** ** What a completed load leaves in the registers *)

Lemma _configure_stream_out_registers index target_name waveform loop value_type c c' :
  _configure_stream_out index target_name waveform loop value_type c = (Ok tt, c') →
  let base := stream_out_name index in
  registers (handle c') !! (base +:+ "_BUFFER_SIZE")
  = Some (VInt (buffer_size (Py.len waveform)))
  ∧ registers (handle c') !! (base +:+ "_ENABLE") = Some (VInt 1)
  ∧ registers (handle c') !! (base +:+ "_LOOP_SIZE") = Some (VInt (Py.len waveform))
  ∧ (loop = true → registers (handle c') !! (base +:+ "_SET_LOOP") = Some (VInt 1)).
Proof.
  unfold _configure_stream_out. generalize (stream_out_name index) as base.
  intros base H. cbv zeta.
  set (reg := if String.eqb value_type "f32" then _ else _) in H.
  apply bind_Ok_inv in H as (a & c0 & _ & H).
  apply bind_Ok_inv in H as ([] & c1 & _ & H).
  apply bind_Ok_inv in H as ([] & c2 & _ & H).
  apply bind_Ok_inv in H as ([] & c3 & Hsize & H).
  apply bind_Ok_inv in H as ([] & c4 & Henable & H).
  apply bind_Ok_inv in H as ([] & c5 & Hloop & H).
  apply bind_Ok_inv in H as ([] & c6 & Hsamples & Hset).
  apply eWriteName_Ok in Hsize.
  pose proof (eWriteName_Ok _ _ _ _ Henable) as Henable'.
  pose proof (eWriteName_Ok _ _ _ _ Hloop) as Hloop'.
  set (W := [base +:+ "_ENABLE"; base +:+ "_LOOP_SIZE"; base +:+ "_BUFFER_F32";
             base +:+ "_BUFFER_U16"; base +:+ "_SET_LOOP"]).
  assert (cframe W c3 c4) as F34.
  { eapply kept_step; [|exact Henable]. apply dev_frame, eWriteName_frame. name_in. }
  assert (cframe W c4 c5) as F45.
  { eapply kept_step; [|exact Hloop]. apply dev_frame, eWriteName_frame. name_in. }
  assert (cframe (tail W) c5 c6) as F56.
  { eapply kept_step; [|exact Hsamples]. apply write_samples_frame.
    subst reg W. destruct (String.eqb value_type "f32"); name_in. }
  assert (cframe (tail (tail W)) c6 c') as F67.
  { eapply kept_step; [|exact Hset]. destruct loop.
    - apply dev_frame, eWriteName_frame. name_in.
    - apply keeps_ret, _. }
  assert (cframe [base +:+ "_LOOP_SIZE"] c4 c5) as F45'.
  { eapply kept_step; [|exact Hloop]. apply dev_frame, eWriteName_frame. name_in. }
  assert (cframe [base +:+ "_BUFFER_F32"; base +:+ "_BUFFER_U16"] c5 c6) as F56'.
  { eapply kept_step; [|exact Hsamples]. apply write_samples_frame.
    subst reg. destruct (String.eqb value_type "f32"); name_in. }
  split; [|split; [|split]].
  - rewrite <- Hsize. etransitivity; [apply F67; suffix_not_in|].
    etransitivity; [apply F56; suffix_not_in|].
    etransitivity; [apply F45; suffix_not_in|]. apply F34. suffix_not_in.
  - rewrite <- Henable'. etransitivity; [apply F67; suffix_not_in|].
    etransitivity; [apply F56; suffix_not_in|]. apply F45'. suffix_not_in.
  - rewrite <- Hloop'. etransitivity; [apply F67; suffix_not_in|].
    apply F56'. suffix_not_in.
  - intros ->. by apply eWriteName_Ok in Hset.
Qed.

(** ** Loading on a healthy device *)

Lemma with_handle_same c : with_handle (handle c) c = c.
Proof. by destruct c. Qed.

Lemma nameToAddress_Ok name a c :
  addresses (handle c) !! name = Some a → dev (ljm.nameToAddress name) c = (Ok a, c).
Proof.
  intros H. unfold dev, ljm.nameToAddress. rewrite H. by rewrite with_handle_same.
Qed.

Lemma write_attempts_dry reg v attempt rest c :
  faults (handle c) = [] →
  write_attempts reg v (attempt :: rest) c = dev (ljm.eWriteName reg v) c.
Proof.
  intros H. cbn [write_attempts]. unfold try_except_LJMError.
  by rewrite (eWriteName_dry _ _ _ H).
Qed.

Lemma write_samples_dry reg waveform c :
  faults (handle c) = [] →
  ∃ c', write_samples reg waveform c = (Ok tt, c')
        ∧ faults (handle c') = []
        ∧ addresses (handle c') = addresses (handle c)
        ∧ history (handle c')
          = history (handle c) ++ map (fun v => EvWriteName reg v None) waveform.
Proof.
  revert c. induction waveform as [|v rest IH]; intros c H.
  - exists c. simpl. by rewrite app_nil_r.
  - cbn [write_samples]. change (Py.range 3) with [0; 1; 2].
    erewrite bind_Ok_run;
      [|rewrite (write_attempts_dry _ _ _ _ _ H); apply (eWriteName_dry _ _ _ H)].
    edestruct IH as (c' & -> & Hf & Ha & Hh); [|exists c'; repeat split; trivial].
    + reflexivity.
    + rewrite Hh. simpl. by rewrite <- app_assoc.
Qed.

Lemma _configure_stream_out_dry index target_name waveform loop value_type a c :
  faults (handle c) = [] →
  addresses (handle c) !! target_name = Some a →
  let base := stream_out_name index in
  let reg := if String.eqb value_type "f32" then base +:+ "_BUFFER_F32"
             else base +:+ "_BUFFER_U16" in
  ∃ c', _configure_stream_out index target_name waveform loop value_type c
        = (Ok tt, c')
        ∧ faults (handle c') = []
        ∧ addresses (handle c') = addresses (handle c)
        ∧ history (handle c')
          = history (handle c)
            ++ [EvWriteName (base +:+ "_ENABLE") (VInt 0) None;
                EvWriteName (base +:+ "_TARGET") (VInt a) None;
                EvWriteName (base +:+ "_BUFFER_SIZE")
                  (VInt (buffer_size (Py.len waveform))) None;
                EvWriteName (base +:+ "_ENABLE") (VInt 1) None;
                EvWriteName (base +:+ "_LOOP_SIZE") (VInt (Py.len waveform)) None]
            ++ map (fun v => EvWriteName reg v None) waveform
            ++ (if loop then [EvWriteName (base +:+ "_SET_LOOP") (VInt 1) None]
                else []).
Proof.
  intros Hf Ha. unfold _configure_stream_out.
  generalize (stream_out_name index) as base. intros base. cbv zeta.
  set (reg := if String.eqb value_type "f32" then _ else _).
  erewrite bind_Ok_run; [|by apply nameToAddress_Ok].
  do 5 (erewrite bind_Ok_run; [|by apply eWriteName_dry]).
  match goal with
  | |- context [(write_samples reg waveform ≫= _) ?c5] =>
      destruct (write_samples_dry reg waveform c5 eq_refl)
        as (c6 & Hrun & Hf6 & Ha6 & Hh6)
  end.
  erewrite bind_Ok_run; [|exact Hrun].
  destruct loop.
  - rewrite (eWriteName_dry _ _ _ Hf6). eexists. split; [reflexivity|].
    simpl. rewrite Hh6. simpl. repeat split; trivial.
    rewrite <- !app_assoc. reflexivity.
  - exists c6. split; [reflexivity|]. rewrite Hh6. simpl. repeat split; trivial.
    rewrite <- !app_assoc. simpl. by rewrite app_nil_r.
Qed.

(** ** Buffer size and loop size *)

(** C3, as the code has it.  Whenever a load completes, the value left
    in the [_BUFFER_SIZE] register is a power of two between 512 and 8192;
    it is at least the waveform's length when that length is at most 8192,
    and it is 8192 for every longer waveform.  The loader has no length
    check: on a healthy device, with a target that resolves, the load of a
    waveform of any length completes. *)
Theorem buffer_size_written index target_name waveform loop value_type c :
  (∀ c',
     _configure_stream_out index target_name waveform loop value_type c = (Ok tt, c') →
     ∃ b, registers (handle c') !! (stream_out_name index +:+ "_BUFFER_SIZE")
          = Some (VInt b)
          ∧ (∃ k, 0 <= k ∧ b = 2 ^ k)
          ∧ 512 <= b <= 8192
          ∧ (Py.len waveform <= 8192 → Py.len waveform <= b)
          ∧ (8192 < Py.len waveform → b = 8192))
  ∧ (faults (handle c) = [] → is_Some (addresses (handle c) !! target_name) →
     ∃ c', _configure_stream_out index target_name waveform loop value_type c
           = (Ok tt, c')).
Proof.
  split.
  - intros c' H. apply _configure_stream_out_registers in H as (Hb & _).
    exists (buffer_size (Py.len waveform)). split; [exact Hb|].
    split; [|split; [|split]].
    + destruct (buffer_size_power_of_two (Py.len waveform)) as (k & Hk & ->).
      exists k. split; [lia | reflexivity].
    + apply buffer_size_bounds.
    + apply buffer_size_fits.
    + apply buffer_size_clamped.
  - intros Hf [a Ha].
    destruct (_configure_stream_out_dry index target_name waveform loop
                value_type a c Hf Ha) as (c' & H & _).
    by exists c'.
Qed.

Lemma buffer_size_written_witness :
  faults (handle (init shipped t7).2) = []
  ∧ is_Some (addresses (handle (init shipped t7).2) !! START_PULSE_TARGET)
  ∧ ∃ c' b,
      _configure_stream_out 1 START_PULSE_TARGET (Py.repeat (VInt 0) 600) true
        "u16" (init shipped t7).2 = (Ok tt, c')
      ∧ registers (handle c') !! "STREAM_OUT1_BUFFER_SIZE" = Some (VInt b)
      ∧ 600 <= b <= 8192.
Proof.
  assert (faults (handle (init shipped t7).2) = []) as Hf by reflexivity.
  assert (is_Some (addresses (handle (init shipped t7).2) !! START_PULSE_TARGET))
    as Ha by (by exists 2500).
  split; [exact Hf|]. split; [exact Ha|].
  destruct (buffer_size_written 1 START_PULSE_TARGET (Py.repeat (VInt 0) 600)
              true "u16" (init shipped t7).2) as [Hsize Hruns].
  destruct (Hruns Hf Ha) as [c' Hc'].
  destruct (Hsize c' Hc') as (b & Hb & _ & Hrange & Hfits & _).
  exists c', b. split; [exact Hc'|]. split; [exact Hb|].
  split; [exact (Hfits ltac:(vm_compute; discriminate)) | apply Hrange].
Defined.

(** C3, as the specification states it, fails: a waveform of 8193
    samples is not refused; the load completes with a buffer size of 8192,
    smaller than the waveform. *)
Lemma oversize_waveform_is_loaded :
  let waveform := Py.repeat (VInt 0) 8193 in
  8192 < Py.len waveform
  ∧ ∃ c', _configure_stream_out 1 START_PULSE_TARGET waveform true "u16"
            (init shipped t7).2 = (Ok tt, c')
          ∧ registers (handle c') !! "STREAM_OUT1_BUFFER_SIZE" = Some (VInt 8192)
          ∧ ¬ Py.len waveform <= 8192.
Proof.
  intros waveform. split; [reflexivity|].
  destruct (_configure_stream_out_dry 1 START_PULSE_TARGET waveform true "u16"
              2500 (init shipped t7).2 eq_refl eq_refl) as (c' & H & _).
  exists c'. split; [exact H|].
  apply _configure_stream_out_registers in H as (Hb & _).
  split; [exact Hb | vm_compute; by intros H].
Qed.

(** C8.  Whenever a load completes, the [_LOOP_SIZE] register holds the
    waveform's length, whatever buffer size was chosen: the [_BUFFER_SIZE]
    register holds the padded power of two. *)
Theorem loop_size_is_waveform_length index target_name waveform loop value_type c c' :
  _configure_stream_out index target_name waveform loop value_type c = (Ok tt, c') →
  registers (handle c') !! (stream_out_name index +:+ "_LOOP_SIZE")
  = Some (VInt (Py.len waveform))
  ∧ registers (handle c') !! (stream_out_name index +:+ "_BUFFER_SIZE")
    = Some (VInt (buffer_size (Py.len waveform))).
Proof.
  intros H. apply _configure_stream_out_registers in H as (Hb & _ & Hl & _).
  by split.
Qed.

Lemma loop_size_is_waveform_length_witness :
  let run := _configure_stream_out 1 START_PULSE_TARGET (Py.repeat (VInt 7) 600)
               true "u16" (init shipped t7).2 in
  run.1 = Ok tt
  ∧ registers (handle run.2) !! "STREAM_OUT1_LOOP_SIZE" = Some (VInt 600)
  ∧ registers (handle run.2) !! "STREAM_OUT1_BUFFER_SIZE" = Some (VInt 1024).
Proof.
  intros run.
  assert (run = (Ok tt, run.2)) as E by (vm_compute; reflexivity).
  split; [by rewrite E|].
  exact (loop_size_is_waveform_length 1 START_PULSE_TARGET
           (Py.repeat (VInt 7) 600) true "u16" (init shipped t7).2 run.2 E).
Defined.

(** ** Retrying a sample write *)

Lemma write_attempts_trace reg v c :
  ∃ evs,
    history (handle (write_attempts reg v (Py.range 3) c).2) = history (handle c) ++ evs
    ∧ sample_trace reg v evs (write_attempts reg v (Py.range 3) c).1.
Proof.
  change (Py.range 3) with [0; 1; 2].
  destruct c as [[? ? ? ? ? ? fs hist ?] ? ? ? ? ? ? ? ?].
  unfold write_attempts, try_except_LJMError, mbind, M_bind, bind, dev,
    ljm.eWriteName, ljm.sleep, ljm.next_fault, raise.
  destruct fs as [|[code1|] [|[code2|] [|[code3|] fs]]]; cbn;
    rewrite <- ?app_assoc; eexists; (split; [reflexivity|]);
    first [ apply (sample_abandoned reg v code1 code2 code3)
          | apply (sample_written reg v []); simpl; lia
          | apply (sample_written reg v [code1]); simpl; lia
          | apply (sample_written reg v [code1; code2]); simpl; lia ].
Qed.

(** The sample loop of the loader extends the history by a
    [load_trace], on any fault schedule. *)
Lemma write_samples_retries (reg : string) (waveform : list value) (c : Controller) :
  ∃ evs,
    history (handle (write_samples reg waveform c).2) = history (handle c) ++ evs
    ∧ load_trace reg waveform evs (write_samples reg waveform c).1.
Proof.
  revert c. induction waveform as [|v rest IH]; intros c.
  - exists []. split; [by rewrite app_nil_r | constructor].
  - cbn [write_samples]. unfold mbind, M_bind, bind.
    destruct (write_attempts_trace reg v c) as (evs & Hh & Ht).
    destruct (write_attempts reg v (Py.range 3) c) as [[[]|e] c1]; cbn [fst snd] in *.
    + destruct (IH c1) as (evs' & Hh' & Ht').
      exists (evs ++ evs'). split.
      * by rewrite Hh', Hh, app_assoc.
      * by apply load_next.
    + exists evs. split; [exact Hh | by apply load_abort].
Qed.

(** A register write whose fault slot is clear goes through. *)
Lemma eWriteName_clear name v c (n : nat) :
  Forall (fun f => f = None) (take (S n) (faults (handle c))) →
  ∃ c', dev (ljm.eWriteName name v) c = (Ok tt, c')
        ∧ Forall (fun f => f = None) (take n (faults (handle c')))
        ∧ history (handle c') = history (handle c) ++ [EvWriteName name v None].
Proof.
  intros H. unfold dev, ljm.eWriteName, ljm.next_fault.
  destruct (faults (handle c)) as [|f fs] eqn:E.
  - eexists. split; [reflexivity|]. cbn. split; [|done]. by rewrite take_nil.
  - cbn [take] in H. apply Forall_cons in H as [-> H].
    eexists. split; [reflexivity|]. cbn. by split.
Qed.

(** C9.  The loader, once the target name has resolved and its five
    configuration writes have gone through, on any fault schedule for what
    follows.  The sample loop extends the history by a [load_trace]: every
    sample is written at most three times, a failed first or second attempt
    is followed by the 10 ms backoff and another attempt, and the first
    success moves on to the next sample.  An error comes out of the loop
    only by a third failure on one sample, and then the loader raises that
    same error to its caller, at once: nothing is written after the
    abandoned sample.  When every sample went through the loader goes on to
    the loop flag, and its outcome is that of this last write. *)
Theorem loader_retries_then_raises index target_name waveform loop value_type a c :
  addresses (handle c) !! target_name = Some a →
  Forall (fun f => f = None) (take 5 (faults (handle c))) →
  let base := stream_out_name index in
  let reg := if String.eqb value_type "f32" then base +:+ "_BUFFER_F32"
             else base +:+ "_BUFFER_U16" in
  let setup :=
    [EvWriteName (base +:+ "_ENABLE") (VInt 0) None;
     EvWriteName (base +:+ "_TARGET") (VInt a) None;
     EvWriteName (base +:+ "_BUFFER_SIZE") (VInt (buffer_size (Py.len waveform))) None;
     EvWriteName (base +:+ "_ENABLE") (VInt 1) None;
     EvWriteName (base +:+ "_LOOP_SIZE") (VInt (Py.len waveform)) None] in
  let r := _configure_stream_out index target_name waveform loop value_type c in
  ∃ evs r_loop,
    load_trace reg waveform evs r_loop
    ∧ match r_loop with
      | Raise e =>
          r.1 = Raise e
          ∧ history (handle r.2) = history (handle c) ++ setup ++ evs
      | Ok _ =>
          if loop then
            ∃ err,
              history (handle r.2)
              = history (handle c) ++ setup ++ evs
                ++ [EvWriteName (base +:+ "_SET_LOOP") (VInt 1) err]
              ∧ r.1 = match err with
                      | Some code => Raise (LJMError code)
                      | None => Ok tt
                      end
          else
            r.1 = Ok tt
            ∧ history (handle r.2) = history (handle c) ++ setup ++ evs
      end.
Proof.
  intros Ha Hclear. cbv zeta. unfold _configure_stream_out.
  generalize (stream_out_name index) as base. intros base. cbv zeta.
  set (reg := if String.eqb value_type "f32" then _ else _).
  erewrite bind_Ok_run; [|by apply nameToAddress_Ok].
  destruct (eWriteName_clear (base +:+ "_ENABLE") (VInt 0) c 4 Hclear)
    as (c1 & Hrun1 & Hclear1 & Hh1).
  erewrite bind_Ok_run; [|exact Hrun1].
  destruct (eWriteName_clear (base +:+ "_TARGET") (VInt a) c1 3 Hclear1)
    as (c2 & Hrun2 & Hclear2 & Hh2).
  erewrite bind_Ok_run; [|exact Hrun2].
  destruct (eWriteName_clear (base +:+ "_BUFFER_SIZE")
              (VInt (buffer_size (Py.len waveform))) c2 2 Hclear2)
    as (c3 & Hrun3 & Hclear3 & Hh3).
  erewrite bind_Ok_run; [|exact Hrun3].
  destruct (eWriteName_clear (base +:+ "_ENABLE") (VInt 1) c3 1 Hclear3)
    as (c4 & Hrun4 & Hclear4 & Hh4).
  erewrite bind_Ok_run; [|exact Hrun4].
  destruct (eWriteName_clear (base +:+ "_LOOP_SIZE") (VInt (Py.len waveform)) c4 0
              Hclear4) as (c5 & Hrun5 & _ & Hh5).
  erewrite bind_Ok_run; [|exact Hrun5].
  assert (history (handle c5)
          = history (handle c)
            ++ [EvWriteName (base +:+ "_ENABLE") (VInt 0) None;
                EvWriteName (base +:+ "_TARGET") (VInt a) None;
                EvWriteName (base +:+ "_BUFFER_SIZE")
                  (VInt (buffer_size (Py.len waveform))) None;
                EvWriteName (base +:+ "_ENABLE") (VInt 1) None;
                EvWriteName (base +:+ "_LOOP_SIZE") (VInt (Py.len waveform)) None])
    as Hsetup.
  { rewrite Hh5, Hh4, Hh3, Hh2, Hh1, <- !app_assoc. reflexivity. }
  clear Hrun1 Hrun2 Hrun3 Hrun4 Hrun5 Hh1 Hh2 Hh3 Hh4 Hh5.
  destruct (write_samples_retries reg waveform c5) as (evs & Hh & Htrace).
  exists evs, (write_samples reg waveform c5).1. split; [exact Htrace|].
  unfold mbind, M_bind, bind.
  destruct (write_samples reg waveform c5) as [[[]|e] c6]; cbn [fst snd] in *.
  - destruct loop.
    + unfold dev, ljm.eWriteName.
      destruct (ljm.next_fault (handle c6)) as [[code|] fs]; cbn.
      * exists (Some code). by rewrite Hh, Hsetup, <- !app_assoc.
      * exists None. by rewrite Hh, Hsetup, <- !app_assoc.
    + cbn. split; [done|]. by rewrite Hh, Hsetup, <- !app_assoc.
  - split; [done|]. by rewrite Hh, Hsetup, <- !app_assoc.
Qed.

Lemma loader_retries_then_raises_witness :
  let flaky :=
    (init shipped
       (scripted_t7 (fun r => r) []
          (List.repeat None 13
           ++ [Some 1239; None; Some 1239; Some 1240; Some 1241]))).2 in
  let samples := [VInt 1; VInt 2; VInt 3] in
  addresses (handle flaky) !! START_PULSE_TARGET = Some 2500
  ∧ Forall (fun f => f = None) (take 5 (faults (handle flaky)))
  ∧ (_configure_stream_out 1 START_PULSE_TARGET samples true "u16" flaky).1
    = Raise (LJMError 1241)
  ∧ ∃ evs r_loop, load_trace "STREAM_OUT1_BUFFER_U16" samples evs r_loop.
Proof.
  intros flaky samples.
  assert (addresses (handle flaky) !! START_PULSE_TARGET = Some 2500) as Ha
    by (vm_compute; reflexivity).
  assert (Forall (fun f => f = None) (take 5 (faults (handle flaky)))) as Hclear
    by (vm_compute; repeat constructor).
  split; [exact Ha|]. split; [exact Hclear|].
  split; [vm_compute; reflexivity|].
  destruct (loader_retries_then_raises 1 START_PULSE_TARGET samples true "u16"
              2500 flaky Ha Hclear) as (evs & r_loop & Htrace & _).
  exists evs, r_loop. exact Htrace.
Defined.

(** The same load seen from the caller of the loader: the error of the
    third failure on the second sample, and a history that ends with that
    failure, the third sample and the loop flag never written. *)
Example loader_on_a_flaky_device :
  let flaky :=
    (init shipped
       (scripted_t7 (fun r => r) []
          (List.repeat None 13
           ++ [Some 1239; None; Some 1239; Some 1240; Some 1241]))).2 in
  let run :=
    _configure_stream_out 1 START_PULSE_TARGET [VInt 1; VInt 2; VInt 3] true "u16"
      flaky in
  run.1 = Raise (LJMError 1241)
  ∧ skipn (length (history (handle flaky)) + 5) (history (handle run.2))
    = [ EvWriteName "STREAM_OUT1_BUFFER_U16" (VInt 1) (Some 1239); EvSleep (1 # 100);
        EvWriteName "STREAM_OUT1_BUFFER_U16" (VInt 1) None;
        EvWriteName "STREAM_OUT1_BUFFER_U16" (VInt 2) (Some 1239); EvSleep (1 # 100);
        EvWriteName "STREAM_OUT1_BUFFER_U16" (VInt 2) (Some 1240); EvSleep (1 # 100);
        EvWriteName "STREAM_OUT1_BUFFER_U16" (VInt 2) (Some 1241) ].
Proof. vm_compute. repeat split. Qed.

(** * The TTL pulse train *)

Lemma lookup_repeat_Some {A} (x w : A) (n i : nat) :
  List.repeat x n !! i = Some w → w = x ∧ (i < n)%nat.
Proof.
  revert i. induction n as [|n IH]; intros [|i] H; simpl in H; try discriminate.
  - injection H as <-. split; [done | lia].
  - apply IH in H as [-> Hi]. split; [done | lia].
Qed.

Lemma len_repeat {A} (x : A) (n : Z) : 0 <= n → Py.len (Py.repeat x n) = n.
Proof. intros H. unfold Py.len, Py.repeat. rewrite repeat_length. lia. Qed.

Lemma imax_spec a b : Py.imax a b = Z.max a b.
Proof. unfold Py.imax. destruct (Z.ltb_spec a b); lia. Qed.

Lemma imin_spec a b : Py.imin a b = Z.min a b.
Proof. unfold Py.imin. destruct (Z.ltb_spec b a); lia. Qed.

(** The waveform [prepare_ttl_waveform] stores for a positive pulse count. *)
Lemma prepare_ttl_waveform_stored K num_pulses rate_hz pulse_width_s c :
  0 < num_pulses →
  let samples_per_period :=
    Py.imax 1 (Py.round (STREAM_SCAN_RATE_HZ K / Py.fmax rate_hz (1 # 10))%Q) in
  let high_samples :=
    Py.imin (Py.imax 1 (Py.round (pulse_width_s * STREAM_SCAN_RATE_HZ K)%Q))
      samples_per_period in
  prepare_ttl_waveform K num_pulses rate_hz pulse_width_s c
  = (Ok tt,
     with_ttl
       (Some (Py.repeat 0xFE01 high_samples
              ++ Py.repeat 0xFE00 (samples_per_period - high_samples)))
       (inject_Z num_pulses / Py.fmax rate_hz (1 # 10))%Q num_pulses c)
  ∧ 1 <= high_samples <= samples_per_period.
Proof.
  intros Hn. cbv zeta. split.
  - unfold prepare_ttl_waveform. destruct (Z.leb_spec num_pulses 0); [lia|].
    reflexivity.
  - rewrite imin_spec, !imax_spec. lia.
Qed.

(** C5.  With the shipped scan rate of 4000 Hz, 300 pulses at 30 Hz of
    1 ms each give 133 samples per period of which 4 are high: the stored
    waveform is 4 words with bit 0 set followed by 129 words with bit 0
    clear, 133 in all, and the exposed duration is 10 seconds. *)
Theorem ttl_waveform_for_300_pulses (c : Controller) :
  let c' := (prepare_ttl_waveform shipped 300 30 (1 # 1000) c).2 in
  STREAM_SCAN_RATE_HZ shipped = 4000%Q
  ∧ Py.imax 1 (Py.round (4000 / Py.fmax 30 (1 # 10))%Q) = 133
  ∧ Py.imin (Py.imax 1 (Py.round ((1 # 1000) * 4000)%Q)) 133 = 4
  ∧ _ttl_waveform c' = Some (Py.repeat 0xFE01 4 ++ Py.repeat 0xFE00 129)
  ∧ Py.len (Py.repeat 0xFE01 4 ++ Py.repeat 0xFE00 129) = 133
  ∧ Z.testbit 0xFE01 0 = true ∧ Z.testbit 0xFE00 0 = false
  ∧ (ttl_duration_seconds c' == 10)%Q.
Proof. repeat split. Qed.

Lemma _set_fio0_state_writes (high : bool) (c : Controller) :
  ∃ err,
    history (handle (_set_fio0_state high c).2)
    = history (handle c)
      ++ [EvWriteName "FIO_STATE" (VInt (if high then 0xFE01 else 0xFE00)) err].
Proof.
  unfold _set_fio0_state, _write_optional_register, try_except_LJMError, dev,
    ljm.eWriteName, ljm.next_fault.
  destruct (faults (handle c)) as [|[code|] fs]; cbn -[Z.eqb].
  - destruct high; by eexists.
  - destruct (code =? errorcodes.MBE2_ILLEGAL_DATA_ADDRESS); destruct high; by eexists.
  - destruct high; by eexists.
Qed.

(** C6.  The trigger line is driven by two port words only, 0xFE01
    (high) and 0xFE00 (low): both carry the inhibit mask 0xFE, which blocks
    lines 1 to 7 and lets line 0 through, in the upper byte, and the level
    of the line in bit 0 of an otherwise empty lower byte.  Every sample of a
    stored TTL waveform is the high word for the first [high_samples]
    samples and the low word after them, and [_set_fio0_state] writes the
    same two words to [FIO_STATE]. *)
Theorem trigger_port_words :
  (∀ i, 0 <= i < 8 → Z.testbit FIO0_MASK_ALLOW i = negb (i =? 0))
  ∧ (∀ level : bool,
       let w := if level then 0xFE01 else 0xFE00 in
       Z.shiftr w 8 = FIO0_MASK_ALLOW ∧ Z.land w 0xFF = Z.b2z level)
  ∧ (∀ K num_pulses rate_hz pulse_width_s c waveform (i : nat) w,
       _ttl_waveform (prepare_ttl_waveform K num_pulses rate_hz pulse_width_s c).2
       = Some waveform →
       waveform !! i = Some w →
       let high_samples :=
         Py.imin (Py.imax 1 (Py.round (pulse_width_s * STREAM_SCAN_RATE_HZ K)%Q))
           (Py.imax 1
              (Py.round (STREAM_SCAN_RATE_HZ K / Py.fmax rate_hz (1 # 10))%Q)) in
       w = if Z.of_nat i <? high_samples then 0xFE01 else 0xFE00)
  ∧ (∀ (high : bool) c,
       ∃ err,
         history (handle (_set_fio0_state high c).2)
         = history (handle c)
           ++ [EvWriteName "FIO_STATE" (VInt (if high then 0xFE01 else 0xFE00)) err]).
Proof.
  split; [|split; [|split]].
  - intros i Hi.
    assert (i = 0 ∨ i = 1 ∨ i = 2 ∨ i = 3 ∨ i = 4 ∨ i = 5 ∨ i = 6 ∨ i = 7)
      as [->|[->|[->|[->|[->|[->|[->| ->]]]]]]] by lia; reflexivity.
  - intros []; by split.
  - intros K num_pulses rate_hz pulse_width_s c waveform i w Hw Hi.
    destruct (Z.leb_spec num_pulses 0) as [Hn|Hn].
    + unfold prepare_ttl_waveform in Hw.
      destruct (Z.leb_spec num_pulses 0); [discriminate | lia].
    + destruct (prepare_ttl_waveform_stored K num_pulses rate_hz pulse_width_s c Hn)
        as [E Hrange].
      rewrite E in Hw. cbn [snd with_ttl _ttl_waveform] in Hw.
      injection Hw as <-. cbv zeta in *.
      set (h := Py.imin _ _) in *.
      apply lookup_app_Some in Hi as [Hi|[Hge Hi]];
        apply lookup_repeat_Some in Hi as [-> Hlt].
      * destruct (Z.ltb_spec (Z.of_nat i) h); [done | lia].
      * unfold Py.repeat in Hge. rewrite repeat_length in Hge.
        destruct (Z.ltb_spec (Z.of_nat i) h); [lia | done].
  - apply _set_fio0_state_writes.
Qed.

Lemma trigger_port_words_witness :
  _ttl_waveform (prepare_ttl_waveform shipped 300 30 (1 # 1000) (init shipped t7).2).2
  = Some (Py.repeat 0xFE01 4 ++ Py.repeat 0xFE00 129)
  ∧ (Py.repeat 0xFE01 4 ++ Py.repeat 0xFE00 129) !! 3%nat = Some 0xFE01
  ∧ 0xFE01 = (if 3 <? 4 then 0xFE01 else 0xFE00).
Proof.
  split; [reflexivity|]. split; [reflexivity|].
  exact (proj1 (proj2 (proj2 trigger_port_words))
           shipped 300 30%Q (1 # 1000)%Q (init shipped t7).2
           (Py.repeat 0xFE01 4 ++ Py.repeat 0xFE00 129) 3%nat 0xFE01
           eq_refl eq_refl).
Defined.

Lemma stream_out1_names :
  stream_out_name TTL_STREAM_OUT_INDEX +:+ "_LOOP_SIZE" = "STREAM_OUT1_LOOP_SIZE"
  ∧ stream_out_name TTL_STREAM_OUT_INDEX +:+ "_SET_LOOP" = "STREAM_OUT1_SET_LOOP".
Proof. by split. Qed.

Lemma configure_ttl_stream_out_loads c waveform :
  _ttl_waveform c = Some waveform → 0 < Py.len waveform →
  configure_ttl_stream_out c
  = _configure_stream_out TTL_STREAM_OUT_INDEX START_PULSE_TARGET
      (map VInt waveform) true "u16" c.
Proof.
  intros Hw Hlen. unfold configure_ttl_stream_out, mbind, M_bind, bind, get.
  rewrite Hw. destruct waveform; [discriminate | reflexivity].
Qed.

(** C10.  For a positive pulse count the stored TTL waveform is one
    period long, [max(1, round(scan_rate / max(rate_hz, 0.1)))] samples, and
    is the same for every positive pulse count; the pulse count only sets
    the duration [num_pulses / max(rate_hz, 0.1)].  Loading it writes that
    one period to the device: a completed load leaves the period length in
    [STREAM_OUT1_LOOP_SIZE] and 1 in [STREAM_OUT1_SET_LOOP], and on a healthy
    device the load completes with one buffer write per sample of the
    period. *)
Theorem ttl_waveform_is_one_period K num_pulses rate_hz pulse_width_s c :
  0 < num_pulses →
  let samples_per_period :=
    Py.imax 1 (Py.round (STREAM_SCAN_RATE_HZ K / Py.fmax rate_hz (1 # 10))%Q) in
  let c' := (prepare_ttl_waveform K num_pulses rate_hz pulse_width_s c).2 in
  ∃ waveform,
    _ttl_waveform c' = Some waveform
    ∧ Py.len waveform = samples_per_period
    ∧ _ttl_duration_s c' = (inject_Z num_pulses / Py.fmax rate_hz (1 # 10))%Q
    ∧ (∀ n, 0 < n →
         _ttl_waveform (prepare_ttl_waveform K n rate_hz pulse_width_s c).2
         = Some waveform)
    ∧ (∀ c'', configure_ttl_stream_out c' = (Ok tt, c'') →
         registers (handle c'') !! "STREAM_OUT1_LOOP_SIZE"
         = Some (VInt samples_per_period)
         ∧ registers (handle c'') !! "STREAM_OUT1_SET_LOOP" = Some (VInt 1))
    ∧ (∀ a, faults (handle c) = [] →
         addresses (handle c) !! START_PULSE_TARGET = Some a →
         ∃ c'', configure_ttl_stream_out c' = (Ok tt, c'')
                ∧ history (handle c'')
                  = history (handle c)
                    ++ [EvWriteName "STREAM_OUT1_ENABLE" (VInt 0) None;
                        EvWriteName "STREAM_OUT1_TARGET" (VInt a) None;
                        EvWriteName "STREAM_OUT1_BUFFER_SIZE"
                          (VInt (buffer_size samples_per_period)) None;
                        EvWriteName "STREAM_OUT1_ENABLE" (VInt 1) None;
                        EvWriteName "STREAM_OUT1_LOOP_SIZE"
                          (VInt samples_per_period) None]
                    ++ map (fun w => EvWriteName "STREAM_OUT1_BUFFER_U16" (VInt w) None)
                         waveform
                    ++ [EvWriteName "STREAM_OUT1_SET_LOOP" (VInt 1) None]).
Proof.
  intros Hn spp c'.
  destruct (prepare_ttl_waveform_stored K num_pulses rate_hz pulse_width_s c Hn)
    as [E Hrange].
  cbv zeta in E, Hrange. fold spp in E, Hrange.
  set (h := Py.imin _ spp) in *.
  set (waveform := Py.repeat 0xFE01 h ++ Py.repeat 0xFE00 (spp - h)) in *.
  assert (Py.len waveform = spp) as Hlen.
  { pose proof (len_repeat 0xFE01 h ltac:(lia)) as H1.
    pose proof (len_repeat 0xFE00 (spp - h) ltac:(lia)) as H2.
    unfold Py.len in *. subst waveform. rewrite length_app. lia. }
  assert (_ttl_waveform c' = Some waveform) as Hw by (subst c'; by rewrite E).
  assert (handle c' = handle c) as Hh by (subst c'; by rewrite E).
  exists waveform. split; [exact Hw|]. split; [exact Hlen|].
  split; [subst c'; by rewrite E|]. split; [|split].
  - intros n Hpos.
    destruct (prepare_ttl_waveform_stored K n rate_hz pulse_width_s c Hpos) as [-> _].
    reflexivity.
  - intros c'' H.
    rewrite (configure_ttl_stream_out_loads c' waveform Hw ltac:(lia)) in H.
    apply _configure_stream_out_registers in H as (_ & _ & Hl & Hs).
    destruct stream_out1_names as [N1 N2]. cbv zeta in Hl, Hs.
    rewrite N1 in Hl. rewrite N2 in Hs.
    split; [|by apply Hs].
    rewrite Hl. unfold Py.len in *. rewrite length_map. by rewrite Hlen.
  - intros a Hf Ha.
    rewrite (configure_ttl_stream_out_loads c' waveform Hw ltac:(lia)).
    destruct (_configure_stream_out_dry TTL_STREAM_OUT_INDEX START_PULSE_TARGET
                (map VInt waveform) true "u16" a c'
                ltac:(by rewrite Hh) ltac:(by rewrite Hh))
      as (c'' & Hrun & _ & _ & Hhist).
    exists c''. split; [exact Hrun|]. rewrite Hhist, Hh.
    cbv zeta. rewrite map_map.
    replace (Py.len (map VInt waveform)) with spp
      by (unfold Py.len in *; by rewrite length_map).
    reflexivity.
Qed.

Lemma ttl_waveform_is_one_period_witness :
  0 < 5400
  ∧ ∃ waveform,
      _ttl_waveform
        (prepare_ttl_waveform shipped 5400 30 (1 # 1000) (init shipped t7).2).2
      = Some waveform
      ∧ Py.len waveform = 133.
Proof.
  split; [reflexivity|].
  destruct (ttl_waveform_is_one_period shipped 5400 30 (1 # 1000)
              (init shipped t7).2 eq_refl) as (waveform & Hw & Hlen & _).
  exists waveform. split; [exact Hw | exact Hlen].
Defined.

(** * Which exceptions a method can raise *)

Section RaisesOnly.
Context {S : Type} (P : exn → Prop).

Lemma raises_only_ret {A} (a : A) : raises_only P (mret a : M S A).
Proof. intros s e. discriminate. Qed.

Lemma raises_only_raise {A} e : P e → raises_only P (raise e : M S A).
Proof. intros H s e' [= <-]. exact H. Qed.

Lemma raises_only_bind {A B} (m : M S A) (k : A → M S B) :
  raises_only P m → (∀ a, raises_only P (k a)) → raises_only P (m ≫= k).
Proof.
  intros Hm Hk s e. unfold mbind, M_bind, bind.
  specialize (Hm s). destruct (m s) as [[a|e'] s1]; simpl in *.
  - apply Hk.
  - intros [= <-]. by apply Hm.
Qed.

Lemma raises_only_try {A} (m : M S A) h :
  raises_only P m → (∀ code, raises_only P (h code)) →
  raises_only P (try_except_LJMError m h).
Proof.
  intros Hm Hh s e. unfold try_except_LJMError.
  specialize (Hm s). destruct (m s) as [[a|[code|msg| |]] s1]; simpl in *;
    try (intros [= <-]; by apply Hm); try discriminate.
  apply Hh.
Qed.

Lemma raises_only_if {A} (b : bool) (m1 m2 : M S A) :
  raises_only P m1 → raises_only P m2 → raises_only P (if b then m1 else m2).
Proof. by destruct b. Qed.
End RaisesOnly.

Lemma dev_raises_only {A} P (m : M Device A) : raises_only P m → raises_only P (dev m).
Proof.
  intros H c e. unfold dev. specialize (H (handle c) e).
  destruct (m (handle c)) as [r h]. exact H.
Qed.

Lemma eWriteName_raises name v : raises_only is_LJMError (ljm.eWriteName name v).
Proof.
  intros d e. unfold ljm.eWriteName.
  destruct (ljm.next_fault d) as [[code|] fs]; simpl; [|discriminate].
  intros [= <-]. by exists code.
Qed.

Lemma nameToAddress_raises name : raises_only is_LJMError (ljm.nameToAddress name).
Proof.
  intros d e. unfold ljm.nameToAddress.
  destruct (addresses d !! name); simpl; [discriminate|].
  intros [= <-]. by eexists.
Qed.

Lemma sleep_raises t : raises_only is_LJMError (ljm.sleep t).
Proof. intros d e. discriminate. Qed.

Lemma write_attempts_raises reg v attempts :
  raises_only is_LJMError (write_attempts reg v attempts).
Proof.
  induction attempts as [|attempt rest IH]; cbn [write_attempts].
  - apply raises_only_ret.
  - apply raises_only_try.
    + apply dev_raises_only, eWriteName_raises.
    + intros code. apply raises_only_if.
      * apply raises_only_raise. by exists code.
      * apply raises_only_bind; [apply dev_raises_only, sleep_raises | done].
Qed.

Lemma write_samples_raises reg waveform :
  raises_only is_LJMError (write_samples reg waveform).
Proof.
  induction waveform as [|v rest IH]; cbn [write_samples].
  - apply raises_only_ret.
  - apply raises_only_bind; [apply write_attempts_raises | done].
Qed.

Lemma _configure_stream_out_raises index target_name waveform loop value_type :
  raises_only is_LJMError
    (_configure_stream_out index target_name waveform loop value_type).
Proof.
  unfold _configure_stream_out.
  apply raises_only_bind; [apply dev_raises_only, nameToAddress_raises|]. intros a.
  do 5 (apply raises_only_bind; [apply dev_raises_only, eWriteName_raises|]; intros _).
  apply raises_only_bind; [apply write_samples_raises|]. intros _.
  apply raises_only_if; [apply dev_raises_only, eWriteName_raises | apply raises_only_ret].
Qed.

(** * The sine waveform *)

Lemma lookup_map_seq {B} (f : Z → B) (a n i : nat) :
  (i < n)%nat → map f (map Z.of_nat (seq a n)) !! i = Some (f (Z.of_nat (a + i))).
Proof.
  revert a i. induction n as [|n IH]; intros a [|i] Hi; try lia; simpl.
  - by rewrite Nat.add_0_r.
  - rewrite IH by lia. do 2 f_equal. lia.
Qed.

Lemma index_map_range {B} (f : Z → B) (n i : Z) :
  0 <= i < n → Py.index (map f (Py.range n)) i = Some (f i).
Proof.
  intros Hi. unfold Py.index, Py.range.
  destruct (Z.ltb_spec i 0); [lia|].
  rewrite lookup_map_seq by lia. do 2 f_equal. lia.
Qed.

Lemma len_map_range {B} (f : Z → B) (n : Z) : 0 <= n → Py.len (map f (Py.range n)) = n.
Proof.
  intros Hn. unfold Py.len, Py.range. rewrite !length_map, length_seq. lia.
Qed.

(** C4, as the code has it.  [samples_per_period] is
    [int(scan_rate / frequency)], truncated, not rounded.  With a zero LED
    frequency that division raises [ZeroDivisionError] and nothing is sent
    to the device.  With a nonzero frequency the generator raises
    [ValueError] exactly when [samples_per_period] is below 2, before
    anything is sent to the device; otherwise it hands the loader a
    waveform of [samples_per_period] samples whose [i]-th sample is
    [offset + amplitude * sin(2 * pi * i / samples_per_period)]. *)
Theorem sine_generator_truncates math_sin math_pi K c :
  let samples_per_period :=
    Py.int (STREAM_SCAN_RATE_HZ K / LED_FREQUENCY_HZ K)%Q in
  let waveform := sine_waveform math_sin math_pi K samples_per_period in
  let r := configure_led_stream_out math_sin math_pi K c in
  ((LED_FREQUENCY_HZ K == 0)%Q → r = (Raise ZeroDivisionError, c))
  ∧ (¬ (LED_FREQUENCY_HZ K == 0)%Q →
     ((∃ msg, r.1 = Raise (ValueError msg)) ↔ samples_per_period < 2)
     ∧ (samples_per_period < 2 → r.2 = c)
     ∧ (2 <= samples_per_period →
        r = _configure_stream_out STREAM_OUT_INDEX LED_DAC_CHANNEL
              (map VFloat waveform) true "f32" c
        ∧ Py.len waveform = samples_per_period
        ∧ ∀ i, 0 <= i < samples_per_period →
            Py.index waveform i
            = Some (LED_OFFSET_V K
                    + LED_AMPLITUDE_V K
                      * math_sin ((2 * math_pi * inject_Z i)
                                  / inject_Z samples_per_period))%Q)).
Proof.
  intros spp waveform. cbv zeta. split.
  { intros Hz. apply Qeq_bool_iff in Hz.
    unfold configure_led_stream_out, truediv, mbind, M_bind, bind.
    by rewrite Hz. }
  intros Hfreq.
  assert (configure_led_stream_out math_sin math_pi K c
          = if spp <? 2 then
              (Raise (ValueError "Scan rate must be at least 2x the LED frequency."), c)
            else _configure_stream_out STREAM_OUT_INDEX LED_DAC_CHANNEL
                   (map VFloat waveform) true "f32" c) as E.
  { unfold configure_led_stream_out, truediv, mbind, M_bind, bind.
    destruct (Qeq_bool (LED_FREQUENCY_HZ K) 0) eqn:Hz.
    - apply Qeq_bool_iff in Hz. contradiction.
    - cbn. fold spp. by destruct (spp <? 2). }
  rewrite E. destruct (Z.ltb_spec spp 2) as [Hlt|Hge].
  - split; [|split]; [split; [done | by eexists] | done | lia].
  - split; [|split]; [split | lia |].
    + intros [msg Hmsg].
      destruct (_configure_stream_out_raises _ _ _ _ _ _ _ Hmsg) as [code Hcode].
      discriminate.
    + lia.
    + intros _. split; [done|]. split.
      * apply len_map_range. lia.
      * intros i Hi. subst waveform. unfold sine_waveform.
        by rewrite index_map_range.
Qed.

Lemma sine_generator_truncates_witness :
  ¬ (LED_FREQUENCY_HZ shipped == 0)%Q
  ∧ Py.int (STREAM_SCAN_RATE_HZ shipped / LED_FREQUENCY_HZ shipped)%Q = 16
  ∧ Py.len (sine_waveform (fun x => x) 3%Q shipped 16) = 16.
Proof.
  assert (¬ (LED_FREQUENCY_HZ shipped == 0)%Q) as H by (by intros H).
  split; [exact H|]. split; [reflexivity|].
  destruct (sine_generator_truncates (fun x => x) 3%Q shipped (init shipped t7).2)
    as [_ Hnz].
  destruct (Hnz H) as (_ & _ & Hwave).
  exact (proj1 (proj2 (Hwave ltac:(by intros H')))).
Defined.

(** C4, as the specification states it, fails: at 4000 / 2400 the
    rounded ratio is 2, not below 2, and the generator raises all the same
    (the truncated ratio is 1). *)
Lemma sine_generator_does_not_round :
  Py.round (STREAM_SCAN_RATE_HZ led_at_2400 / LED_FREQUENCY_HZ led_at_2400)%Q = 2
  ∧ ¬ (Py.round (STREAM_SCAN_RATE_HZ led_at_2400 / LED_FREQUENCY_HZ led_at_2400)%Q < 2)
  ∧ (configure_led_stream_out (fun x => x) 3%Q led_at_2400 (init led_at_2400 t7).2).1
    = Raise (ValueError "Scan rate must be at least 2x the LED frequency.").
Proof. split; [reflexivity|]. split; [by intros H | reflexivity]. Qed.

(** * Logging chunks *)

Lemma prefix_is_take {A} (p : Z) (l : list A) : ∃ k, Py.prefix p l = take k l.
Proof. unfold Py.prefix. destruct (p <? 0); eauto. Qed.

Lemma index_prefix {A} (p i : Z) (l : list A) :
  0 <= i < Py.len (Py.prefix p l) → Py.index (Py.prefix p l) i = Py.index l i.
Proof.
  destruct (prefix_is_take p l) as [k ->]. unfold Py.index, Py.len.
  rewrite length_take. intros Hi.
  destruct (Z.ltb_spec i 0); [lia|]. apply lookup_take_lt. lia.
Qed.

Lemma len_prefix {A} (p : Z) (l : list A) :
  0 <= p → Py.len (Py.prefix p l) = Z.min p (Py.len l).
Proof.
  intros Hp. unfold Py.prefix, Py.len. destruct (Z.ltb_spec p 0); [lia|].
  rewrite length_take. lia.
Qed.

Lemma index_in_range {A} (l : list A) (i : Z) :
  0 <= i < Py.len l → is_Some (Py.index l i).
Proof.
  unfold Py.index, Py.len. intros Hi. destruct (Z.ltb_spec i 0); [lia|].
  apply lookup_lt_is_Some_2. lia.
Qed.

Lemma comprehension_getitem {S} (data : list Q) (base : Z) (chs : list Z) (s : S) :
  (∀ ch, ch ∈ chs → 0 <= base + ch < Py.len data) →
  ∃ vals, comprehension chs (fun ch => getitem data (base + ch)) s = (Ok vals, s)
          ∧ Forall2 (fun ch v => Py.index data (base + ch) = Some v) chs vals.
Proof.
  induction chs as [|ch chs IH]; intros Hin.
  - exists []. by split.
  - destruct (index_in_range data (base + ch)) as [v Hv];
      [apply Hin; name_in|].
    destruct IH as (vals & Hrun & Hall);
      [intros ch' Hch'; apply Hin; by apply list_elem_of_further|].
    exists (v :: vals). split; [|by constructor].
    cbn [comprehension].
    erewrite bind_Ok_run; [|unfold getitem; by rewrite Hv].
    erewrite bind_Ok_run; [|exact Hrun]. reflexivity.
Qed.

Lemma lookup_range (n i : Z) : 0 <= i < n → Py.range n !! Z.to_nat i = Some i.
Proof.
  intros Hi. unfold Py.range. rewrite <- (map_id (map Z.of_nat _)).
  rewrite lookup_map_seq by lia. f_equal. lia.
Qed.

Lemma log_scan_row (n : Z) (period : Q) (data : list Q) (scan : Z) s rows :
  writer s = Some rows → 0 < n → 0 <= scan → (scan + 1) * n <= Py.len data →
  ∃ row, log_scan n n period data scan s = (Ok tt, logged s (rows ++ [row]) 1)
         ∧ is_scan_row data n period (sample_index s) scan row.
Proof.
  intros Hw Hn Hscan Hfit.
  destruct (comprehension_getitem data (scan * n) (Py.range n) s) as (vals & Hrun & Hall).
  { intros ch Hch. unfold Py.range in Hch.
    apply list_elem_of_In, in_map_iff in Hch as (k & <- & Hk).
    apply in_seq in Hk. nia. }
  exists ([CInt (sample_index s); CFloat (inject_Z (sample_index s) * period)%Q]
          ++ map CFloat vals).
  split.
  - unfold log_scan. erewrite bind_Ok_run; [|exact Hrun].
    unfold mbind, M_bind, bind, get, writerow, next_sample_index, modify, logged.
    cbn. by rewrite Hw.
  - exists vals. split; [done|].
    pose proof (Forall2_length _ _ _ Hall) as Hlen.
    unfold Py.range in Hlen. rewrite length_map, length_seq in Hlen.
    split; [unfold Py.len; lia|].
    intros ch Hch.
    destruct (Forall2_lookup_l _ _ _ (Z.to_nat ch) ch Hall) as (v & Hv & Hidx).
    { by apply lookup_range. }
    exists v. split; [|exact Hidx].
    unfold Py.index. destruct (Z.ltb_spec ch 0); [lia | exact Hv].
Qed.

Lemma logged_twice s rows rows' a b :
  logged (logged s rows a) rows' b = logged s rows' (a + b).
Proof. unfold logged. cbn. f_equal. lia. Qed.

Lemma log_scans_rows (n : Z) (period : Q) (data : list Q) (m a : nat) s rows :
  writer s = Some rows → 0 < n → Z.of_nat (a + m) * n <= Py.len data →
  ∃ new,
    for_each (map Z.of_nat (seq a m)) (log_scan n n period data) s
    = (Ok tt, logged s (rows ++ new) (Z.of_nat m))
    ∧ length new = m
    ∧ ∀ j, (j < m)%nat →
        ∃ row, new !! j = Some row
               ∧ is_scan_row data n period (sample_index s + Z.of_nat j)
                   (Z.of_nat (a + j)) row.
Proof.
  revert a s rows. induction m as [|m IH]; intros a s rows Hw Hn Hfit.
  - exists []. split; [|split; [done | lia]].
    cbn. unfold logged. destruct s; cbn in *. subst. rewrite app_nil_r.
    do 3 f_equal. lia.
  - destruct (log_scan_row n period data (Z.of_nat a) s rows Hw Hn ltac:(lia)
                ltac:(nia)) as (row & Hrun & Hrow).
    destruct (IH (S a) (logged s (rows ++ [row]) 1) (rows ++ [row]) eq_refl Hn
                ltac:(nia)) as (new & Hloop & Hlen & Hrows).
    exists (row :: new). split; [|split].
    + cbn [seq map for_each]. erewrite bind_Ok_run; [|exact Hrun].
      rewrite Hloop, logged_twice, <- app_assoc. cbn. do 3 f_equal. lia.
    + cbn. lia.
    + intros [|j] Hj.
      * exists row. split; [done|]. cbn. rewrite Z.add_0_r, Nat.add_0_r. exact Hrow.
      * destruct (Hrows j ltac:(lia)) as (row' & Hlook & Hrow').
        exists row'. split; [exact Hlook|].
        cbn [logged sample_index] in Hrow'.
        replace (sample_index s + Z.of_nat (S j)) with (sample_index s + 1 + Z.of_nat j) by lia.
        replace (a + S j)%nat with (S a + j)%nat by lia. exact Hrow'.
Qed.

Lemma eStreamStart_Ok spr n addrs requested c r c' :
  dev (ljm.eStreamStart spr n addrs requested) c = (Ok r, c') →
  r = clock_rate (handle c) requested
  ∧ clock_rate (handle c') = clock_rate (handle c)
  ∧ stream_config c' = stream_config c
  ∧ last (history (handle c')) = Some (EvStreamStart spr addrs requested None).
Proof.
  unfold dev, ljm.eStreamStart.
  destruct (ljm.next_fault (handle c)) as [[code|] fs]; [discriminate|].
  destruct (streaming (handle c)); [discriminate|].
  intros [= <- <-]. cbn. by rewrite last_snoc.
Qed.

(** What a started stream remembers: the rate the device reported for the
    requested one. *)
Lemma start_stream_stores_rate math_sin math_pi K c0 rate c :
  start_stream math_sin math_pi K c0 = (Ok rate, c) →
  _actual_scan_rate c = rate
  ∧ rate = clock_rate (handle c) (scan_rate_hz (stream_config c))
  ∧ ∃ spr addrs,
      last (history (handle c))
      = Some (EvStreamStart spr addrs (scan_rate_hz (stream_config c)) None).
Proof.
  unfold start_stream. intros H.
  apply bind_Ok_inv in H as (self0 & c1 & _ & H).
  apply bind_Ok_inv in H as (a & c2 & _ & H).
  apply bind_Ok_inv in H as ([] & c3 & _ & H).
  apply bind_Ok_inv in H as ([] & c4 & _ & H).
  apply bind_Ok_inv in H as (self1 & c5 & _ & H).
  apply bind_Ok_inv in H as ([] & c6 & _ & H).
  apply bind_Ok_inv in H as (self2 & c7 & Hself & H).
  apply bind_Ok_inv in H as (r & c8 & Hstart & H).
  apply bind_Ok_inv in H as ([] & c9 & Hset & H).
  apply bind_Ok_inv in H as (self3 & c10 & Hget & H).
  injection Hself as <- <-. injection Hget as <- <-. injection H as <- <-.
  injection Hset as <-.
  apply eStreamStart_Ok in Hstart as (-> & Hclock & Hcfg & Hlast).
  cbn. rewrite Hclock, Hcfg. split; [done|]. split; [done|]. eauto.
Qed.

(** A whole run against [t7_at_3999], one read in each of the two clocked
    loops: the rows carry the index over the chunk boundary and are stamped
    with the 3999 Hz the device reported, not the 4000 Hz requested; the
    stray sample is dropped. *)
Example run_pulsed_stream_rows :
  let run := run_pulsed_stream (fun x => x) 3%Q shipped t7_at_3999
               300 30 (1 # 1000) true 1 1 in
  run.1 = Ok tt
  ∧ scan_rate_hz (stream_config (controller run.2)) = 4000%Q
  ∧ _actual_scan_rate (controller run.2) = 3999%Q
  ∧ writer run.2
    = Some [ [CStr "sample_index"; CStr "time_s"; CStr "AIN0"; CStr "AIN1";
              CStr "AIN2"];
             [CInt 0; CFloat (0 # 3999); CFloat 1; CFloat 2; CFloat 3];
             [CInt 1; CFloat (1 # 3999); CFloat 4; CFloat 5; CFloat 6];
             [CInt 2; CFloat (2 # 3999); CFloat 7; CFloat 8; CFloat 9] ].
Proof. vm_compute. repeat split. Qed.

(** A load against a device that, once the controller is set up (eight
    calls), fails the first write of the first sample and every write of
    the second sample: the first sample goes through on its second attempt,
    the second is given up after three. *)
Example write_samples_on_a_flaky_device :
  let flaky :=
    (init shipped
       (scripted_t7 (fun r => r) []
          (List.repeat None 8
           ++ [Some 1239; None; Some 1239; Some 1240; Some 1241]))).2 in
  let run := write_samples "STREAM_OUT1_BUFFER_U16" [VInt 1; VInt 2; VInt 3] flaky in
  run.1 = Raise (LJMError 1241)
  ∧ skipn (length (history (handle flaky))) (history (handle run.2))
    = [ EvWriteName "STREAM_OUT1_BUFFER_U16" (VInt 1) (Some 1239); EvSleep (1 # 100);
        EvWriteName "STREAM_OUT1_BUFFER_U16" (VInt 1) None;
        EvWriteName "STREAM_OUT1_BUFFER_U16" (VInt 2) (Some 1239); EvSleep (1 # 100);
        EvWriteName "STREAM_OUT1_BUFFER_U16" (VInt 2) (Some 1240); EvSleep (1 # 100);
        EvWriteName "STREAM_OUT1_BUFFER_U16" (VInt 2) (Some 1241) ].
Proof. vm_compute. repeat split. Qed.

(** * The rest of the controller *)

(** ** Optional registers *)

(** X1.  [_write_optional_register] makes exactly one write attempt.  A
    write that goes through stores the value; a write refused with
    [MBE2_ILLEGAL_DATA_ADDRESS] is passed over in silence and stores
    nothing; any other error is raised again unchanged, and stores
    nothing. *)
Theorem write_optional_register_outcome (name : string) (v : value) (c : Controller) :
  let f := (ljm.next_fault (handle c)).1 in
  let r := _write_optional_register name v c in
  history (handle r.2) = history (handle c) ++ [EvWriteName name v f]
  ∧ match f with
    | None => r.1 = Ok tt ∧ registers (handle r.2) !! name = Some v
    | Some code =>
        registers (handle r.2) = registers (handle c)
        ∧ r.1 = if code =? errorcodes.MBE2_ILLEGAL_DATA_ADDRESS then Ok tt
                else Raise (LJMError code)
    end.
Proof.
  unfold _write_optional_register, try_except_LJMError, dev, ljm.eWriteName.
  destruct (ljm.next_fault (handle c)) as [[code|] fs]; cbn -[Z.eqb].
  - destruct (code =? errorcodes.MBE2_ILLEGAL_DATA_ADDRESS); by repeat split.
  - repeat split. apply lookup_insert_eq.
Qed.

(** ** Switching the TTL output off *)

(** X2.  [disable_ttl_stream] always attempts both writes, the disable
    of [STREAM_OUT1] and the low word to [FIO_STATE], whatever the first
    one did: an error of the first is dropped.  It returns normally exactly
    when the second write went through or was refused as an absent
    register, and then the stored waveform and duration are cleared while
    the pulse count is kept; otherwise it raises the error of the second
    write and leaves the stored waveform as it was. *)
Theorem disable_ttl_stream_outcome (c : Controller) :
  let r := disable_ttl_stream c in
  ∃ err1 err2,
    history (handle r.2)
    = history (handle c)
      ++ [EvWriteName "STREAM_OUT1_ENABLE" (VInt 0) err1;
          EvWriteName "FIO_STATE" (VInt 0xFE00) err2]
    ∧ match err2 with
      | Some code =>
          if code =? errorcodes.MBE2_ILLEGAL_DATA_ADDRESS then
            r.1 = Ok tt ∧ _ttl_waveform r.2 = None
          else
            r.1 = Raise (LJMError code) ∧ _ttl_waveform r.2 = _ttl_waveform c
               ∧ _ttl_duration_s r.2 = _ttl_duration_s c
      | None =>
          r.1 = Ok tt ∧ _ttl_waveform r.2 = None ∧ _ttl_duration_s r.2 = 0%Q
          ∧ _ttl_num_pulses r.2 = _ttl_num_pulses c
          ∧ registers (handle r.2) !! "FIO_STATE" = Some (VInt 0xFE00)
      end.
Proof.
  destruct c as [[? ? ? ? ? ? fs hist ?] ? ? ? ? ? ? ? ?].
  unfold disable_ttl_stream, _set_fio0_state, _write_optional_register,
    try_except_LJMError, mbind, M_bind, bind, dev, ljm.eWriteName,
    ljm.next_fault, modify.
  destruct fs as [|f1 [|[code2|] fs]]; [| destruct f1 .. ]; cbn -[Z.eqb];
    try destruct (code2 =? errorcodes.MBE2_ILLEGAL_DATA_ADDRESS) eqn:E;
    cbn -[Z.eqb]; rewrite <- ?app_assoc; do 2 eexists;
    (split; [reflexivity|]); cbn -[Z.eqb]; rewrite ?E;
    repeat split; try apply lookup_insert_eq.
Qed.

(** ** The camera start pulse *)

Lemma fmax_bounds (a b : Q) : (a <= Py.fmax a b)%Q ∧ (b <= Py.fmax a b)%Q.
Proof.
  unfold Py.fmax. destruct (Qle_bool b a) eqn:E.
  - apply Qle_bool_iff in E. split; [apply Qle_refl | exact E].
  - split; [|apply Qle_refl].
    destruct (Qlt_le_dec a b) as [H|H]; [by apply Qlt_le_weak|].
    apply Qle_bool_iff in H. congruence.
Qed.

Lemma _set_fio0_state_run (high : bool) (c : Controller) :
  let w := VInt (if high then 0xFE01 else 0xFE00) in
  _set_fio0_state high c
  = let (f, fs) := ljm.next_fault (handle c) in
    let d := ljm.called (EvWriteName "FIO_STATE" w f) fs (handle c) in
    match f with
    | None =>
        (Ok tt,
         with_handle (ljm.with_registers (<["FIO_STATE" := w]> (registers d)) d) c)
    | Some code =>
        (if code =? errorcodes.MBE2_ILLEGAL_DATA_ADDRESS then Ok tt
         else Raise (LJMError code), with_handle d c)
    end.
Proof.
  unfold _set_fio0_state, _write_optional_register, try_except_LJMError, dev,
    ljm.eWriteName.
  destruct (ljm.next_fault (handle c)) as [[code|] fs]; cbn -[Z.eqb];
    [destruct (code =? errorcodes.MBE2_ILLEGAL_DATA_ADDRESS)|];
    by destruct high.
Qed.

(** X3.  [fire_camera_start_pulse] writes the high word, sleeps, and
    writes the low word.  The sleep is [max(0.001, width_s)]: at least one
    millisecond and at least the width asked for.  When the high write is
    refused with an error other than an absent register the pulse is given
    up at once, with no sleep and no low write.  When the low write is so
    refused the error is raised after the line was driven high and held. *)
Theorem fire_camera_start_pulse_outcome (width_s : Q) (c : Controller) :
  let r := fire_camera_start_pulse width_s c in
  let hold := Py.fmax (1 # 1000) width_s in
  let high := EvWriteName "FIO_STATE" (VInt 0xFE01) in
  let low := EvWriteName "FIO_STATE" (VInt 0xFE00) in
  let refused (err : option Z) :=
    match err with
    | Some code => negb (code =? errorcodes.MBE2_ILLEGAL_DATA_ADDRESS)
    | None => false
    end in
  (1 # 1000 <= hold)%Q ∧ (width_s <= hold)%Q
  ∧ ∃ err1,
      if refused err1 then
        history (handle r.2) = history (handle c) ++ [high err1]
        ∧ (∃ code, err1 = Some code ∧ r.1 = Raise (LJMError code))
      else
        ∃ err2,
          history (handle r.2)
          = history (handle c) ++ [high err1; EvSleep hold; low err2]
          ∧ if refused err2 then ∃ code, err2 = Some code ∧ r.1 = Raise (LJMError code)
            else r.1 = Ok tt.
Proof.
  cbv zeta. split; [apply fmax_bounds|]. split; [apply fmax_bounds|].
  unfold fire_camera_start_pulse.
  pose proof (_set_fio0_state_run true c) as H1. cbv zeta in H1.
  destruct (ljm.next_fault (handle c)) as [f1 fs1]. exists f1.
  assert (∀ c1, history (handle c1) = history (handle c) ++ [EvWriteName "FIO_STATE" (VInt 0xFE01) f1] →
            ∃ err2,
              history (handle ((dev (ljm.sleep (Py.fmax (1 # 1000) width_s));;
                                _set_fio0_state false) c1).2)
              = history (handle c)
                ++ [EvWriteName "FIO_STATE" (VInt 0xFE01) f1;
                    EvSleep (Py.fmax (1 # 1000) width_s);
                    EvWriteName "FIO_STATE" (VInt 0xFE00) err2]
              ∧ if match err2 with
                   | Some code => negb (code =? errorcodes.MBE2_ILLEGAL_DATA_ADDRESS)
                   | None => false
                   end
                then ∃ code, err2 = Some code
                     ∧ ((dev (ljm.sleep (Py.fmax (1 # 1000) width_s));;
                         _set_fio0_state false) c1).1 = Raise (LJMError code)
                else ((dev (ljm.sleep (Py.fmax (1 # 1000) width_s));;
                       _set_fio0_state false) c1).1 = Ok tt) as Hrest.
  { intros c1 Hc1. erewrite bind_Ok_run; [|reflexivity].
    rewrite _set_fio0_state_run. cbv zeta.
    destruct (ljm.next_fault _) as [f2 fs2]. exists f2.
    destruct f2 as [code2|]; cbn -[Z.eqb Py.fmax]; rewrite Hc1, <- !app_assoc;
      (split; [reflexivity|]).
    - destruct (code2 =? errorcodes.MBE2_ILLEGAL_DATA_ADDRESS); cbn; eauto.
    - reflexivity. }
  destruct f1 as [code1|].
  - destruct (code1 =? errorcodes.MBE2_ILLEGAL_DATA_ADDRESS) eqn:E1; cbn [negb].
    + erewrite bind_Ok_run; [|exact H1]. apply Hrest. reflexivity.
    + erewrite bind_Raise_run; [|exact H1]. split; [reflexivity | eauto].
  - erewrite bind_Ok_run; [|exact H1]. apply Hrest. reflexivity.
Qed.

(** ** Closing *)

Lemma eStreamStop_raises : raises_only is_LJMError ljm.eStreamStop.
Proof.
  intros d e. unfold ljm.eStreamStop.
  destruct (ljm.next_fault d) as [[code|] fs]; simpl.
  - intros [= <-]. by eexists.
  - destruct (streaming d); simpl; [discriminate|]. intros [= <-]. by eexists.
Qed.

Lemma _write_optional_register_raises name v :
  raises_only is_LJMError (_write_optional_register name v).
Proof.
  apply raises_only_try; [apply dev_raises_only, eWriteName_raises|].
  intros code. apply raises_only_if; [apply raises_only_ret|].
  apply raises_only_raise. by eexists.
Qed.

Lemma disable_ttl_stream_raises : raises_only is_LJMError disable_ttl_stream.
Proof.
  unfold disable_ttl_stream. apply raises_only_bind.
  - apply raises_only_try; [apply dev_raises_only, eWriteName_raises|].
    intros _. apply raises_only_ret.
  - intros _. apply raises_only_bind; [apply _write_optional_register_raises|].
    intros _ s e. discriminate.
Qed.

Lemma stop_stream_raises K : raises_only is_LJMError (stop_stream K).
Proof.
  unfold stop_stream.
  apply raises_only_bind; [apply disable_ttl_stream_raises|]. intros _.
  apply raises_only_bind; [apply dev_raises_only, eStreamStop_raises|]. intros _.
  apply raises_only_bind; [apply dev_raises_only, eWriteName_raises|]. intros _.
  apply dev_raises_only, eWriteName_raises.
Qed.

(** ** Setting up *)

Lemma bind_bind {S A B C} (m : M S A) (k : A → M S B) (k' : B → M S C) s :
  ((m ≫= k) ≫= k') s = (m ≫= (fun a => k a ≫= k')) s.
Proof. unfold mbind, M_bind, bind. by destruct (m s) as [[a|e] s1]. Qed.

Lemma eWriteNames_dry numFrames aNames aValues c :
  faults (handle c) = [] →
  dev (ljm.eWriteNames numFrames aNames aValues) c
  = (Ok tt,
     with_handle
       (ljm.with_registers
          (fold_left (fun r nv => <[nv.1 := nv.2]> r)
             (Py.prefix numFrames (zip aNames aValues)) (registers (handle c)))
          (ljm.called (EvWriteNames aNames aValues None) [] (handle c))) c).
Proof. intros H. unfold dev, ljm.eWriteNames. by rewrite (next_fault_dry _ H). Qed.

Lemma _write_optional_register_dry name v c :
  faults (handle c) = [] →
  _write_optional_register name v c
  = (Ok tt,
     with_handle
       (ljm.with_registers (<[name := v]> (registers (handle c)))
          (ljm.called (EvWriteName name v None) [] (handle c))) c).
Proof.
  intros H. unfold _write_optional_register, try_except_LJMError.
  by rewrite (eWriteName_dry _ _ _ H).
Qed.

Lemma guarded_eStreamStop_dry c :
  faults (handle c) = [] →
  try_except_LJMError (dev ljm.eStreamStop) (fun _ => mret tt) c
  = (Ok tt,
     with_handle
       (ljm.with_stream false (pending (handle c))
          (ljm.called
             (EvStreamStop (if streaming (handle c) then None
                            else Some errorcodes.STREAM_NOT_RUNNING))
             [] (handle c))) c).
Proof.
  intros H. unfold try_except_LJMError, dev, ljm.eStreamStop.
  rewrite (next_fault_dry _ H).
  destruct c as [[] ? ? ? ? ? ? ? ?]. cbn in *. by destruct streaming0.
Qed.

(** A lookup under a stack of inserts with literal names. *)
Ltac lookup_in_inserts :=
  first [ apply lookup_insert_eq
        | rewrite lookup_insert_ne by discriminate; lookup_in_inserts ].

(** Bring the state reached back to a plain record. *)
Ltac flat_state :=
  cbn [handle device_type stream_config _scan_list_addresses _actual_scan_rate
       _ttl_waveform _ttl_duration_s _ttl_num_pulses _num_inputs
       with_handle with_scan_list with_actual_scan_rate with_ttl
       deviceType addresses clock_rate registers streaming pending faults
       history is_open ljm.called ljm.with_registers ljm.with_stream].

(** One step of a run whose outcome is known. *)
Ltac run_with lem :=
  cbv beta; rewrite ?bind_bind; erewrite bind_Ok_run; [|by apply lem];
  flat_state.
Ltac run_refl :=
  cbv beta; rewrite ?bind_bind; erewrite bind_Ok_run; [|reflexivity];
  flat_state.

(** The constructor on a healthy device. *)
Lemma init_healthy (K : Settings) (d : Device) :
  faults d = [] →
  let r := init K d in
  r.1 = Ok tt
  ∧ faults (handle r.2) = []
  ∧ addresses (handle r.2) = addresses d
  ∧ pending (handle r.2) = pending d
  ∧ streaming (handle r.2)
    = (if deviceType d =? ljm.constants.dtT4 then streaming d else false)
  ∧ registers (handle r.2) !! LED_DAC_CHANNEL = Some (VFloat (LED_IDLE_V K))
  ∧ registers (handle r.2) !! "FIO_DIRECTION" = Some (VInt 0xFE01)
  ∧ registers (handle r.2) !! "FIO_STATE" = Some (VInt 0xFE00)
  ∧ (deviceType d ≠ ljm.constants.dtT4 →
     ∀ ain, ain ∈ [PHOTODETECTOR_AIN; CAMERA_TTL_AIN; LED_MONITOR_AIN] →
       registers (handle r.2) !! (ain +:+ "_RANGE") = Some (VFloat 10)
       ∧ registers (handle r.2) !! (ain +:+ "_NEGATIVE_CH") = Some (VInt 199))
  ∧ _ttl_waveform r.2 = None
  ∧ _num_inputs r.2 = 3
  ∧ _scan_list_addresses r.2 = []
  ∧ _actual_scan_rate r.2 = STREAM_SCAN_RATE_HZ K
  ∧ scan_rate_hz (stream_config r.2) = STREAM_SCAN_RATE_HZ K
  ∧ scans_per_read (stream_config r.2) = SCANS_PER_READ K
  ∧ input_names (stream_config r.2)
    = [PHOTODETECTOR_AIN; CAMERA_TTL_AIN; LED_MONITOR_AIN].
Proof.
  intros Hf. cbv zeta. unfold init. cbv zeta.
  unfold _configure_channels, _configure_fio0_direction, _set_fio0_state.
  run_refl.
  destruct (Z.eqb_spec (deviceType d) ljm.constants.dtT4) as [HT4|HT7].
  - run_with eWriteNames_dry.
    match goal with
    | |- context [fold_left ?f ?l ?r0] => set (frames := l)
    end.
    vm_compute in frames. subst frames. cbn [fold_left fst snd].
    run_with _write_optional_register_dry.
    run_with eWriteName_dry.
    run_with _write_optional_register_dry.
    run_refl.
    cbn [modify fst snd handle with_handle with_scan_list registers streaming
         faults addresses pending ljm.with_registers ljm.called _ttl_waveform
         _num_inputs _scan_list_addresses _actual_scan_rate stream_config
         scan_rate_hz scans_per_read input_names].
    repeat split; try done; lookup_in_inserts.
  - run_with guarded_eStreamStop_dry.
    run_with eWriteName_dry.
    run_with eWriteName_dry.
    run_with _write_optional_register_dry.
    run_with eWriteNames_dry.
    match goal with
    | |- context [fold_left ?f ?l ?r0] => set (frames := l)
    end.
    vm_compute in frames. subst frames. cbn [fold_left fst snd].
    match goal with
    | |- context [EvWriteNames ?l ?vs None] =>
        set (names := l); set (values := vs)
    end.
    run_with _write_optional_register_dry.
    run_with eWriteName_dry.
    run_with _write_optional_register_dry.
    run_refl.
    cbn [modify fst snd handle with_handle with_scan_list registers streaming
         faults addresses pending ljm.with_registers ljm.called ljm.with_stream
         _ttl_waveform fold_left
         _num_inputs _scan_list_addresses _actual_scan_rate stream_config
         scan_rate_hz scans_per_read input_names].
    repeat split; try done;
      try match goal with
          | H : _ ∈ _ |- _ => apply list_elem_of_In in H as [<-|[<-|[<-|[]]]]
          end;
      lookup_in_inserts.
Qed.

(** X5.  On a healthy device the constructor completes.  It leaves the
    DAC at the idle level, the trigger line configured as an output and
    driven low, no TTL waveform, three inputs, and the requested scan rate
    as the provisional actual rate.  On a T4 it does not touch a stream that
    is running; on any other device a stream that was running is stopped
    first, and the three analog inputs are set to the 10 V single-ended
    range. *)
Theorem init_on_healthy_device (K : Settings) (d : Device) :
  faults d = [] →
  let r := init K d in
  r.1 = Ok tt
  ∧ streaming (handle r.2)
    = (if deviceType d =? ljm.constants.dtT4 then streaming d else false)
  ∧ registers (handle r.2) !! LED_DAC_CHANNEL = Some (VFloat (LED_IDLE_V K))
  ∧ registers (handle r.2) !! "FIO_DIRECTION" = Some (VInt 0xFE01)
  ∧ registers (handle r.2) !! "FIO_STATE" = Some (VInt 0xFE00)
  ∧ (deviceType d ≠ ljm.constants.dtT4 →
     ∀ ain, ain ∈ [PHOTODETECTOR_AIN; CAMERA_TTL_AIN; LED_MONITOR_AIN] →
       registers (handle r.2) !! (ain +:+ "_RANGE") = Some (VFloat 10)
       ∧ registers (handle r.2) !! (ain +:+ "_NEGATIVE_CH") = Some (VInt 199))
  ∧ _ttl_waveform r.2 = None
  ∧ _num_inputs r.2 = 3
  ∧ _actual_scan_rate r.2 = STREAM_SCAN_RATE_HZ K.
Proof.
  intros Hf r.
  destruct (init_healthy K d Hf)
    as (Hok & _ & _ & _ & Hs & Hdac & Hdir & Hfio & Hain & Hw & Hn & _ & Hrate & _).
  subst r. split; [exact Hok|]. split; [exact Hs|]. split; [exact Hdac|].
  split; [exact Hdir|]. split; [exact Hfio|]. split; [exact Hain|].
  split; [exact Hw|]. split; [exact Hn | exact Hrate].
Qed.

Lemma init_on_healthy_device_witness :
  faults t7 = [] ∧ (init shipped t7).1 = Ok tt.
Proof.
  split; [reflexivity|].
  exact (proj1 (init_on_healthy_device shipped t7 eq_refl)).
Defined.

(** ** Calm steps *)

#[global] Instance same_fields_preorder : PreOrder same_fields.
Proof.
  split.
  - intros c. apply with_handle_same.
  - intros [] [] [] H1 H2. unfold same_fields, with_handle in *. cbn in *.
    injection H1 as -> -> -> -> -> -> -> ->. injection H2 as -> -> -> -> -> -> -> ->.
    reflexivity.
Qed.

#[global] Instance calm_preorder : PreOrder calm.
Proof.
  split.
  - intros c. by split.
  - intros c1 c2 c3 [] []. split; try congruence; try auto.
    by etransitivity.
Qed.

#[global] Instance steady_preorder : PreOrder steady.
Proof.
  split.
  - intros c. by split.
  - intros c1 c2 c3 [] []. split; congruence.
Qed.

Lemma calm_steady c c' : calm c c' → steady c c'.
Proof.
  intros [Hfields ? ? ? ? ? ? ?]. unfold same_fields in Hfields.
  split; [done | | |]; rewrite <- Hfields; by destruct c'.
Qed.

Lemma keeps_weaken {S A} (R R' : relation S) (m : M S A) :
  (∀ s s', R s s' → R' s s') → keeps R m → keeps R' m.
Proof. intros H Hm s. apply H, Hm. Qed.

Lemma eWriteName_calm name v : keeps calm (dev (ljm.eWriteName name v)).
Proof.
  intros c. unfold dev, ljm.eWriteName, ljm.next_fault.
  destruct c as [[] ? ? ? ? ? ? ? ?]. cbn.
  destruct faults0 as [|[code|] fs]; cbn; split; cbn; done.
Qed.

Lemma sleep_calm t : keeps calm (dev (ljm.sleep t)).
Proof. intros c. destruct c as [[] ? ? ? ? ? ? ? ?]. by split. Qed.

Lemma nameToAddress_calm name : keeps calm (dev (ljm.nameToAddress name)).
Proof.
  intros c. unfold dev, ljm.nameToAddress.
  destruct (addresses (handle c) !! name); cbn; rewrite with_handle_same; reflexivity.
Qed.

(** Going through a method's structure for a relation that every device
    call in it keeps. *)
Ltac keeps_steps base :=
  repeat first
    [ apply keeps_ret; apply _
    | apply keeps_raise; apply _
    | apply keeps_get; apply _
    | base
    | apply keeps_if
    | apply keeps_try; [apply _ | | intros ?]
    | apply keeps_bind; [apply _ | | intros ?] ].

Ltac calm_base :=
  first [ apply eWriteName_calm | apply sleep_calm | apply nameToAddress_calm
        | assumption ].

Lemma write_attempts_calm reg v attempts : keeps calm (write_attempts reg v attempts).
Proof.
  induction attempts as [|attempt rest IH]; cbn [write_attempts];
    keeps_steps calm_base.
Qed.

Lemma write_samples_calm reg waveform : keeps calm (write_samples reg waveform).
Proof.
  induction waveform as [|v rest IH]; cbn [write_samples];
    keeps_steps ltac:(first [apply write_attempts_calm | calm_base]).
Qed.

Lemma _configure_stream_out_calm index target_name waveform loop value_type :
  keeps calm (_configure_stream_out index target_name waveform loop value_type).
Proof.
  unfold _configure_stream_out.
  keeps_steps ltac:(first [apply write_samples_calm | calm_base]).
Qed.

Lemma configure_led_stream_out_calm math_sin math_pi K :
  keeps calm (configure_led_stream_out math_sin math_pi K).
Proof.
  unfold configure_led_stream_out, truediv.
  keeps_steps ltac:(first [apply _configure_stream_out_calm | calm_base]).
Qed.

Lemma configure_ttl_stream_out_calm : keeps calm configure_ttl_stream_out.
Proof.
  unfold configure_ttl_stream_out.
  apply keeps_bind; [apply _ | apply keeps_get, _ |]. intros self.
  destruct (_ttl_waveform self) as [[|w ws]|];
    keeps_steps ltac:(first [apply _configure_stream_out_calm | calm_base]).
Qed.

Lemma _write_optional_register_calm name v :
  keeps calm (_write_optional_register name v).
Proof. unfold _write_optional_register. keeps_steps calm_base. Qed.

(** ** Starting a stream *)

Lemma prefix_len {A} (l : list A) : Py.prefix (Py.len l) l = l.
Proof.
  unfold Py.prefix, Py.len. destruct (Z.ltb_spec (Z.of_nat (length l)) 0); [lia|].
  rewrite Nat2Z.id. apply firstn_all.
Qed.

Lemma namesToAddresses_Ok names addrs c :
  Forall2 (fun name a => addresses (handle c) !! name = Some a) names addrs →
  dev (ljm.namesToAddresses (Py.len names) names) c = (Ok addrs, c).
Proof.
  intros H. unfold ljm.namesToAddresses. rewrite prefix_len.
  unfold dev.
  assert (ljm.namesToAddresses_go names (handle c) = (Ok addrs, handle c)) as ->.
  { induction H as [|name a names addrs Ha _ IH]; [reflexivity|].
    cbn [ljm.namesToAddresses_go]. unfold mbind, M_bind, bind, ljm.nameToAddress.
    rewrite Ha. by rewrite IH. }
  by rewrite with_handle_same.
Qed.

Lemma eStreamStart_dry spr n addrs requested c :
  faults (handle c) = [] →
  dev (ljm.eStreamStart spr n addrs requested) c
  = if streaming (handle c) then
      (Raise (LJMError errorcodes.STREAM_IS_ACTIVE),
       with_handle
         (ljm.called
            (EvStreamStart spr addrs requested (Some errorcodes.STREAM_IS_ACTIVE))
            [] (handle c)) c)
    else
      (Ok (clock_rate (handle c) requested),
       with_handle
         (ljm.with_stream true (pending (handle c))
            (ljm.called (EvStreamStart spr addrs requested None) [] (handle c))) c).
Proof.
  intros H. unfold dev, ljm.eStreamStart. rewrite (next_fault_dry _ H).
  by destruct (streaming (handle c)).
Qed.

Lemma _configure_stream_out_healthy index target_name waveform loop value_type a c :
  faults (handle c) = [] →
  addresses (handle c) !! target_name = Some a →
  ∃ c', _configure_stream_out index target_name waveform loop value_type c
        = (Ok tt, c')
        ∧ calm c c'
        ∧ faults (handle c') = []
        ∧ history (handle c')
          = history (handle c) ++ load_events index a waveform loop value_type.
Proof.
  intros Hf Ha.
  destruct (_configure_stream_out_dry index target_name waveform loop value_type
              a c Hf Ha) as (c' & Hrun & Hf' & _ & Hh).
  exists c'. split; [exact Hrun|]. split; [|split; [exact Hf' | exact Hh]].
  eapply kept_step; [apply _configure_stream_out_calm | exact Hrun].
Qed.

Lemma configure_led_stream_out_healthy math_sin math_pi K a c :
  faults (handle c) = [] →
  addresses (handle c) !! LED_DAC_CHANNEL = Some a →
  ¬ (LED_FREQUENCY_HZ K == 0)%Q →
  2 <= Py.int (STREAM_SCAN_RATE_HZ K / LED_FREQUENCY_HZ K)%Q →
  ∃ c', configure_led_stream_out math_sin math_pi K c = (Ok tt, c')
        ∧ calm c c'
        ∧ faults (handle c') = []
        ∧ history (handle c')
          = history (handle c)
            ++ load_events STREAM_OUT_INDEX a
                 (map VFloat
                    (sine_waveform math_sin math_pi K
                       (Py.int (STREAM_SCAN_RATE_HZ K / LED_FREQUENCY_HZ K)%Q)))
                 true "f32".
Proof.
  intros Hf Ha Hfreq Hspp.
  unfold configure_led_stream_out, truediv, mbind, M_bind, bind.
  destruct (Qeq_bool (LED_FREQUENCY_HZ K) 0) eqn:Hz.
  { apply Qeq_bool_iff in Hz. contradiction. }
  cbn [mret M_ret ret].
  destruct (Z.ltb_spec (Py.int (STREAM_SCAN_RATE_HZ K / LED_FREQUENCY_HZ K)%Q) 2);
    [lia|].
  by apply _configure_stream_out_healthy.
Qed.

Lemma configure_ttl_stream_out_healthy a c :
  faults (handle c) = [] →
  (has_ttl_waveform c = true → addresses (handle c) !! START_PULSE_TARGET = Some a) →
  ∃ c', configure_ttl_stream_out c = (Ok tt, c')
        ∧ calm c c'
        ∧ faults (handle c') = []
        ∧ history (handle c') = history (handle c) ++ ttl_load_events c a.
Proof.
  intros Hf Ha. unfold configure_ttl_stream_out, ttl_load_events, has_ttl_waveform in *.
  unfold mbind, M_bind, bind, get.
  destruct (_ttl_waveform c) as [[|w ws]|].
  - exists c. rewrite app_nil_r. by repeat split.
  - by apply _configure_stream_out_healthy; [|apply Ha].
  - exists c. rewrite app_nil_r. by repeat split.
Qed.

Lemma same_fields_inv c c' :
  same_fields c c' →
  device_type c' = device_type c ∧ stream_config c' = stream_config c
  ∧ _scan_list_addresses c' = _scan_list_addresses c
  ∧ _actual_scan_rate c' = _actual_scan_rate c
  ∧ _ttl_waveform c' = _ttl_waveform c ∧ _ttl_duration_s c' = _ttl_duration_s c
  ∧ _ttl_num_pulses c' = _ttl_num_pulses c ∧ _num_inputs c' = _num_inputs c.
Proof. intros <-. by destruct c'. Qed.

Lemma maybe_configure_ttl c :
  (if has_ttl_waveform c then configure_ttl_stream_out else mret tt) c
  = configure_ttl_stream_out c.
Proof.
  unfold has_ttl_waveform, configure_ttl_stream_out, mbind, M_bind, bind, get.
  destruct (_ttl_waveform c) as [[|w ws]|] eqn:E; cbv beta iota; by rewrite ?E.
Qed.

(** [start_stream] on a healthy device whose names resolve and whose sine
    settings are valid: both loads complete, in [c3], and the outcome is
    that of [ljm.eStreamStart]. *)
Lemma start_stream_healthy math_sin math_pi K c addrs a_dac a_fio :
  faults (handle c) = [] →
  Forall2 (fun name a => addresses (handle c) !! name = Some a)
    (scan_list_names c) addrs →
  addresses (handle c) !! LED_DAC_CHANNEL = Some a_dac →
  (has_ttl_waveform c = true →
   addresses (handle c) !! START_PULSE_TARGET = Some a_fio) →
  ¬ (LED_FREQUENCY_HZ K == 0)%Q →
  2 <= Py.int (STREAM_SCAN_RATE_HZ K / LED_FREQUENCY_HZ K)%Q →
  let cfg := stream_config c in
  let rate := clock_rate (handle c) (scan_rate_hz cfg) in
  let ev := EvStreamStart (scans_per_read cfg) addrs (scan_rate_hz cfg) in
  ∃ c3,
    calm (with_scan_list addrs (Py.len (input_names cfg)) c) c3
    ∧ faults (handle c3) = []
    ∧ history (handle c3)
      = history (handle c)
        ++ load_events STREAM_OUT_INDEX a_dac
             (map VFloat
                (sine_waveform math_sin math_pi K
                   (Py.int (STREAM_SCAN_RATE_HZ K / LED_FREQUENCY_HZ K)%Q)))
             true "f32"
        ++ ttl_load_events c a_fio
    ∧ start_stream math_sin math_pi K c
      = if streaming (handle c) then
          (Raise (LJMError errorcodes.STREAM_IS_ACTIVE),
           with_handle
             (ljm.called (ev (Some errorcodes.STREAM_IS_ACTIVE)) [] (handle c3)) c3)
        else
          (Ok rate,
           with_actual_scan_rate rate
             (with_handle
                (ljm.with_stream true (pending (handle c3))
                   (ljm.called (ev None) [] (handle c3))) c3)).
Proof.
  intros Hf Hnames Hdac Hfio Hfreq Hspp cfg rate ev.
  set (c1 := with_scan_list addrs (Py.len (input_names cfg)) c).
  destruct (configure_led_stream_out_healthy math_sin math_pi K a_dac c1
              Hf Hdac Hfreq Hspp) as (c2 & Hled & Hcalm2 & Hf2 & Hh2).
  destruct (same_fields_inv _ _ (calm_fields _ _ Hcalm2))
    as (_ & Hcfg2 & Hsl2 & _ & Httl2 & _).
  destruct (configure_ttl_stream_out_healthy a_fio c2 Hf2) as (c3 & Hrun3 & Hcalm3 & Hf3 & Hh3).
  { intros Hhas. rewrite (calm_addresses _ _ Hcalm2). apply Hfio.
    unfold has_ttl_waveform in *. by rewrite Httl2 in Hhas. }
  destruct (same_fields_inv _ _ (calm_fields _ _ Hcalm3))
    as (_ & Hcfg3 & Hsl3 & _ & Httl3 & _).
  exists c3. split; [by etransitivity|]. split; [exact Hf3|]. split.
  { rewrite Hh3, Hh2, <- app_assoc. do 2 f_equal.
    unfold ttl_load_events. by rewrite Httl2. }
  unfold start_stream.
  erewrite bind_Ok_run; [|reflexivity]. cbv beta zeta.
  erewrite bind_Ok_run; [|apply namesToAddresses_Ok; exact Hnames].
  erewrite bind_Ok_run; [|reflexivity].
  erewrite bind_Ok_run; [|exact Hled].
  erewrite bind_Ok_run; [|reflexivity].
  rewrite (bind_Ok_run _ _ c2 tt c3) by (by rewrite maybe_configure_ttl).
  erewrite bind_Ok_run by reflexivity.
  rewrite Hcfg3, Hcfg2, Hsl3, Hsl2. cbn [stream_config with_scan_list _scan_list_addresses c1].
  fold cfg. unfold mbind at 1, M_bind, bind.
  rewrite (eStreamStart_dry _ _ _ _ c3 Hf3).
  rewrite (calm_streaming _ _ Hcalm3), (calm_streaming _ _ Hcalm2),
    (calm_clock _ _ Hcalm3), (calm_clock _ _ Hcalm2).
  cbn [handle with_scan_list c1].
  by destruct (streaming (handle c)).
Qed.

(** X6.  On a healthy device that is not streaming, with every scan-list
    name and both targets in the name table and a sine of at least two
    samples, [start_stream] completes.  It loads the sine, then the TTL
    waveform if one is stored, then starts the stream with the addresses of
    the inputs followed by those of the stream-outs; it returns and stores
    the rate the device reported for the requested one, and keeps the
    resolved scan list. *)
Theorem start_stream_on_healthy_device math_sin math_pi K c addrs a_dac a_fio :
  faults (handle c) = [] →
  streaming (handle c) = false →
  Forall2 (fun name a => addresses (handle c) !! name = Some a)
    (scan_list_names c) addrs →
  addresses (handle c) !! LED_DAC_CHANNEL = Some a_dac →
  (has_ttl_waveform c = true →
   addresses (handle c) !! START_PULSE_TARGET = Some a_fio) →
  ¬ (LED_FREQUENCY_HZ K == 0)%Q →
  2 <= Py.int (STREAM_SCAN_RATE_HZ K / LED_FREQUENCY_HZ K)%Q →
  let cfg := stream_config c in
  let rate := clock_rate (handle c) (scan_rate_hz cfg) in
  ∃ c',
    start_stream math_sin math_pi K c = (Ok rate, c')
    ∧ _actual_scan_rate c' = rate
    ∧ streaming (handle c') = true
    ∧ faults (handle c') = []
    ∧ pending (handle c') = pending (handle c)
    ∧ _scan_list_addresses c' = addrs
    ∧ _num_inputs c' = Py.len (input_names cfg)
    ∧ stream_config c' = cfg
    ∧ _ttl_waveform c' = _ttl_waveform c
    ∧ history (handle c')
      = history (handle c)
        ++ load_events STREAM_OUT_INDEX a_dac
             (map VFloat
                (sine_waveform math_sin math_pi K
                   (Py.int (STREAM_SCAN_RATE_HZ K / LED_FREQUENCY_HZ K)%Q)))
             true "f32"
        ++ ttl_load_events c a_fio
        ++ [EvStreamStart (scans_per_read cfg) addrs (scan_rate_hz cfg) None].
Proof.
  intros Hf Hidle Hnames Hdac Hfio Hfreq Hspp cfg rate.
  destruct (start_stream_healthy math_sin math_pi K c addrs a_dac a_fio
              Hf Hnames Hdac Hfio Hfreq Hspp) as (c3 & Hcalm & Hf3 & Hh3 & Hrun).
  cbv zeta in Hrun. rewrite Hidle in Hrun.
  destruct (same_fields_inv _ _ (calm_fields _ _ Hcalm))
    as (_ & Hcfg & Hsl & _ & Httl & _ & _ & Hn).
  eexists. split; [exact Hrun|].
  cbn [_actual_scan_rate with_actual_scan_rate handle with_handle streaming
       faults pending history ljm.with_stream ljm.called _scan_list_addresses
       _num_inputs stream_config _ttl_waveform].
  rewrite Hh3, <- !app_assoc.
  repeat split; try done.
  apply (calm_pending _ _ Hcalm).
Qed.

Lemma start_stream_on_healthy_device_witness :
  let c := (prepare_ttl_waveform shipped 300 30 (1 # 1000) (init shipped t7).2).2 in
  faults (handle c) = []
  ∧ streaming (handle c) = false
  ∧ ∃ c', start_stream (fun x => x) 3%Q shipped c = (Ok 4000%Q, c')
          ∧ _scan_list_addresses c' = [0; 2; 4; 4800; 4801].
Proof.
  intros c. split; [reflexivity|]. split; [reflexivity|].
  destruct (start_stream_on_healthy_device (fun x => x) 3%Q shipped c
              [0; 2; 4; 4800; 4801] 1000 2500 eq_refl eq_refl)
    as (c' & Hrun & _ & _ & _ & _ & Hlist & _).
  - repeat constructor.
  - reflexivity.
  - intros _. reflexivity.
  - by intros H.
  - by intros H.
  - exists c'. split; [exact Hrun | exact Hlist].
Defined.

Lemma namesToAddresses_state n names c : (dev (ljm.namesToAddresses n names) c).2 = c.
Proof.
  unfold ljm.namesToAddresses, dev.
  assert (∀ l d, (ljm.namesToAddresses_go l d).2 = d) as H.
  { induction l as [|x l IH]; intros d; [reflexivity|].
    cbn [ljm.namesToAddresses_go]. unfold mbind, M_bind, bind, ljm.nameToAddress.
    destruct (addresses d !! x); [|reflexivity].
    specialize (IH d). by destruct (ljm.namesToAddresses_go l d) as [[r|e] d']. }
  specialize (H (Py.prefix n names) (handle c)).
  destruct (ljm.namesToAddresses_go _ _) as [r d']. cbn in *. subst d'.
  apply with_handle_same.
Qed.

(** X7.  A [start_stream] that raises, for whatever reason and at
    whatever point, has not started a stream and has not touched what the
    controller remembers of the session: the streaming flag of the device,
    the stored actual scan rate, the stream configuration and the TTL
    waveform are as they were before the call. *)
Theorem start_stream_failure_is_steady math_sin math_pi K c e :
  (start_stream math_sin math_pi K c).1 = Raise e →
  steady c (start_stream math_sin math_pi K c).2.
Proof.
  unfold start_stream, mbind, M_bind, bind, get. cbv beta iota zeta.
  set (names := build_scan_list _ _).
  pose proof (namesToAddresses_state (Py.len names) names c) as Hn.
  destruct (dev (ljm.namesToAddresses (Py.len names) names) c) as [[a|e1] c1];
    cbn [snd] in Hn; subst c1; [|intros _; reflexivity].
  cbn [modify].
  set (c1 := with_scan_list a _ c).
  assert (steady c c1) as S1 by (by split).
  pose proof (calm_steady _ _ (configure_led_stream_out_calm math_sin math_pi K c1)) as S2.
  destruct (configure_led_stream_out math_sin math_pi K c1) as [[[]|e2] c2];
    cbn [snd] in S2; [|intros _; by etransitivity].
  assert (steady c2
            ((if has_ttl_waveform c2 then configure_ttl_stream_out else mret tt) c2).2)
    as S3.
  { rewrite maybe_configure_ttl. apply calm_steady, configure_ttl_stream_out_calm. }
  destruct ((if has_ttl_waveform c2 then configure_ttl_stream_out else mret tt) c2)
    as [[[]|e3] c3]; cbn [snd] in S3;
    [|intros _; etransitivity; [|exact S3]; by etransitivity].
  assert (steady c c3) as S by (etransitivity; [|exact S3]; by etransitivity).
  unfold dev, ljm.eStreamStart.
  destruct (ljm.next_fault (handle c3)) as [[code|] fs]; cbn [fst snd].
  - intros _. etransitivity; [exact S|]. destruct c3. by split.
  - destruct (streaming (handle c3)) eqn:Hs3; cbn [fst snd]; [|discriminate].
    intros _. etransitivity; [exact S|]. destruct c3. by split.
Qed.

Lemma start_stream_failure_is_steady_witness :
  let c := (init led_at_2400 t7).2 in
  (start_stream (fun x => x) 3%Q led_at_2400 c).1
  = Raise (ValueError "Scan rate must be at least 2x the LED frequency.")
  ∧ streaming (handle (start_stream (fun x => x) 3%Q led_at_2400 c).2) = false.
Proof.
  intros c. split; [reflexivity|].
  exact (steady_streaming _ _
           (start_stream_failure_is_steady (fun x => x) 3%Q led_at_2400 c _ eq_refl)).
Defined.

(** X8.  A second [start_stream] on a stream that is running (healthy
    device, names and settings as for the first) does not notice until the
    end: it loads both waveforms again, which disables and rewrites the
    stream-out buffers under the running stream, and only then raises the
    [STREAM_IS_ACTIVE] error of [ljm.eStreamStart].  The stream keeps
    running and the stored actual rate is kept. *)
Theorem start_stream_twice math_sin math_pi K c addrs a_dac a_fio :
  faults (handle c) = [] →
  streaming (handle c) = true →
  Forall2 (fun name a => addresses (handle c) !! name = Some a)
    (scan_list_names c) addrs →
  addresses (handle c) !! LED_DAC_CHANNEL = Some a_dac →
  (has_ttl_waveform c = true →
   addresses (handle c) !! START_PULSE_TARGET = Some a_fio) →
  ¬ (LED_FREQUENCY_HZ K == 0)%Q →
  2 <= Py.int (STREAM_SCAN_RATE_HZ K / LED_FREQUENCY_HZ K)%Q →
  let cfg := stream_config c in
  let r := start_stream math_sin math_pi K c in
  r.1 = Raise (LJMError errorcodes.STREAM_IS_ACTIVE)
  ∧ streaming (handle r.2) = true
  ∧ _actual_scan_rate r.2 = _actual_scan_rate c
  ∧ history (handle r.2)
    = history (handle c)
      ++ load_events STREAM_OUT_INDEX a_dac
           (map VFloat
              (sine_waveform math_sin math_pi K
                 (Py.int (STREAM_SCAN_RATE_HZ K / LED_FREQUENCY_HZ K)%Q)))
           true "f32"
      ++ ttl_load_events c a_fio
      ++ [EvStreamStart (scans_per_read cfg) addrs (scan_rate_hz cfg)
            (Some errorcodes.STREAM_IS_ACTIVE)].
Proof.
  intros Hf Hon Hnames Hdac Hfio Hfreq Hspp cfg r.
  destruct (start_stream_healthy math_sin math_pi K c addrs a_dac a_fio
              Hf Hnames Hdac Hfio Hfreq Hspp) as (c3 & Hcalm & Hf3 & Hh3 & Hrun).
  cbv zeta in Hrun. rewrite Hon in Hrun. subst r. rewrite Hrun.
  destruct (same_fields_inv _ _ (calm_fields _ _ Hcalm))
    as (_ & _ & _ & Hrate & _).
  cbn [fst snd handle with_handle streaming history ljm.called _actual_scan_rate].
  rewrite Hh3, <- !app_assoc, (calm_streaming _ _ Hcalm).
  by repeat split.
Qed.

Lemma start_stream_twice_witness :
  let c :=
    (start_stream (fun x => x) 3%Q shipped
       (prepare_ttl_waveform shipped 300 30 (1 # 1000) (init shipped t7).2).2).2 in
  faults (handle c) = []
  ∧ streaming (handle c) = true
  ∧ (start_stream (fun x => x) 3%Q shipped c).1
    = Raise (LJMError errorcodes.STREAM_IS_ACTIVE).
Proof.
  intros c.
  assert (faults (handle c) = []) as Hf by (vm_compute; reflexivity).
  assert (streaming (handle c) = true) as Hs by (vm_compute; reflexivity).
  split; [exact Hf|]. split; [exact Hs|].
  refine (proj1 (start_stream_twice (fun x => x) 3%Q shipped c
                   [0; 2; 4; 4800; 4801] 1000 2500 Hf Hs _ _ _ _ _)).
  - assert (scan_list_names c = ["AIN0"; "AIN1"; "AIN2"; "STREAM_OUT0"; "STREAM_OUT1"])
      as -> by (vm_compute; reflexivity).
    assert (addresses (handle c) = addresses t7) as -> by (vm_compute; reflexivity).
    repeat constructor.
  - vm_compute. reflexivity.
  - intros _. vm_compute. reflexivity.
  - by intros H.
  - by intros H.
Defined.

(** ** Draining and tearing down *)

#[global] Instance reads_only_preorder : PreOrder reads_only.
Proof.
  split.
  - intros c. by split.
  - intros c1 c2 c3 [] []. split; try congruence; try auto.
    by etransitivity.
Qed.

#[global] Instance same_controller_preorder : PreOrder same_controller.
Proof.
  split.
  - by intros s.
  - intros s1 s2 s3. unfold same_controller. congruence.
Qed.

#[global] Instance run_reads_only_preorder : PreOrder run_reads_only.
Proof.
  split.
  - intros s. unfold run_reads_only. reflexivity.
  - intros s1 s2 s3. unfold run_reads_only. apply transitivity.
Qed.

Lemma read_stream_chunk_reads_only : keeps reads_only read_stream_chunk.
Proof.
  intros c. unfold read_stream_chunk, mbind, M_bind, bind, dev, ljm.eStreamRead,
    ljm.next_fault, get.
  destruct c as [[] ? ? ? ? ? ? ? ?]. cbn.
  destruct faults0 as [|[code|] fs]; cbn; try (by split);
    (destruct streaming0; cbn; [destruct pending0; cbn|]; by split).
Qed.

Lemma on_controller_keeps {A} (m : M Controller A) :
  keeps reads_only m → keeps run_reads_only (on_controller m).
Proof.
  intros H s. unfold on_controller, run_reads_only. specialize (H (controller s)).
  by destruct (m (controller s)).
Qed.

Lemma log_scan_controller n w period data scan :
  keeps same_controller (log_scan n w period data scan).
Proof.
  unfold log_scan. apply keeps_bind; [apply _ | |].
  - generalize (Py.range n). intros l. induction l as [|ch l IH]; cbn [comprehension].
    + apply keeps_ret, _.
    + apply keeps_bind; [apply _ | |].
      * unfold getitem. destruct (Py.index data (scan * w + ch));
          [apply keeps_ret | apply keeps_raise]; apply _.
      * intros v. apply keeps_bind; [apply _ | exact IH |].
        intros vs. apply keeps_ret, _.
  - intros values. apply keeps_bind; [apply _ | apply keeps_get, _ |].
    intros s. apply keeps_bind; [apply _ | |].
    + by apply keeps_modify.
    + intros _. by apply keeps_modify.
Qed.

Lemma log_chunk_controller K n w period data :
  keeps same_controller (log_chunk K n w period data).
Proof.
  unfold log_chunk. apply keeps_bind; [apply _ | apply keeps_get, _ |].
  intros s. destruct (writer s) as [rows|]; [|apply keeps_ret, _].
  destruct data as [|x data]; [apply keeps_ret, _|].
  apply keeps_bind; [apply _ | |].
  - unfold floordiv. apply keeps_if; [apply keeps_raise | apply keeps_ret]; apply _.
  - intros scans. generalize (Py.range scans). intros l.
    induction l as [|scan l IH]; cbn [for_each].
    + apply keeps_ret, _.
    + apply keeps_bind; [apply _ | apply log_scan_controller | done].
Qed.

Lemma poll_reads_only n (log : list Q → M Run unit) :
  (∀ data, keeps same_controller (log data)) →
  keeps run_reads_only (poll n log).
Proof.
  intros Hlog. induction n as [|n IH]; cbn [poll].
  - apply keeps_ret, _.
  - apply keeps_bind; [apply _ | |].
    + apply on_controller_keeps, read_stream_chunk_reads_only.
    + intros chunk. apply keeps_bind; [apply _ | | done].
      eapply keeps_weaken; [|apply Hlog].
      intros s s' E. unfold run_reads_only. rewrite E. reflexivity.
Qed.

Lemma try_Ok_run {S A} (m : M S A) h s a s1 :
  m s = (Ok a, s1) → try_except_LJMError m h s = (Ok a, s1).
Proof. unfold try_except_LJMError. by intros ->. Qed.

Lemma try_LJMError_run {S A} (m : M S A) h s code s1 :
  m s = (Raise (LJMError code), s1) → try_except_LJMError m h s = h code s1.
Proof. unfold try_except_LJMError. by intros ->. Qed.

Lemma wrote_run name v c :
  faults (handle c) = [] → dev (ljm.eWriteName name v) c = (Ok tt, wrote name v c).
Proof. apply eWriteName_dry. Qed.

Lemma wrote_faults name v c : faults (handle (wrote name v c)) = [].
Proof. reflexivity. Qed.

Lemma wrote_streaming name v c :
  streaming (handle (wrote name v c)) = streaming (handle c).
Proof. reflexivity. Qed.

Lemma wrote_open name v c : is_open (handle (wrote name v c)) = is_open (handle c).
Proof. reflexivity. Qed.

Lemma wrote_lookup name v c : registers (handle (wrote name v c)) !! name = Some v.
Proof. apply lookup_insert_eq. Qed.

Lemma wrote_lookup_ne name v c n :
  name ≠ n → registers (handle (wrote name v c)) !! n = registers (handle c) !! n.
Proof. intros H. by apply lookup_insert_ne. Qed.

Lemma wrote_ttl name v c : _ttl_waveform (wrote name v c) = _ttl_waveform c.
Proof. reflexivity. Qed.

Lemma ttl_disabled_faults c : faults (handle (ttl_disabled c)) = [].
Proof. reflexivity. Qed.

Lemma ttl_disabled_streaming c :
  streaming (handle (ttl_disabled c)) = streaming (handle c).
Proof. reflexivity. Qed.

Lemma ttl_disabled_open c : is_open (handle (ttl_disabled c)) = is_open (handle c).
Proof. reflexivity. Qed.

Lemma ttl_disabled_ttl c : _ttl_waveform (ttl_disabled c) = None.
Proof. reflexivity. Qed.

Lemma ttl_disabled_lookup c :
  registers (handle (ttl_disabled c)) !! "STREAM_OUT1_ENABLE" = Some (VInt 0)
  ∧ registers (handle (ttl_disabled c)) !! "FIO_STATE" = Some (VInt 0xFE00).
Proof.
  unfold ttl_disabled. cbn [handle with_ttl]. split.
  - rewrite wrote_lookup_ne by discriminate. apply wrote_lookup.
  - apply wrote_lookup.
Qed.

Lemma ttl_disabled_lookup_ne c n :
  n ≠ "STREAM_OUT1_ENABLE" → n ≠ "FIO_STATE" →
  registers (handle (ttl_disabled c)) !! n = registers (handle c) !! n.
Proof.
  intros H1 H2. unfold ttl_disabled. cbn [handle with_ttl].
  by rewrite !wrote_lookup_ne.
Qed.

Lemma stream_out1_enable :
  stream_out_name TTL_STREAM_OUT_INDEX +:+ "_ENABLE" = "STREAM_OUT1_ENABLE".
Proof. reflexivity. Qed.

Lemma disable_ttl_stream_dry c :
  faults (handle c) = [] → disable_ttl_stream c = (Ok tt, ttl_disabled c).
Proof.
  intros Hf. unfold disable_ttl_stream, _set_fio0_state.
  rewrite stream_out1_enable.
  erewrite bind_Ok_run; [|apply try_Ok_run, wrote_run, Hf].
  erewrite bind_Ok_run; [|by apply _write_optional_register_dry].
  reflexivity.
Qed.

Lemma stop_stream_running_dry K c :
  faults (handle c) = [] → streaming (handle c) = true →
  stop_stream K c
  = (Ok tt,
     wrote LED_DAC_CHANNEL (VFloat (LED_IDLE_V K))
       (wrote "STREAM_OUT0_ENABLE" (VInt 0) (stream_halted (ttl_disabled c)))).
Proof.
  intros Hf Hs. unfold stop_stream. rewrite stream_out0_enable.
  erewrite bind_Ok_run; [|by apply disable_ttl_stream_dry].
  erewrite bind_Ok_run;
    [|apply eStreamStop_running;
      [by rewrite ttl_disabled_streaming | apply ttl_disabled_faults]].
  erewrite bind_Ok_run; [|by apply wrote_run].
  by apply wrote_run.
Qed.

Lemma stop_stream_idle_dry K c :
  faults (handle c) = [] → streaming (handle c) = false →
  stop_stream K c
  = (Raise (LJMError errorcodes.STREAM_NOT_RUNNING), stop_refused (ttl_disabled c)).
Proof.
  intros Hf Hs. unfold stop_stream.
  erewrite bind_Ok_run; [|by apply disable_ttl_stream_dry].
  apply bind_Raise_run.
  unfold dev, ljm.eStreamStop.
  rewrite (next_fault_dry _ (ttl_disabled_faults c)), ttl_disabled_streaming, Hs.
  reflexivity.
Qed.

Lemma close_idle_dry K c :
  faults (handle c) = [] → streaming (handle c) = false →
  close K c = (Ok tt, handle_closed (stop_refused (ttl_disabled c))).
Proof.
  intros Hf Hs. unfold close.
  erewrite bind_Ok_run;
    [|erewrite try_LJMError_run; [reflexivity | by apply stop_stream_idle_dry]].
  reflexivity.
Qed.

(** The cleanup of a run on a healthy, streaming device. *)
Lemma teardown_dry K c :
  faults (handle c) = [] → streaming (handle c) = true →
  teardown K c
  = (Ok tt,
     handle_closed
       (stop_refused
          (ttl_disabled
             (ttl_disabled
                (wrote LED_DAC_CHANNEL (VFloat (LED_IDLE_V K))
                   (wrote "STREAM_OUT0_ENABLE" (VInt 0)
                      (stream_halted (ttl_disabled c)))))))).
Proof.
  intros Hf Hs. unfold teardown.
  erewrite bind_Ok_run; [|by apply stop_stream_running_dry].
  erewrite bind_Ok_run; [|by apply disable_ttl_stream_dry].
  by apply close_idle_dry.
Qed.

Lemma torn_down_facts K c :
  is_open (handle (torn_down K c)) = false
  ∧ streaming (handle (torn_down K c)) = false
  ∧ registers (handle (torn_down K c)) !! LED_DAC_CHANNEL
    = Some (VFloat (LED_IDLE_V K))
  ∧ registers (handle (torn_down K c)) !! "STREAM_OUT0_ENABLE" = Some (VInt 0)
  ∧ registers (handle (torn_down K c)) !! "STREAM_OUT1_ENABLE" = Some (VInt 0)
  ∧ registers (handle (torn_down K c)) !! "FIO_STATE" = Some (VInt 0xFE00)
  ∧ _ttl_waveform (torn_down K c) = None
  ∧ last (history (handle (torn_down K c))) = Some EvClose.
Proof.
  unfold torn_down.
  set (c1 := wrote LED_DAC_CHANNEL _ _).
  assert (∀ x, registers (handle (handle_closed (stop_refused x)))
               = registers (handle x)) as Hregs by reflexivity.
  split; [reflexivity|]. split; [reflexivity|]. rewrite !Hregs.
  split; [|split; [|split; [|split; [|split]]]].
  - rewrite !ttl_disabled_lookup_ne by discriminate. apply wrote_lookup.
  - rewrite !ttl_disabled_lookup_ne by discriminate. subst c1.
    rewrite wrote_lookup_ne by discriminate. apply wrote_lookup.
  - apply ttl_disabled_lookup.
  - apply ttl_disabled_lookup.
  - reflexivity.
  - unfold handle_closed. cbn [handle with_handle ljm.closed history].
    apply last_snoc.
Qed.

Lemma on_controller_bind {A B} (m : M Controller A) (k : A → M Controller B) s :
  on_controller (m ≫= k) s = (on_controller m ≫= fun a => on_controller (k a)) s.
Proof.
  unfold on_controller, mbind, M_bind, bind.
  by destruct (m (controller s)) as [[a|e] c1].
Qed.

Lemma on_controller_run {A} (m : M Controller A) s r c :
  m (controller s) = (r, c) → on_controller m s = (r, with_controller c s).
Proof. unfold on_controller. by intros ->. Qed.

Lemma cleanup_is_teardown K s :
  (on_controller (stop_stream K);; on_controller disable_ttl_stream;;
   on_controller (close K)) s
  = on_controller (teardown K) s.
Proof.
  unfold teardown. rewrite on_controller_bind.
  unfold mbind at 1 3, M_bind, bind.
  destruct (on_controller (stop_stream K) s) as [[[]|e] s1]; [|reflexivity].
  by rewrite on_controller_bind.
Qed.

Lemma log_chunk_Ok K (n : Z) (period : Q) (data : list Q) (s : Run) :
  0 < n →
  ∃ s', log_chunk K n n period data s = (Ok tt, s') ∧ controller s' = controller s.
Proof.
  intros Hn.
  pose proof (log_chunk_controller K n n period data s) as Hc.
  unfold same_controller in Hc.
  destruct (writer s) as [rows|] eqn:Hw; [destruct data as [|x data]|].
  - exists s. split; [|done]. unfold log_chunk, mbind, M_bind, bind, get.
    by rewrite Hw.
  - set (kept := Py.prefix (SCANS_PER_READ K * n) (x :: data)).
    destruct (log_scans_rows n period kept (Z.to_nat (Py.len kept / n)) 0 s rows
                Hw Hn) as (new & Hloop & _).
    { assert (0 <= Py.len kept / n)
        by (apply Z.div_pos; [unfold Py.len; lia | lia]).
      pose proof (Z.mul_div_le (Py.len kept) n Hn). lia. }
    eexists. split; [|exact Hc].
    rewrite (surjective_pairing (log_chunk _ _ _ _ _ _)). f_equal.
    unfold log_chunk, mbind, M_bind, bind, get, floordiv. rewrite Hw.
    cbv zeta. fold kept. destruct (Z.eqb_spec n 0); [lia|].
    cbn [mret M_ret ret]. unfold Py.range. by rewrite Hloop.
  - exists s. split; [|done]. unfold log_chunk, mbind, M_bind, bind, get.
    by rewrite Hw.
Qed.

Lemma read_stream_chunk_dry c :
  faults (handle c) = [] → streaming (handle c) = true →
  match pending (handle c) with
  | r :: q =>
      ∃ c', read_stream_chunk c = (Ok (aData r, _actual_scan_rate c), c')
            ∧ pending (handle c') = q
            ∧ faults (handle c') = [] ∧ streaming (handle c') = true
  | [] =>
      ∃ c', read_stream_chunk c
            = (Raise (LJMError errorcodes.NO_SCANS_RETURNED), c')
  end.
Proof.
  destruct c as [[] ? ? ? ? ? ? ? ?]. cbn. intros -> ->.
  unfold read_stream_chunk, mbind, M_bind, bind, dev, ljm.eStreamRead,
    ljm.next_fault, get.
  destruct pending0 as [|r q]; cbn.
  - eexists. reflexivity.
  - eexists. split; [reflexivity|]. by repeat split.
Qed.

Lemma poll_outcome (log : list Q → M Run unit) :
  (∀ data s, ∃ s', log data s = (Ok tt, s') ∧ controller s' = controller s) →
  ∀ (n : nat) (s : Run),
    faults (handle (controller s)) = [] →
    streaming (handle (controller s)) = true →
    let q := pending (handle (controller s)) in
    ((n <= length q)%nat →
     ∃ s', poll n log s = (Ok tt, s')
           ∧ pending (handle (controller s')) = drop n q
           ∧ faults (handle (controller s')) = []
           ∧ streaming (handle (controller s')) = true)
    ∧ ((length q < n)%nat →
       ∃ s', poll n log s = (Raise (LJMError errorcodes.NO_SCANS_RETURNED), s')).
Proof.
  intros Hlog. induction n as [|n IH]; intros s Hf Hs q.
  - split; [|lia]. intros _. exists s. by rewrite drop_0.
  - pose proof (read_stream_chunk_dry (controller s) Hf Hs) as Hread.
    subst q. destruct (pending (handle (controller s))) as [|r q] eqn:Hq.
    + destruct Hread as (c' & Hrun). split; [cbn; lia|]. intros _.
      eexists. cbn [poll]. erewrite bind_Raise_run; [reflexivity|].
      by apply on_controller_run.
    + destruct Hread as (c' & Hrun & Hq' & Hf' & Hs').
      destruct (Hlog (aData r) (with_controller c' s)) as (s1 & Hlog1 & Hc1).
      cbn [controller with_controller] in Hc1.
      destruct (IH s1) as [IHok IHfail]; [by rewrite Hc1 | by rewrite Hc1|].
      rewrite Hc1, Hq' in IHok, IHfail.
      assert (poll (S n) log s = poll n log s1) as ->.
      { cbn [poll]. erewrite bind_Ok_run; [|by apply on_controller_run].
        cbn [fst]. by erewrite bind_Ok_run. }
      split; cbn [length drop]; intros Hn; [apply IHok | apply IHfail]; lia.
Qed.

Lemma prepare_ttl_waveform_Ok K num_pulses rate_hz pulse_width_s c :
  let c' := (prepare_ttl_waveform K num_pulses rate_hz pulse_width_s c).2 in
  prepare_ttl_waveform K num_pulses rate_hz pulse_width_s c = (Ok tt, c')
  ∧ handle c' = handle c
  ∧ stream_config c' = stream_config c.
Proof.
  unfold prepare_ttl_waveform. by destruct (num_pulses <=? 0).
Qed.

(** The clocked loops and the [finally] block of [run_pulsed_stream], from a
    healthy, streaming controller with at least one input. *)
Lemma drain_and_teardown K (s : Run) (n1 n2 : nat) (period : Q) :
  let c := controller s in
  let n := Py.len (input_names (stream_config c)) in
  faults (handle c) = [] → streaming (handle c) = true → 0 < n →
  let r :=
    try_finally
      (poll n1 (log_chunk K n n period);; poll n2 (log_chunk K n n period))
      (on_controller (stop_stream K);; on_controller disable_ttl_stream;;
       on_controller (close K)) s in
  (∃ c5, controller r.2 = torn_down K c5)
  ∧ r.1 = if (n1 + n2 <=? length (pending (handle c)))%nat then Ok tt
          else Raise (LJMError errorcodes.NO_SCANS_RETURNED).
Proof.
  intros c n Hf Hs Hn. cbv zeta.
  set (log := log_chunk K n n period).
  assert (∀ data s0, ∃ s', log data s0 = (Ok tt, s') ∧ controller s' = controller s0)
    as Hlog by (intros data s0; by apply log_chunk_Ok).
  assert (keeps run_reads_only (poll n1 log;; poll n2 log)) as Hkeeps.
  { apply keeps_bind; [apply _ | |intros _];
      apply poll_reads_only; intros data; apply log_chunk_controller. }
  specialize (Hkeeps s). unfold try_finally.
  destruct ((poll n1 log;; poll n2 log) s) as [rb s5] eqn:Eb.
  cbn [snd] in Hkeeps. destruct Hkeeps as [_ _ _ Hs5 _ Hf5].
  rewrite cleanup_is_teardown.
  rewrite (on_controller_run _ _ _ _
             (teardown_dry K (controller s5) (Hf5 Hf) ltac:(by rewrite Hs5))).
  cbn [fst snd controller with_controller]. split; [by eexists|].
  destruct (poll_outcome log Hlog n1 s Hf Hs) as [Hok1 Hfail1].
  fold c in Hok1, Hfail1.
  destruct (Nat.le_gt_cases n1 (length (pending (handle c)))) as [Hle|Hgt].
  - destruct (Hok1 Hle) as (s1 & Hrun1 & Hq1 & Hf1 & Hs1).
    rewrite (bind_Ok_run _ _ _ _ _ Hrun1) in Eb.
    destruct (poll_outcome log Hlog n2 s1 Hf1 Hs1) as [Hok2 Hfail2].
    rewrite Hq1, length_drop in Hok2, Hfail2.
    destruct (Nat.leb_spec (n1 + n2) (length (pending (handle c)))).
    + destruct Hok2 as (s2 & Hrun2 & _); [lia|]. congruence.
    + destruct Hfail2 as (s2 & Hrun2); [lia|]. congruence.
  - destruct (Hfail1 Hgt) as (s1 & Hrun1).
    rewrite (bind_Raise_run _ _ _ _ _ Hrun1) in Eb.
    destruct (Nat.leb_spec (n1 + n2) (length (pending (handle c)))); [lia|].
    congruence.
Qed.

(** X9.  A whole run on a healthy device (not a T4 with a stream already
    running), with the seven register names of the module in the name table
    and a sine of at least two samples.  However many chunks the clocked
    loops ask for, the run ends with the stream stopped, both stream-outs
    disabled, the DAC at the idle level, the trigger line low and the
    handle closed.  It returns normally when the device had a chunk for
    every read; when the device runs out of chunks the read error is raised
    to the caller, after the same cleanup. *)
Theorem run_pulsed_stream_on_healthy_device math_sin math_pi K device
    num_frames trigger_rate_hz pulse_width_s log_path ttl_reads padding_reads :
  faults device = [] →
  deviceType device ≠ ljm.constants.dtT4 ∨ streaming device = false →
  (∀ name,
     name ∈ [PHOTODETECTOR_AIN; CAMERA_TTL_AIN; LED_MONITOR_AIN; "STREAM_OUT0";
             "STREAM_OUT1"; LED_DAC_CHANNEL; START_PULSE_TARGET] →
     is_Some (addresses device !! name)) →
  ¬ (LED_FREQUENCY_HZ K == 0)%Q →
  2 <= Py.int (STREAM_SCAN_RATE_HZ K / LED_FREQUENCY_HZ K)%Q →
  let r := run_pulsed_stream math_sin math_pi K device num_frames
             trigger_rate_hz pulse_width_s log_path ttl_reads padding_reads in
  let d' := handle (controller r.2) in
  is_open d' = false
  ∧ streaming d' = false
  ∧ registers d' !! LED_DAC_CHANNEL = Some (VFloat (LED_IDLE_V K))
  ∧ registers d' !! "STREAM_OUT0_ENABLE" = Some (VInt 0)
  ∧ registers d' !! "STREAM_OUT1_ENABLE" = Some (VInt 0)
  ∧ registers d' !! "FIO_STATE" = Some (VInt 0xFE00)
  ∧ last (history d') = Some EvClose
  ∧ r.1 = if (ttl_reads + padding_reads <=? length (pending device))%nat
          then Ok tt
          else Raise (LJMError errorcodes.NO_SCANS_RETURNED).
Proof.
  intros Hf Hidle Hnames Hfreq Hspp.
  destruct (init_healthy K device Hf)
    as (Hok & Hf1 & Ha1 & Hp1 & Hs1 & _ & _ & _ & _ & _ & _ & _ & _ & _ & _ & Hin1).
  destruct (Hnames PHOTODETECTOR_AIN ltac:(name_in)) as [a0 Ha0].
  destruct (Hnames CAMERA_TTL_AIN ltac:(name_in)) as [a1 Ha1'].
  destruct (Hnames LED_MONITOR_AIN ltac:(name_in)) as [a2 Ha2].
  destruct (Hnames "STREAM_OUT0" ltac:(name_in)) as [as0 Has0].
  destruct (Hnames "STREAM_OUT1" ltac:(name_in)) as [as1 Has1].
  destruct (Hnames LED_DAC_CHANNEL ltac:(name_in)) as [adac Hadac].
  destruct (Hnames START_PULSE_TARGET ltac:(name_in)) as [afio Hafio].
  clear Hnames. cbv zeta. unfold run_pulsed_stream.
  destruct (init K device) as [r0 c1]. cbn [fst snd] in *. subst r0.
  rewrite <- Ha1 in Ha0, Ha1', Ha2, Has0, Has1, Hadac, Hafio.
  destruct (prepare_ttl_waveform_Ok K num_frames trigger_rate_hz pulse_width_s c1)
    as (Hprep & Hh2 & Hcfg2).
  set (c2 := (prepare_ttl_waveform K num_frames trigger_rate_hz pulse_width_s c1).2) in *.
  assert (streaming (handle c2) = false) as Hs2.
  { rewrite Hh2, Hs1. destruct (Z.eqb_spec (deviceType device) ljm.constants.dtT4);
      [by destruct Hidle | done]. }
  destruct (start_stream_healthy math_sin math_pi K c2
              ([a0; a1; a2; as0] ++ if has_ttl_waveform c2 then [as1] else [])
              adac afio) as (c3 & Hcalm & Hf3 & _ & Hstart).
  { by rewrite Hh2. }
  { unfold scan_list_names, build_scan_list. rewrite Hcfg2, Hin1, Hh2.
    repeat (apply Forall2_cons; [assumption|]).
    destruct (has_ttl_waveform c2); repeat constructor; assumption. }
  { by rewrite Hh2. }
  { intros _. by rewrite Hh2. }
  { exact Hfreq. }
  { exact Hspp. }
  cbv zeta in Hstart. rewrite Hs2 in Hstart.
  destruct (same_fields_inv _ _ (calm_fields _ _ Hcalm)) as (_ & Hcfg3 & _).
  cbn [stream_config with_scan_list] in Hcfg3.
  match type of Hstart with _ = (_, ?c) => set (c4 := c) in * end.
  assert (faults (handle c4) = [] ∧ streaming (handle c4) = true
          ∧ input_names (stream_config c4)
            = [PHOTODETECTOR_AIN; CAMERA_TTL_AIN; LED_MONITOR_AIN]
          ∧ pending (handle c4) = pending device) as (Hf4 & Hs4 & Hin4 & Hp4).
  { subst c4. cbn [handle with_actual_scan_rate with_handle faults streaming
                   pending ljm.with_stream ljm.called stream_config].
    rewrite Hcfg3, Hcfg2, Hin1, (calm_pending _ _ Hcalm).
    cbn [handle with_scan_list]. by rewrite Hh2, Hp1. }
  erewrite bind_Ok_run; [|apply on_controller_run; exact Hprep].
  erewrite bind_Ok_run; [|apply on_controller_run; exact Hstart].
  erewrite bind_Ok_run; [|reflexivity].
  assert (∀ s : Run, controller s = c4 →
            let n := Py.len (input_names (stream_config (controller s))) in
            let r :=
              try_finally
                (poll ttl_reads (log_chunk K n n (sample_period (controller s)));;
                 poll padding_reads (log_chunk K n n (sample_period (controller s))))
                (on_controller (stop_stream K);; on_controller disable_ttl_stream;;
                 on_controller (close K)) s in
            let d' := handle (controller r.2) in
            is_open d' = false ∧ streaming d' = false
            ∧ registers d' !! LED_DAC_CHANNEL = Some (VFloat (LED_IDLE_V K))
            ∧ registers d' !! "STREAM_OUT0_ENABLE" = Some (VInt 0)
            ∧ registers d' !! "STREAM_OUT1_ENABLE" = Some (VInt 0)
            ∧ registers d' !! "FIO_STATE" = Some (VInt 0xFE00)
            ∧ last (history d') = Some EvClose
            ∧ r.1 = if (ttl_reads + padding_reads <=? length (pending device))%nat
                    then Ok tt
                    else Raise (LJMError errorcodes.NO_SCANS_RETURNED)) as Htail.
  { intros s Hc. cbv zeta.
    destruct (drain_and_teardown K s ttl_reads padding_reads
                (sample_period (controller s))) as ((c5 & Hfinal) & Hout).
    - by rewrite Hc.
    - by rewrite Hc.
    - rewrite Hc, Hin4. reflexivity.
    - cbv zeta in Hfinal, Hout. rewrite Hfinal, Hout, Hc, Hp4.
      destruct (torn_down_facts K c5) as (? & ? & ? & ? & ? & ? & _ & ?).
      by repeat split. }
  destruct log_path.
  - erewrite bind_Ok_run; [|reflexivity].
    erewrite bind_Ok_run; [|reflexivity].
    by apply Htail.
  - erewrite bind_Ok_run; [|reflexivity].
    erewrite bind_Ok_run; [|reflexivity].
    by apply Htail.
Qed.

Lemma run_pulsed_stream_on_healthy_device_witness :
  faults t7_at_3999 = []
  ∧ (run_pulsed_stream (fun x => x) 3%Q shipped t7_at_3999 300 30 (1 # 1000)
       true 2 1).1 = Raise (LJMError errorcodes.NO_SCANS_RETURNED)
  ∧ is_open
      (handle
         (controller
            (run_pulsed_stream (fun x => x) 3%Q shipped t7_at_3999 300 30
               (1 # 1000) true 2 1).2)) = false.
Proof.
  split; [reflexivity|].
  destruct (run_pulsed_stream_on_healthy_device (fun x => x) 3%Q shipped
              t7_at_3999 300 30 (1 # 1000) true 2 1 eq_refl)
    as (Hopen & _ & _ & _ & _ & _ & _ & Hout).
  - left. discriminate.
  - intros name Hin. apply list_elem_of_In in Hin.
    repeat (destruct Hin as [<-|Hin]; [by eexists|]). destruct Hin.
  - by intros H.
  - by intros H.
  - split; [exact Hout | exact Hopen].
Defined.


(** * What a load leaves in the buffer *)

Lemma stored_app reg a b : stored reg (a ++ b) = stored reg a ++ stored reg b.
Proof.
  induction a as [|[name v [code|]| | | | | | | ] a IH]; cbn [stored app]; try done.
  destruct (String.eqb name reg); [by rewrite IH | done].
Qed.

Lemma attempts_app a b : (attempts (a ++ b) = attempts a + attempts b)%nat.
Proof. induction a as [|[] a IH]; cbn [attempts app]; lia. Qed.

Lemma slept_app a b : (slept (a ++ b) == slept a + slept b)%Q.
Proof.
  induction a as [|[] a IH]; cbn [slept app]; rewrite ?IH; ring.
Qed.

Lemma sample_trace_facts reg v evs r :
  sample_trace reg v evs r →
  stored reg evs = match r with Ok _ => [v] | Raise _ => [] end
  ∧ (attempts evs <= 3)%nat
  ∧ (slept evs <= 2 # 100)%Q.
Proof.
  intros [codes Hlen|code1 code2 code3].
  - destruct codes as [|code1 [|code2 [|code3 codes]]]; [| | |simpl in Hlen; lia];
      cbn [flat_map retried app stored attempts slept];
      rewrite ?String.eqb_refl; repeat split; try lia; by vm_compute.
  - cbn [retried app stored attempts slept]. repeat split; try lia. by vm_compute.
Qed.

Lemma len_cons {A} (x : A) l : Py.len (x :: l) = Py.len l + 1.
Proof. unfold Py.len. cbn [length]. lia. Qed.

(** X10.  What the sample loop of the loader leaves in the buffer
    register, on any device: when it completes, the writes that went
    through are the samples of the waveform, each once and in order; when
    it raises, they are the samples before the abandoned one.  Either way
    it made at most three write attempts and slept at most 20 ms per
    sample. *)
Theorem write_samples_stores_in_order (reg : string) (waveform : list value)
    (c : Controller) :
  let r := write_samples reg waveform c in
  ∃ evs,
    history (handle r.2) = history (handle c) ++ evs
    ∧ match r.1 with
      | Ok _ => stored reg evs = waveform
      | Raise _ => ∃ v rest, waveform = stored reg evs ++ v :: rest
      end
    ∧ (attempts evs <= 3 * length waveform)%nat
    ∧ (slept evs <= (2 # 100) * inject_Z (Py.len waveform))%Q.
Proof.
  cbv zeta. revert c. induction waveform as [|v rest IH]; intros c.
  - exists []. rewrite app_nil_r. repeat split; [cbn; lia | by vm_compute].
  - cbn [write_samples]. unfold mbind, M_bind, bind.
    destruct (write_attempts_trace reg v c) as (evs & Hh & Ht).
    apply sample_trace_facts in Ht as (Hst & Hat & Hsl).
    assert (2 # 100 <= (2 # 100) * inject_Z (Py.len (v :: rest)))%Q as Hone.
    { rewrite <- (Qmult_1_r (2 # 100)) at 1. apply Qmult_le_l; [done|].
      change 1%Q with (inject_Z 1). rewrite <- Zle_Qle. unfold Py.len. cbn [length]. lia. }
    destruct (write_attempts reg v (Py.range 3) c) as [[[]|e] c1];
      cbn [fst snd] in *.
    + destruct (IH c1) as (evs' & Hh' & Hst' & Hat' & Hsl').
      exists (evs ++ evs'). rewrite Hh', Hh, app_assoc, stored_app, Hst,
        attempts_app, slept_app. split; [done|]. split; [|split].
      * destruct (write_samples reg rest c1).1 as [[]|e'].
        -- by rewrite Hst'.
        -- destruct Hst' as (w & rest' & ->). by exists w, rest'.
      * cbn [length]. lia.
      * rewrite len_cons, inject_Z_plus, Qmult_plus_distr_r, Qmult_1_r, Qplus_comm.
        by apply Qplus_le_compat.
    + exists evs. rewrite Hst. split; [done|]. split; [|split].
      * by exists v, rest.
      * cbn [length]. lia.
      * exact (Qle_trans _ _ _ Hsl Hone).
Qed.


(** * The shape of the TTL waveform *)

Lemma lookup_repeat_lt {A} (x : A) (n i : nat) :
  (i < n)%nat → List.repeat x n !! i = Some x.
Proof.
  revert i. induction n as [|n IH]; intros [|i] H; simpl; try lia; [done|].
  apply IH. lia.
Qed.

Lemma fmax_floor (rate_hz : Q) :
  (rate_hz < 1 # 10)%Q → Py.fmax rate_hz (1 # 10) = (1 # 10)%Q.
Proof.
  intros H. unfold Py.fmax. destruct (Qle_bool (1 # 10) rate_hz) eqn:E; [|done].
  apply Qle_bool_iff in E. by apply Qlt_not_le in H.
Qed.

(** X11.  For a positive pulse count the stored TTL waveform starts
    with the high samples and ends with the low ones.  The number of high
    samples is the rounded pulse width in scans, raised to 1 and capped at
    the period, so the waveform always starts high, and a pulse as wide as
    the period or wider leaves no low sample at all.  A trigger rate under
    0.1 Hz is treated as 0.1 Hz. *)
Theorem ttl_waveform_shape K num_pulses rate_hz pulse_width_s c :
  0 < num_pulses →
  let period :=
    Py.imax 1 (Py.round (STREAM_SCAN_RATE_HZ K / Py.fmax rate_hz (1 # 10))%Q) in
  let asked := Py.round (pulse_width_s * STREAM_SCAN_RATE_HZ K)%Q in
  let high := Z.min (Z.max 1 asked) period in
  1 <= high <= period
  ∧ (∃ waveform,
       _ttl_waveform (prepare_ttl_waveform K num_pulses rate_hz pulse_width_s c).2
       = Some waveform
       ∧ (∀ i, 0 <= i < period →
            Py.index waveform i = Some (if i <? high then 0xFE01 else 0xFE00))
       ∧ (period <= asked →
          ∀ i, 0 <= i < period → Py.index waveform i = Some 0xFE01))
  ∧ ((rate_hz < 1 # 10)%Q →
     prepare_ttl_waveform K num_pulses rate_hz pulse_width_s c
     = prepare_ttl_waveform K num_pulses (1 # 10) pulse_width_s c).
Proof.
  intros Hn period asked high.
  destruct (prepare_ttl_waveform_stored K num_pulses rate_hz pulse_width_s c Hn)
    as [Hrun Hhigh].
  cbv zeta in Hrun, Hhigh. rewrite imin_spec, imax_spec in Hrun, Hhigh.
  fold asked period in Hrun, Hhigh. fold high in Hrun, Hhigh.
  assert (∀ i, 0 <= i < period →
            Py.index (Py.repeat 0xFE01 high ++ Py.repeat 0xFE00 (period - high)) i
            = Some (if i <? high then 0xFE01 else 0xFE00)) as Hidx.
  { intros i Hi. unfold Py.index, Py.repeat.
    destruct (Z.ltb_spec i 0); [lia|]. destruct (Z.ltb_spec i high).
    - rewrite lookup_app_l by (rewrite repeat_length; lia).
      apply lookup_repeat_lt. lia.
    - rewrite lookup_app_r by (rewrite repeat_length; lia).
      rewrite repeat_length. apply lookup_repeat_lt. lia. }
  split; [exact Hhigh|]. split.
  - eexists. rewrite Hrun. split; [reflexivity|]. split; [exact Hidx|].
    intros Hwide i Hi. rewrite (Hidx i Hi).
    destruct (Z.ltb_spec i high); [done | lia].
  - intros Hlow. unfold prepare_ttl_waveform.
    by rewrite (fmax_floor rate_hz Hlow).
Qed.

Lemma ttl_waveform_shape_witness :
  0 < 300
  ∧ ∃ waveform,
      _ttl_waveform (prepare_ttl_waveform shipped 300 30 1 (init shipped t7).2).2
      = Some waveform
      ∧ ∀ i, 0 <= i < 133 → Py.index waveform i = Some 0xFE01.
Proof.
  split; [reflexivity|].
  destruct (ttl_waveform_shape shipped 300 30 1 (init shipped t7).2 eq_refl)
    as (_ & (waveform & Hw & _ & Hall) & _).
  exists waveform. split; [exact Hw|]. apply Hall. by vm_compute.
Defined.

(** * A run without pulses *)

(** X12.  A pulse count of zero or less disarms the trigger train,
    whatever waveform was stored before: on a healthy idle device
    [prepare_ttl_waveform] followed by [start_stream] loads the sine only
    and starts the stream on the inputs and [STREAM_OUT0], with no write to
    a [STREAM_OUT1] register and no [STREAM_OUT1] address in the scan
    list. *)
Theorem start_stream_without_pulses math_sin math_pi K c num_pulses rate_hz
    pulse_width_s addrs a_dac :
  num_pulses <= 0 →
  faults (handle c) = [] →
  streaming (handle c) = false →
  Forall2 (fun name a => addresses (handle c) !! name = Some a)
    (input_names (stream_config c) ++ [stream_out_name STREAM_OUT_INDEX]) addrs →
  addresses (handle c) !! LED_DAC_CHANNEL = Some a_dac →
  ¬ (LED_FREQUENCY_HZ K == 0)%Q →
  2 <= Py.int (STREAM_SCAN_RATE_HZ K / LED_FREQUENCY_HZ K)%Q →
  let cfg := stream_config c in
  let r := (prepare_ttl_waveform K num_pulses rate_hz pulse_width_s;;
            start_stream math_sin math_pi K) c in
  r.1 = Ok (clock_rate (handle c) (scan_rate_hz cfg))
  ∧ _ttl_waveform r.2 = None
  ∧ _ttl_num_pulses r.2 = 0
  ∧ ttl_duration_seconds r.2 = 0%Q
  ∧ Py.len (_scan_list_addresses r.2) = Py.len (input_names cfg) + 1
  ∧ history (handle r.2)
    = history (handle c)
      ++ load_events STREAM_OUT_INDEX a_dac
           (map VFloat
              (sine_waveform math_sin math_pi K
                 (Py.int (STREAM_SCAN_RATE_HZ K / LED_FREQUENCY_HZ K)%Q)))
           true "f32"
      ++ [EvStreamStart (scans_per_read cfg) addrs (scan_rate_hz cfg) None].
Proof.
  intros Hn Hf Hidle Hnames Hdac Hfreq Hspp cfg. subst cfg.
  assert (prepare_ttl_waveform K num_pulses rate_hz pulse_width_s c
          = (Ok tt, with_ttl None 0 0 c)) as Hprep.
  { unfold prepare_ttl_waveform. by destruct (Z.leb_spec num_pulses 0); [|lia]. }
  cbv zeta. rewrite (bind_Ok_run _ _ _ _ _ Hprep).
  set (c1 := with_ttl None 0 0 c).
  destruct (start_stream_healthy math_sin math_pi K c1 addrs a_dac 0)
    as (c3 & Hcalm & Hf3 & Hh3 & Hrun); try done.
  cbv zeta in Hrun. cbn [c1 handle with_ttl stream_config] in Hrun.
  rewrite Hidle in Hrun. rewrite Hrun. clear Hrun.
  destruct (same_fields_inv _ _ (calm_fields _ _ Hcalm))
    as (_ & Hcfg & Hsl & _ & Httl & Hdur & Hnum & _).
  cbn [fst snd _ttl_waveform _ttl_num_pulses _scan_list_addresses
       with_actual_scan_rate with_handle handle history ljm.with_stream
       ljm.called ttl_duration_seconds _ttl_duration_s].
  unfold ttl_duration_seconds.
  rewrite Httl, Hnum, Hdur, Hsl, Hh3.
  cbn [c1 with_scan_list with_ttl _ttl_waveform _ttl_num_pulses _ttl_duration_s
       _scan_list_addresses handle ttl_load_events app].
  repeat split.
  - apply Forall2_length in Hnames. unfold Py.len.
    rewrite <- Hnames, length_app. cbn [length]. lia.
  - by rewrite <- !app_assoc.
Qed.

Lemma start_stream_without_pulses_witness :
  0 <= 0
  ∧ _ttl_waveform
      ((prepare_ttl_waveform shipped 0 30 (1 # 1000);;
        start_stream (fun x => x) 3%Q shipped)
         (prepare_ttl_waveform shipped 300 30 (1 # 1000) (init shipped t7).2).2).2
    = None.
Proof.
  split; [done|].
  destruct (start_stream_without_pulses (fun x => x) 3%Q shipped
              (prepare_ttl_waveform shipped 300 30 (1 # 1000) (init shipped t7).2).2
              0 30 (1 # 1000) [0; 2; 4; 4800] 1000)
    as (_ & Hw & _).
  - done.
  - reflexivity.
  - reflexivity.
  - repeat constructor.
  - reflexivity.
  - by intros H.
  - by intros H.
  - exact Hw.
Defined.

(** * Stopping a running stream *)

(** X13.  On a healthy device with a stream running, [stop_stream]
    returns normally after five calls, in this order: it disables
    [STREAM_OUT1], drives the trigger line low, stops the stream, disables
    [STREAM_OUT0] and parks the DAC at the idle level.  The handle stays
    open and the chunks not yet read stay queued.  The controller forgets
    the trigger waveform and its duration but keeps the pulse count, so a
    later [start_stream] runs without the trigger train unless it is
    prepared again. *)
Theorem stop_stream_on_running_stream K c :
  faults (handle c) = [] →
  streaming (handle c) = true →
  let r := stop_stream K c in
  r.1 = Ok tt
  ∧ history (handle r.2)
    = history (handle c)
      ++ [EvWriteName "STREAM_OUT1_ENABLE" (VInt 0) None;
          EvWriteName "FIO_STATE" (VInt 0xFE00) None;
          EvStreamStop None;
          EvWriteName "STREAM_OUT0_ENABLE" (VInt 0) None;
          EvWriteName LED_DAC_CHANNEL (VFloat (LED_IDLE_V K)) None]
  ∧ streaming (handle r.2) = false
  ∧ is_open (handle r.2) = is_open (handle c)
  ∧ pending (handle r.2) = pending (handle c)
  ∧ faults (handle r.2) = []
  ∧ has_ttl_waveform r.2 = false
  ∧ scan_list_names r.2
    = input_names (stream_config c) ++ [stream_out_name STREAM_OUT_INDEX]
  ∧ ttl_duration_seconds r.2 = 0%Q
  ∧ _ttl_num_pulses r.2 = _ttl_num_pulses c
  ∧ _actual_scan_rate r.2 = _actual_scan_rate c.
Proof.
  intros Hf Hs. cbv zeta. rewrite (stop_stream_running_dry K c Hf Hs).
  destruct c as [[] ? ? ? ? ? ? ? ?]. cbn in *. subst.
  rewrite <- !app_assoc. by repeat split.
Qed.

Lemma stop_stream_on_running_stream_witness :
  let c :=
    (start_stream (fun x => x) 3%Q shipped
       (prepare_ttl_waveform shipped 300 30 (1 # 1000) (init shipped t7).2).2).2 in
  faults (handle c) = [] ∧ streaming (handle c) = true
  ∧ has_ttl_waveform c = true
  ∧ (stop_stream shipped c).1 = Ok tt
  ∧ has_ttl_waveform (stop_stream shipped c).2 = false.
Proof.
  intros c. split; [reflexivity|]. split; [reflexivity|]. split; [reflexivity|].
  destruct (stop_stream_on_running_stream shipped c eq_refl eq_refl)
    as (Hok & _ & _ & _ & _ & _ & Httl & _).
  split; [exact Hok | exact Httl].
Defined.

(** * The log keeps step with the scan index *)

#[global] Instance unchanged_preorder {B} (f : Controller → B) :
  PreOrder (unchanged f).
Proof.
  split; [by intros c | intros c1 c2 c3 H1 H2]. unfold unchanged in *. congruence.
Qed.

Section Unchanged.
Context {B : Type} (f : Controller → B).
Hypothesis f_handle : ∀ h c, f (with_handle h c) = f c.
Hypothesis f_ttl : ∀ w d n c, f (with_ttl w d n c) = f c.
Hypothesis f_scan_list : ∀ a n c, f (with_scan_list a n c) = f c.

Lemma dev_unchanged {A} (m : M Device A) : keeps (unchanged f) (dev m).
Proof.
  intros c. unfold dev, unchanged. destruct (m (handle c)) as [r h]. apply f_handle.
Qed.

Lemma same_fields_unchanged c c' : same_fields c c' → unchanged f c c'.
Proof. unfold same_fields, unchanged. intros <-. by rewrite f_handle. Qed.

Lemma _write_optional_register_unchanged name v :
  keeps (unchanged f) (_write_optional_register name v).
Proof. unfold _write_optional_register. keeps_steps ltac:(apply dev_unchanged). Qed.

Lemma disable_ttl_stream_unchanged : keeps (unchanged f) disable_ttl_stream.
Proof.
  unfold disable_ttl_stream, _set_fio0_state.
  keeps_steps ltac:(first [ apply dev_unchanged
                          | apply _write_optional_register_unchanged
                          | apply keeps_modify; intros c; apply f_ttl ]).
Qed.

Lemma stop_stream_unchanged K : keeps (unchanged f) (stop_stream K).
Proof.
  unfold stop_stream.
  keeps_steps ltac:(first [apply dev_unchanged | apply disable_ttl_stream_unchanged]).
Qed.

Lemma close_unchanged K : keeps (unchanged f) (close K).
Proof.
  unfold close.
  keeps_steps ltac:(first [apply dev_unchanged | apply stop_stream_unchanged]).
Qed.

Lemma read_stream_chunk_unchanged : keeps (unchanged f) read_stream_chunk.
Proof. unfold read_stream_chunk. keeps_steps ltac:(apply dev_unchanged). Qed.

Lemma prepare_ttl_waveform_unchanged K num_pulses rate_hz pulse_width_s :
  keeps (unchanged f) (prepare_ttl_waveform K num_pulses rate_hz pulse_width_s).
Proof. intros c. unfold prepare_ttl_waveform. destruct (_ <=? _); apply f_ttl. Qed.

Lemma _configure_channels_unchanged K : keeps (unchanged f) (_configure_channels K).
Proof.
  unfold _configure_channels, _configure_fio0_direction, _set_fio0_state.
  keeps_steps ltac:(first [ apply dev_unchanged
                          | apply _write_optional_register_unchanged
                          | apply keeps_modify; intros c; apply f_scan_list ]).
Qed.

Lemma init_unchanged K d :
  f (init K d).2
  = f {| handle := d; device_type := deviceType d;
         stream_config :=
           {| scan_rate_hz := STREAM_SCAN_RATE_HZ K;
              scans_per_read := SCANS_PER_READ K;
              input_names := [PHOTODETECTOR_AIN; CAMERA_TTL_AIN; LED_MONITOR_AIN];
              stream_out_names := [stream_out_name STREAM_OUT_INDEX] |};
         _scan_list_addresses := []; _actual_scan_rate := STREAM_SCAN_RATE_HZ K;
         _ttl_waveform := None; _ttl_duration_s := 0; _ttl_num_pulses := 0;
         _num_inputs := 0 |}.
Proof.
  unfold init. cbv zeta.
  match goal with |- f (?m ?c).2 = _ => assert (keeps (unchanged f) m) as H end.
  { keeps_steps ltac:(first [ apply _configure_channels_unchanged
                            | apply keeps_modify; intros c; apply f_scan_list ]). }
  apply H.
Qed.

Lemma start_stream_unchanged math_sin math_pi K :
  (∀ r c, f (with_actual_scan_rate r c) = f c) →
  keeps (unchanged f) (start_stream math_sin math_pi K).
Proof.
  intros f_rate. unfold start_stream.
  keeps_steps ltac:(first
    [ apply dev_unchanged
    | apply keeps_modify; intros c; first [apply f_scan_list | apply f_rate]
    | apply (keeps_weaken calm);
        [ intros c c' H; apply same_fields_unchanged, H
        | first [ apply configure_led_stream_out_calm
                | apply configure_ttl_stream_out_calm ] ] ]).
Qed.

End Unchanged.

#[global] Instance in_step_preorder period : PreOrder (in_step period).
Proof.
  split.
  - intros s. split; [done|]. destruct (writer s) as [rows|]; [|done].
    exists []. rewrite app_nil_r. split; [done|]. split; [unfold Py.len; simpl; lia|].
    intros j row H. by destruct j.
  - intros s1 s2 s3 [Hr1 H1] [Hr2 H2]. split; [congruence|].
    destruct (writer s1) as [rows|].
    + destruct H1 as (new1 & Hw1 & Hi1 & Hn1). rewrite Hw1 in H2.
      destruct H2 as (new2 & Hw2 & Hi2 & Hn2).
      exists (new1 ++ new2). rewrite Hw2, Hi2, Hi1, app_assoc.
      split; [done|]. split.
      { unfold Py.len. rewrite length_app. lia. }
      intros j row Hj. apply lookup_app_Some in Hj as [Hj|[Hlen Hj]].
      * by apply Hn1.
      * destruct (Hn2 _ _ Hj) as [vals ->]. exists vals.
        rewrite Hi1. unfold Py.len.
        by replace (sample_index s1 + Z.of_nat (length new1)
                    + Z.of_nat (j - length new1))
          with (sample_index s1 + Z.of_nat j) by lia.
    + destruct H1 as [Hw1 Hi1]. rewrite Hw1 in H2. destruct H2 as [Hw2 Hi2].
      split; congruence.
Qed.

Lemma on_controller_in_step {A} period (m : M Controller A) :
  keeps (unchanged _actual_scan_rate) m → keeps (in_step period) (on_controller m).
Proof.
  intros H s. specialize (H (controller s)). unfold on_controller.
  destruct (m (controller s)) as [r c]. split; [exact H|]. cbn.
  destruct (writer s) as [rows|]; [|done].
  exists []. rewrite app_nil_r. split; [done|]. split; [unfold Py.len; simpl; lia|].
  intros j row Hj. by destruct j.
Qed.

Lemma comprehension_getitem_state (data : list Q) (base : Z) (l : list Z) (s : Run) :
  (comprehension l (fun ch => getitem data (base + ch)) s).2 = s.
Proof.
  induction l as [|ch l IH]; [reflexivity|].
  cbn [comprehension]. unfold mbind, M_bind, bind, getitem at 1.
  destruct (Py.index data (base + ch)); [|reflexivity]. cbn.
  destruct (comprehension l _ s) as [[vs|e] s1]; cbn in *; by subst.
Qed.

Lemma log_scan_in_step n w period data scan s rows :
  writer s = Some rows → in_step period s (log_scan n w period data scan s).2.
Proof.
  intros Hw. unfold log_scan, mbind, M_bind, bind.
  pose proof (comprehension_getitem_state data (scan * w) (Py.range n) s) as Hs.
  destruct (comprehension _ _ s) as [[vals|e] s1]; cbn [snd] in Hs; subst s1.
  - unfold get, writerow, next_sample_index, modify. cbn. split; [done|].
    rewrite Hw. cbn.
    eexists [_]. split; [reflexivity|]. split; [reflexivity|].
    intros [|j] row Hj; [|done]. injection Hj as <-. eexists.
    by rewrite Z.add_0_r.
  - reflexivity.
Qed.

Lemma log_scans_in_step n w period data (l : list Z) s rows :
  writer s = Some rows →
  in_step period s (for_each l (log_scan n w period data) s).2.
Proof.
  revert s rows. induction l as [|scan l IH]; intros s rows Hw; [reflexivity|].
  cbn [for_each]. unfold mbind, M_bind, bind.
  pose proof (log_scan_in_step n w period data scan s rows Hw) as H1.
  destruct (log_scan n w period data scan s) as [[[]|e] s1]; cbn [snd] in *;
    [|exact H1].
  etransitivity; [exact H1|].
  destruct H1 as [_ H1]. rewrite Hw in H1. destruct H1 as (new & Hw1 & _).
  by eapply IH.
Qed.

Lemma log_chunk_in_step K n w period data :
  keeps (in_step period) (log_chunk K n w period data).
Proof.
  intros s. unfold log_chunk, mbind, M_bind, bind, get.
  destruct (writer s) as [rows|] eqn:Hw; [|reflexivity].
  destruct data as [|x data]; [reflexivity|].
  unfold floordiv. destruct (w =? 0); [reflexivity|].
  cbn [mret M_ret ret]. by eapply log_scans_in_step.
Qed.

Lemma poll_in_step K n w period (k : nat) :
  keeps (in_step period) (poll k (log_chunk K n w period)).
Proof.
  induction k as [|k IH]; cbn [poll].
  - apply keeps_ret, _.
  - apply keeps_bind; [apply _ | |].
    + apply on_controller_in_step, read_stream_chunk_unchanged. reflexivity.
    + intros chunk. apply keeps_bind; [apply _ | apply log_chunk_in_step | done].
Qed.

Lemma keeps_try_finally {S A} (R : relation S) `{!PreOrder R} (m : M S A) cleanup :
  keeps R m → keeps R cleanup → keeps R (try_finally m cleanup).
Proof.
  intros Hm Hc s. unfold try_finally. specialize (Hm s).
  destruct (m s) as [r s1]. specialize (Hc s1).
  destruct (cleanup s1) as [[[]|e] s2]; cbn [snd] in *; by etransitivity.
Qed.

(** X14.  The log of a run, on any device and however the run ends.
    Without a log path, or when the constructor, the waveform or the start
    of the stream fails, nothing is logged and the scan index stays 0.
    Otherwise the log starts with the header row and every row after it
    carries its own position, counted from 0 over all the chunks, and that
    position times the sample period as its time stamp; the scan index ends
    as the number of data rows.  A run that returns normally with a log path
    has a log. *)
Theorem run_log_is_numbered math_sin math_pi K device num_frames trigger_rate_hz
    pulse_width_s log_path ttl_reads padding_reads :
  let r := run_pulsed_stream math_sin math_pi K device num_frames
             trigger_rate_hz pulse_width_s log_path ttl_reads padding_reads in
  let period := sample_period (controller r.2) in
  match writer r.2 with
  | None => sample_index r.2 = 0 ∧ (log_path = true → r.1 ≠ Ok tt)
  | Some rows =>
      log_path = true
      ∧ ∃ new,
          rows = map CStr ["sample_index"; "time_s"; PHOTODETECTOR_AIN;
                           CAMERA_TTL_AIN; LED_MONITOR_AIN] :: new
          ∧ sample_index r.2 = Py.len new
          ∧ ∀ (j : nat) row, new !! j = Some row →
              ∃ vals,
                row = CInt (Z.of_nat j)
                      :: CFloat (inject_Z (Z.of_nat j) * period)%Q :: vals
  end.
Proof.
  cbv zeta. unfold run_pulsed_stream.
  pose proof (init_unchanged stream_config ltac:(done) ltac:(done) K device) as Hcfg1.
  destruct (init K device) as [[[]|e] c1]; cbn [snd] in Hcfg1; [|by cbn].
  pose proof (prepare_ttl_waveform_unchanged stream_config ltac:(done) K num_frames
                trigger_rate_hz pulse_width_s c1) as Hcfg2.
  destruct (prepare_ttl_waveform K num_frames trigger_rate_hz pulse_width_s c1)
    as [[[]|e] c2] eqn:E1; cbn [snd] in Hcfg2;
    [erewrite bind_Ok_run; [|apply on_controller_run; exact E1]
    |erewrite bind_Raise_run; [|apply on_controller_run; exact E1]; by cbn].
  pose proof (start_stream_unchanged stream_config ltac:(done) ltac:(done)
                math_sin math_pi K ltac:(done) c2) as Hcfg3.
  destruct (start_stream math_sin math_pi K c2) as [[rate|e] c3] eqn:E2;
    cbn [snd] in Hcfg3;
    [erewrite bind_Ok_run; [|apply on_controller_run; exact E2]
    |erewrite bind_Raise_run; [|apply on_controller_run; exact E2]; by cbn].
  unfold unchanged in *.
  assert (input_names (stream_config c3)
          = [PHOTODETECTOR_AIN; CAMERA_TTL_AIN; LED_MONITOR_AIN]) as Hnames
    by (by rewrite Hcfg3, Hcfg2, Hcfg1).
  erewrite bind_Ok_run; [|reflexivity].
  assert (∀ s : Run, controller s = c3 →
            let n := Py.len (input_names (stream_config (controller s))) in
            in_step (sample_period c3) s
              (try_finally
                 (poll ttl_reads (log_chunk K n n (sample_period (controller s)));;
                  poll padding_reads (log_chunk K n n (sample_period (controller s))))
                 (on_controller (stop_stream K);; on_controller disable_ttl_stream;;
                  on_controller (close K)) s).2) as Hstep.
  { intros s ->. cbv zeta. apply keeps_try_finally; [apply _ | |].
    - apply keeps_bind; [apply _ | apply poll_in_step | intros _; apply poll_in_step].
    - apply keeps_bind; [apply _ | |intros _; apply keeps_bind; [apply _ | |intros _]];
        apply on_controller_in_step;
        [apply stop_stream_unchanged | apply disable_ttl_stream_unchanged
        |apply close_unchanged]; done. }
  destruct log_path.
  - erewrite bind_Ok_run; [|reflexivity]. erewrite bind_Ok_run; [|reflexivity].
    cbv zeta. cbn [controller with_controller].
    match goal with |- context [try_finally ?m ?k ?s] =>
      specialize (Hstep s eq_refl); cbv zeta in Hstep;
      cbn [controller with_controller] in Hstep;
      destruct (try_finally m k s) as [r3 s3] end.
    cbn [fst snd writer sample_index with_controller] in *.
    destruct Hstep as (Hrate & new & -> & -> & Hrows). split; [done|].
    exists new. rewrite Hnames. split; [done|]. split; [done|].
    intros j row Hj. destruct (Hrows j row Hj) as [vals ->]. exists vals.
    unfold sample_period. by rewrite Hrate.
  - erewrite bind_Ok_run; [|reflexivity]. erewrite bind_Ok_run; [|reflexivity].
    cbv zeta. cbn [controller with_controller].
    match goal with |- context [try_finally ?m ?k ?s] =>
      specialize (Hstep s eq_refl); cbv zeta in Hstep;
      cbn [controller with_controller] in Hstep;
      destruct (try_finally m k s) as [r3 s3] end.
    cbn [fst snd writer sample_index with_controller] in *.
    destruct Hstep as (_ & -> & ->). done.
Qed.

(** * A failure before the stream runs *)

(** No call of the library but [ljm.close] closes the handle. *)
Lemma dev_open {A} (m : M Device A) :
  (∀ d, is_open (m d).2 = is_open d) → keeps (unchanged handle_open) (dev m).
Proof.
  intros H c. unfold dev, unchanged, handle_open. specialize (H (handle c)).
  by destruct (m (handle c)) as [r h].
Qed.

Lemma eWriteName_open name v d : is_open (ljm.eWriteName name v d).2 = is_open d.
Proof. unfold ljm.eWriteName. by destruct (ljm.next_fault d) as [[code|] fs]. Qed.

Lemma eWriteNames_open n names vs d :
  is_open (ljm.eWriteNames n names vs d).2 = is_open d.
Proof. unfold ljm.eWriteNames. by destruct (ljm.next_fault d) as [[code|] fs]. Qed.

Lemma eStreamStop_open d : is_open (ljm.eStreamStop d).2 = is_open d.
Proof.
  unfold ljm.eStreamStop.
  by destruct (ljm.next_fault d) as [[code|] fs], (streaming d).
Qed.

Lemma eStreamStart_open spr n l rate d :
  is_open (ljm.eStreamStart spr n l rate d).2 = is_open d.
Proof.
  unfold ljm.eStreamStart.
  by destruct (ljm.next_fault d) as [[code|] fs], (streaming d).
Qed.

Lemma namesToAddresses_open n names d :
  is_open (ljm.namesToAddresses n names d).2 = is_open d.
Proof.
  unfold ljm.namesToAddresses. generalize (Py.prefix n names). intros l.
  induction l as [|x l IH]; [reflexivity|].
  cbn [ljm.namesToAddresses_go]. unfold mbind, M_bind, bind, ljm.nameToAddress.
  destruct (addresses d !! x); [|reflexivity].
  by destruct (ljm.namesToAddresses_go l d) as [[r|e] d'].
Qed.

Ltac open_base :=
  first [ apply dev_open;
          first [ apply eWriteName_open | apply eWriteNames_open
                | apply eStreamStop_open | apply eStreamStart_open
                | apply namesToAddresses_open ]
        | apply keeps_modify; intros ?; reflexivity
        | apply (keeps_weaken calm);
            [ intros ? ? H; apply (calm_open _ _ H)
            | first [ apply _write_optional_register_calm
                    | apply configure_led_stream_out_calm
                    | apply configure_ttl_stream_out_calm ] ] ].

Lemma init_open K d : is_open (handle (init K d).2) = is_open d.
Proof.
  unfold init. cbv zeta.
  match goal with
  | |- is_open (handle (?m ?c).2) = _ =>
      assert (keeps (unchanged handle_open) m) as H
  end.
  { unfold _configure_channels, _configure_fio0_direction, _set_fio0_state.
    keeps_steps open_base. }
  apply H.
Qed.

Lemma start_stream_open math_sin math_pi K :
  keeps (unchanged handle_open) (start_stream math_sin math_pi K).
Proof. unfold start_stream. keeps_steps open_base. Qed.

(** X15.  The [try] of [run_pulsed_stream] starts after the stream has:
    when the constructor or [start_stream] raises, the error goes to the
    caller with none of the cleanup run.  The run ends in the state the
    failed call left, with the handle as open as it was and nothing
    logged. *)
Theorem run_pulsed_stream_setup_failure math_sin math_pi K device num_frames
    trigger_rate_hz pulse_width_s log_path ttl_reads padding_reads e :
  let c :=
    (prepare_ttl_waveform K num_frames trigger_rate_hz pulse_width_s
       (init K device).2).2 in
  (init K device).1 = Raise e
  ∨ ((init K device).1 = Ok tt
     ∧ (start_stream math_sin math_pi K c).1 = Raise e) →
  let r := run_pulsed_stream math_sin math_pi K device num_frames
             trigger_rate_hz pulse_width_s log_path ttl_reads padding_reads in
  r.1 = Raise e
  ∧ controller r.2
    = (if (init K device).1 is Ok _ then (start_stream math_sin math_pi K c).2
       else (init K device).2)
  ∧ is_open (handle (controller r.2)) = is_open device
  ∧ writer r.2 = None.
Proof.
  cbv zeta. intros H. unfold run_pulsed_stream.
  pose proof (init_open K device) as Hopen1.
  destruct (init K device) as [[[]|e1] c1]; cbn [fst snd] in *.
  - destruct H as [H|[_ H]]; [discriminate|].
    assert (prepare_ttl_waveform K num_frames trigger_rate_hz pulse_width_s c1
            = (Ok tt, (prepare_ttl_waveform K num_frames trigger_rate_hz
                         pulse_width_s c1).2)) as Hprep.
    { unfold prepare_ttl_waveform. by destruct (_ <=? _). }
    assert (is_open (handle (prepare_ttl_waveform K num_frames trigger_rate_hz
                               pulse_width_s c1).2) = is_open (handle c1)) as Hopen2.
    { unfold prepare_ttl_waveform. by destruct (_ <=? _). }
    set (c2 := (prepare_ttl_waveform K num_frames trigger_rate_hz pulse_width_s c1).2)
      in *.
    pose proof (start_stream_open math_sin math_pi K c2) as Hopen3.
    unfold unchanged, handle_open in Hopen3.
    destruct (start_stream math_sin math_pi K c2) as [r3 c3] eqn:E3.
    cbn [fst snd] in *. subst r3.
    erewrite bind_Ok_run; [|apply on_controller_run; exact Hprep].
    erewrite bind_Raise_run; [|apply on_controller_run; exact E3].
    cbn [fst snd controller with_controller writer]. repeat split. congruence.
  - destruct H as [H|[H _]]; [|discriminate]. injection H as ->. by repeat split.
Qed.

Lemma run_pulsed_stream_setup_failure_witness :
  let device := scripted_t7 (fun r => r) [] [None; Some 1234] in
  (init shipped device).1 = Raise (LJMError 1234)
  ∧ is_open
      (handle
         (controller
            (run_pulsed_stream (fun x => x) 3%Q shipped device 300 30 (1 # 1000)
               true 1 1).2)) = true.
Proof.
  intros device. split; [reflexivity|].
  destruct (run_pulsed_stream_setup_failure (fun x => x) 3%Q shipped device 300 30
              (1 # 1000) true 1 1 (LJMError 1234)) as (_ & _ & Hopen & _).
  - left. reflexivity.
  - exact Hopen.
Defined.


(** * The log of a run *)











(** * Closing the controller *)

Lemma stop_stream_open K : keeps (unchanged handle_open) (stop_stream K).
Proof.
  unfold stop_stream, disable_ttl_stream, _set_fio0_state.
  keeps_steps open_base.
Qed.

(** X4.  [close] lets no error of [stop_stream] out: whatever
    [stop_stream] did, and whatever it raised, the next and last call is
    [ljm.close], made on the state [stop_stream] left.  [close] returns
    normally exactly when [ljm.close] goes through, and then the handle is
    closed; when [ljm.close] fails its error is raised to the caller and
    the handle is as open as it was. *)
Theorem close_outcome (K : Settings) (c : Controller) :
  let c1 := (stop_stream K c).2 in
  let r := close K c in
  match (ljm.next_fault (handle c1)).1 with
  | None =>
      r.1 = Ok tt
      ∧ is_open (handle r.2) = false
      ∧ history (handle r.2) = history (handle c1) ++ [EvClose]
  | Some code =>
      r.1 = Raise (LJMError code)
      ∧ is_open (handle r.2) = is_open (handle c)
      ∧ history (handle r.2) = history (handle c1) ++ [EvCloseFailed code]
  end.
Proof.
  cbv zeta. unfold close, try_except_LJMError, mbind, M_bind, bind.
  pose proof (stop_stream_raises K c) as Hraise.
  pose proof (stop_stream_open K c) as Hopen. unfold unchanged, handle_open in Hopen.
  destruct (stop_stream K c) as [[[]|e] c1]; cbn [fst snd] in *.
  - cbn [mret M_ret ret]. unfold dev, ljm.close.
    destruct (ljm.next_fault (handle c1)) as [[code|] fs]; cbn; by repeat split.
  - destruct (Hraise e eq_refl) as [code ->]. cbn [mret M_ret ret].
    unfold dev, ljm.close.
    destruct (ljm.next_fault (handle c1)) as [[code'|] fs]; cbn; by repeat split.
Qed.

(** On a controller that was never started, with the handle refusing to
    close: [stop_stream] fails on the idle stream, which [close] swallows, and
    the error of [ljm.close] is the one the caller sees. *)
Example close_on_a_handle_that_will_not_close :
  let c := (init shipped (scripted_t7 (fun r => r) []
                            (List.repeat None 11 ++ [Some 1224]))).2 in
  (stop_stream shipped c).1 = Raise (LJMError errorcodes.STREAM_NOT_RUNNING)
  ∧ (close shipped c).1 = Raise (LJMError 1224)
  ∧ is_open (handle (close shipped c).2) = true.
Proof. vm_compute. repeat split. Qed.
